(** * Scan-cycle logic of the boiler controller

    A shallow embedding of the scan-cycle state machines of the
    repository and the properties of the specification that concern them:

    - [Controller] : [Controller.py], class [BoilerController]
    - [Simple]     : [simple_boiler_test.py], class [SimpleBoilerController]
    - [Real]       : [boiler_controller_real.py], class [BoilerController]
    - [Emu]        : [emulate_fatek.py], class [FATEK_Emulator]
    - [PLC]        : [test_boiler.py], class [PLCEmulator]
    - [STTest]     : [test_st_code.py], class [STCodeTester]

    [RealPipeline] is the cycle of [boiler_controller_real.py] taken from
    the readings, with its signal filter; [RealClock] holds its two steps
    that compute a deadline, with the float sum as a parameter.

    Every method that mutates [self] is a function from the object's state
    to the object's state.  Sensors and commands, which other threads or
    the Modbus layer write between two cycles, are the input of a cycle.
    Printing and logging are left out: they do not touch the state. *)

From Stdlib Require Import ZArith QArith Bool List Lia.
Import ListNotations.
Open Scope Z_scope.

(** Running a cycle function over the inputs of successive cycles. *)
Definition run {S I : Type} (cycle : I -> S -> S) (s : S) (l : list I) : S :=
  fold_left (fun acc i => cycle i acc) l s.

(** Comparisons on Python numbers that hold floats in the source; the
    comparisons themselves are exact. *)
Definition Qgeb (x y : Q) : bool := Qle_bool y x.
Definition Qltb (x y : Q) : bool := negb (Qle_bool y x).
Definition Qgtb (x y : Q) : bool := negb (Qle_bool x y).

(* ================================================================== *)
(** * Controller.py *)
(* ================================================================== *)
Module Controller.

Definition ADC_MAX : Z := 4095.
Definition NAPRUGA_MAX : Z := 500.
Definition TEMP_MAX : Z := 150.
Definition NAPRUGA_AVAR_VOLT : Z := 400.
Definition NAPRUGA_HYST_VOLT : Z := 380.
Definition TEMP_AVAR_GRAD : Z := 80.
Definition TEMP_HYST_GRAD : Z := 75.

(** [AnalogInput.value] setter: the stored value is clamped to the ADC
    range. *)
Definition clamp_adc (v : Z) : Z := Z.max 0 (Z.min ADC_MAX v).

(** [AnalogInput.adc_to_physical] *)
Definition adc_to_physical (value max_physical : Z) : Z :=
  value * max_physical / ADC_MAX.

(** What the [AnalogInput] and [DigitalInput] objects hold during one
    scan. *)
Record inputs := mkInputs {
  AI_NAPRUGA : Z;
  AI_TEMP_BOILER : Z;
  AI_TEMP_VODA : Z;
  AI_TEMP_2 : Z;
  AI_TISK_MASLA : Z;
  X_GAZ : bool;
  X_VAKUUM : bool;
  X_TISK_MASLA_DI : bool;
  X_AVARIA_EXT : bool;
  CMD_ROZET_1 : bool;
  CMD_ROZET_2 : bool;
  CMD_START : bool;
  CMD_STOP : bool
}.

(** The [DigitalOutput] objects. *)
Record outputs := mkOutputs {
  Y_KLAPAN_GAZ : bool;
  Y_ROZET_1 : bool;
  Y_ROZET_2 : bool;
  Y_AVARIA_SIGNAL : bool;
  Y_DOZV_ROBOTY : bool
}.

(** The internal markers. *)
Record markers := mkMarkers {
  M_AVARIA_NAPRUGA : bool;
  M_AVARIA_TEMP : bool;
  M_GAZ_IE : bool;
  M_VAKUUM_IE : bool;
  M_TISK_NORMA : bool;
  M_AVARIA_VAKUUM : bool;
  M_SYSTEM_READY : bool;
  M_ZAGALNA_AVARIA : bool;
  M_SYSTEM_ON : bool
}.

Record physical := mkPhysical {
  NAPRUGA_VOLT : Z;
  TEMP_BOILER_GRAD : Z;
  TEMP_VODA_GRAD : Z;
  TEMP_2_GRAD : Z
}.

(** The [stats] dictionary. *)
Record stats := mkStats {
  starts : Z;
  stops : Z;
  alarms : Z;
  gas_off_count : Z;
  vakuum_off_count : Z
}.

Record state := mkState {
  Y : outputs;
  M : markers;
  PHY : physical;
  scan_count : Z;
  st : stats;
  running : bool          (* the flag of the scan loop, [self.running] *)
}.

Definition set_Y (y : outputs) (s : state) : state :=
  mkState y (M s) (PHY s) (scan_count s) (st s) (running s).
Definition set_M (m : markers) (s : state) : state :=
  mkState (Y s) m (PHY s) (scan_count s) (st s) (running s).
Definition set_PHY (p : physical) (s : state) : state :=
  mkState (Y s) (M s) p (scan_count s) (st s) (running s).
Definition set_st (c : stats) (s : state) : state :=
  mkState (Y s) (M s) (PHY s) (scan_count s) c (running s).

(** Assignments to one marker. *)
Definition set_M_AVARIA_NAPRUGA (b : bool) (s : state) : state :=
  let m := M s in
  set_M (mkMarkers b (M_AVARIA_TEMP m) (M_GAZ_IE m) (M_VAKUUM_IE m)
           (M_TISK_NORMA m) (M_AVARIA_VAKUUM m) (M_SYSTEM_READY m)
           (M_ZAGALNA_AVARIA m) (M_SYSTEM_ON m)) s.
Definition set_M_AVARIA_TEMP (b : bool) (s : state) : state :=
  let m := M s in
  set_M (mkMarkers (M_AVARIA_NAPRUGA m) b (M_GAZ_IE m) (M_VAKUUM_IE m)
           (M_TISK_NORMA m) (M_AVARIA_VAKUUM m) (M_SYSTEM_READY m)
           (M_ZAGALNA_AVARIA m) (M_SYSTEM_ON m)) s.
Definition set_M_GAZ_IE (b : bool) (s : state) : state :=
  let m := M s in
  set_M (mkMarkers (M_AVARIA_NAPRUGA m) (M_AVARIA_TEMP m) b (M_VAKUUM_IE m)
           (M_TISK_NORMA m) (M_AVARIA_VAKUUM m) (M_SYSTEM_READY m)
           (M_ZAGALNA_AVARIA m) (M_SYSTEM_ON m)) s.
Definition set_M_VAKUUM_IE (b : bool) (s : state) : state :=
  let m := M s in
  set_M (mkMarkers (M_AVARIA_NAPRUGA m) (M_AVARIA_TEMP m) (M_GAZ_IE m) b
           (M_TISK_NORMA m) (M_AVARIA_VAKUUM m) (M_SYSTEM_READY m)
           (M_ZAGALNA_AVARIA m) (M_SYSTEM_ON m)) s.
Definition set_M_TISK_NORMA (b : bool) (s : state) : state :=
  let m := M s in
  set_M (mkMarkers (M_AVARIA_NAPRUGA m) (M_AVARIA_TEMP m) (M_GAZ_IE m)
           (M_VAKUUM_IE m) b (M_AVARIA_VAKUUM m) (M_SYSTEM_READY m)
           (M_ZAGALNA_AVARIA m) (M_SYSTEM_ON m)) s.
Definition set_M_AVARIA_VAKUUM (b : bool) (s : state) : state :=
  let m := M s in
  set_M (mkMarkers (M_AVARIA_NAPRUGA m) (M_AVARIA_TEMP m) (M_GAZ_IE m)
           (M_VAKUUM_IE m) (M_TISK_NORMA m) b (M_SYSTEM_READY m)
           (M_ZAGALNA_AVARIA m) (M_SYSTEM_ON m)) s.
Definition set_M_SYSTEM_READY (b : bool) (s : state) : state :=
  let m := M s in
  set_M (mkMarkers (M_AVARIA_NAPRUGA m) (M_AVARIA_TEMP m) (M_GAZ_IE m)
           (M_VAKUUM_IE m) (M_TISK_NORMA m) (M_AVARIA_VAKUUM m) b
           (M_ZAGALNA_AVARIA m) (M_SYSTEM_ON m)) s.
Definition set_M_ZAGALNA_AVARIA (b : bool) (s : state) : state :=
  let m := M s in
  set_M (mkMarkers (M_AVARIA_NAPRUGA m) (M_AVARIA_TEMP m) (M_GAZ_IE m)
           (M_VAKUUM_IE m) (M_TISK_NORMA m) (M_AVARIA_VAKUUM m)
           (M_SYSTEM_READY m) b (M_SYSTEM_ON m)) s.
Definition set_M_SYSTEM_ON (b : bool) (s : state) : state :=
  let m := M s in
  set_M (mkMarkers (M_AVARIA_NAPRUGA m) (M_AVARIA_TEMP m) (M_GAZ_IE m)
           (M_VAKUUM_IE m) (M_TISK_NORMA m) (M_AVARIA_VAKUUM m)
           (M_SYSTEM_READY m) (M_ZAGALNA_AVARIA m) b) s.

(** [self.stats[k] += 1] *)
Definition incr_starts (s : state) : state :=
  let c := st s in
  set_st (mkStats (starts c + 1) (stops c) (alarms c) (gas_off_count c)
            (vakuum_off_count c)) s.
Definition incr_stops (s : state) : state :=
  let c := st s in
  set_st (mkStats (starts c) (stops c + 1) (alarms c) (gas_off_count c)
            (vakuum_off_count c)) s.
Definition incr_alarms (s : state) : state :=
  let c := st s in
  set_st (mkStats (starts c) (stops c) (alarms c + 1) (gas_off_count c)
            (vakuum_off_count c)) s.
Definition incr_gas_off_count (s : state) : state :=
  let c := st s in
  set_st (mkStats (starts c) (stops c) (alarms c) (gas_off_count c + 1)
            (vakuum_off_count c)) s.
Definition incr_vakuum_off_count (s : state) : state :=
  let c := st s in
  set_st (mkStats (starts c) (stops c) (alarms c) (gas_off_count c)
            (vakuum_off_count c + 1)) s.

(** [__init__] *)
Definition init : state :=
  mkState (mkOutputs false false false false false)
          (mkMarkers false false false false false false false false false)
          (mkPhysical 0 0 0 0)
          0
          (mkStats 0 0 0 0 0)
          false.

(** Block 1 *)
Definition _update_physical_values (i : inputs) (s : state) : state :=
  set_PHY (mkPhysical (adc_to_physical (AI_NAPRUGA i) NAPRUGA_MAX)
                      (adc_to_physical (AI_TEMP_BOILER i) TEMP_MAX)
                      (adc_to_physical (AI_TEMP_VODA i) TEMP_MAX)
                      (adc_to_physical (AI_TEMP_2 i) TEMP_MAX)) s.

(** Block 2 *)
Definition _check_voltage_alarm (s : state) : state :=
  if NAPRUGA_VOLT (PHY s) >=? NAPRUGA_AVAR_VOLT then
    set_M_AVARIA_NAPRUGA true s
  else if (NAPRUGA_VOLT (PHY s) <? NAPRUGA_HYST_VOLT)
            && M_AVARIA_NAPRUGA (M s) then
    set_M_AVARIA_NAPRUGA false s
  else s.

(** Block 3 *)
Definition _check_temperature_alarm (s : state) : state :=
  if TEMP_BOILER_GRAD (PHY s) >=? TEMP_AVAR_GRAD then
    set_M_AVARIA_TEMP true s
  else if (TEMP_BOILER_GRAD (PHY s) <? TEMP_HYST_GRAD)
            && M_AVARIA_TEMP (M s) then
    set_M_AVARIA_TEMP false s
  else s.

(** Block 4 *)
Definition _check_gas_and_vakuum (i : inputs) (s : state) : state :=
  let old_gaz := M_GAZ_IE (M s) in
  let s := set_M_GAZ_IE (X_GAZ i) s in
  let s :=
    if negb (Bool.eqb old_gaz (M_GAZ_IE (M s))) then
      if negb (M_GAZ_IE (M s)) then incr_gas_off_count s else s
    else s in
  let old_vakuum := M_VAKUUM_IE (M s) in
  let s := set_M_VAKUUM_IE (X_VAKUUM i) s in
  if negb (Bool.eqb old_vakuum (M_VAKUUM_IE (M s))) then
    if negb (M_VAKUUM_IE (M s)) then
      set_M_AVARIA_VAKUUM true (incr_vakuum_off_count s)
    else
      set_M_AVARIA_VAKUUM false s
  else s.

(** Block 5 *)
Definition _check_oil_pressure (i : inputs) (s : state) : state :=
  set_M_TISK_NORMA (X_TISK_MASLA_DI i) s.

(** Block 6 *)
Definition _update_general_alarm (i : inputs) (s : state) : state :=
  let old_alarm := M_ZAGALNA_AVARIA (M s) in
  let s :=
    set_M_ZAGALNA_AVARIA
      (M_AVARIA_NAPRUGA (M s) || M_AVARIA_TEMP (M s)
       || M_AVARIA_VAKUUM (M s) || negb (M_TISK_NORMA (M s))
       || X_AVARIA_EXT i) s in
  if negb (Bool.eqb old_alarm (M_ZAGALNA_AVARIA (M s))) then
    if M_ZAGALNA_AVARIA (M s) then incr_alarms s else s
  else s.

(** Block 7 *)
Definition _handle_start_stop (i : inputs) (s : state) : state :=
  let s :=
    if CMD_START i && negb (M_SYSTEM_ON (M s))
       && negb (M_ZAGALNA_AVARIA (M s)) then
      incr_starts (set_M_SYSTEM_ON true s)
    else s in
  if CMD_STOP i || M_ZAGALNA_AVARIA (M s) then
    if M_SYSTEM_ON (M s) then incr_stops (set_M_SYSTEM_ON false s) else s
  else s.

(** Block 8 *)
Definition _update_system_ready (i : inputs) (s : state) : state :=
  set_M_SYSTEM_READY
    (negb (M_AVARIA_NAPRUGA (M s)) && negb (M_AVARIA_TEMP (M s))
     && M_GAZ_IE (M s) && M_VAKUUM_IE (M s) && M_TISK_NORMA (M s)
     && negb (X_AVARIA_EXT i) && M_SYSTEM_ON (M s)) s.

(** Block 9 *)
Definition _control_gas_valve (s : state) : state :=
  let should_open := M_SYSTEM_READY (M s) in
  let should_open := if negb (M_VAKUUM_IE (M s)) then false else should_open in
  let y := Y s in
  set_Y (mkOutputs should_open (Y_ROZET_1 y) (Y_ROZET_2 y)
           (Y_AVARIA_SIGNAL y) (Y_DOZV_ROBOTY y)) s.

(** Block 10 *)
Definition _control_sockets (i : inputs) (s : state) : state :=
  let new_rozet1 := CMD_ROZET_1 i && negb (M_ZAGALNA_AVARIA (M s)) in
  let s :=
    let y := Y s in
    set_Y (mkOutputs (Y_KLAPAN_GAZ y) new_rozet1 (Y_ROZET_2 y)
             (Y_AVARIA_SIGNAL y) (Y_DOZV_ROBOTY y)) s in
  let new_rozet2 := CMD_ROZET_2 i && negb (M_ZAGALNA_AVARIA (M s)) in
  let y := Y s in
  set_Y (mkOutputs (Y_KLAPAN_GAZ y) (Y_ROZET_1 y) new_rozet2
           (Y_AVARIA_SIGNAL y) (Y_DOZV_ROBOTY y)) s.

(** Block 11 *)
Definition _control_alarm_signal (s : state) : state :=
  let y := Y s in
  set_Y (mkOutputs (Y_KLAPAN_GAZ y) (Y_ROZET_1 y) (Y_ROZET_2 y)
           (M_ZAGALNA_AVARIA (M s)) (Y_DOZV_ROBOTY y)) s.

(** Block 12 *)
Definition _control_operation_permit (s : state) : state :=
  let y := Y s in
  set_Y (mkOutputs (Y_KLAPAN_GAZ y) (Y_ROZET_1 y) (Y_ROZET_2 y)
           (Y_AVARIA_SIGNAL y) (M_SYSTEM_READY (M s))) s.

(** The state just after the readiness step (steps 1 to 6 of
    [scan_cycle]). *)
Definition upto_ready (i : inputs) (s : state) : state :=
  let s := _update_physical_values i s in
  let s := _check_voltage_alarm s in
  let s := _check_temperature_alarm s in
  let s := _check_gas_and_vakuum i s in
  let s := _check_oil_pressure i s in
  let s := _update_general_alarm i s in
  let s := _handle_start_stop i s in
  _update_system_ready i s.

Definition scan_cycle (i : inputs) (s : state) : state :=
  let s := upto_ready i s in
  let s := _control_gas_valve s in
  let s := _control_sockets i s in
  let s := _control_alarm_signal s in
  let s := _control_operation_permit s in
  mkState (Y s) (M s) (PHY s) (scan_count s + 1) (st s) (running s).

(** [start]: the scan loop is switched on; the cycles it then runs are
    [scan_cycle]. *)
Definition start (s : state) : state :=
  if running s then s
  else mkState (Y s) (M s) (PHY s) (scan_count s) (st s) true.

(** [stop]: the scan loop is told to end and joined; nothing else is
    written. *)
Definition stop (s : state) : state :=
  mkState (Y s) (M s) (PHY s) (scan_count s) (st s) false.

End Controller.

(* ================================================================== *)
(** * simple_boiler_test.py *)
(* ================================================================== *)
Module Simple.

Definition VOLTAGE_TRIP : Q := 400.
Definition VOLTAGE_RESET : Q := 380.
Definition TEMP_TRIP : Q := 80.
Definition TEMP_RESET : Q := 75.

(** The sensor and command attributes, which the setters and the
    interactive loop write between two cycles. *)
Record inputs := mkInputs {
  voltage : Q;
  boiler_temp : Q;
  water_temp : Q;
  gas_present : bool;
  vacuum_present : bool;
  oil_pressure_ok : bool;
  steam_pressure_ok : bool;
  emergency_stop : bool;
  cmd_start : bool;
  cmd_stop : bool;
  cmd_socket1 : bool;
  cmd_socket2 : bool
}.

Record outputs := mkOutputs {
  gas_valve : bool;
  socket1 : bool;
  socket2 : bool;
  water_pump : bool;
  oil_pump : bool;
  alarm_light : bool
}.

Record alarm_flags := mkAlarms {
  alm_voltage_high : bool;
  alm_temp_high : bool;
  alm_no_gas : bool;
  alm_no_vacuum : bool;
  alm_oil_pressure_low : bool;
  alm_steam_pressure_bad : bool;
  alm_any_alarm : bool
}.

(** The [stats] dictionary. *)
Record stats_t := mkStats {
  starts : Z;
  stops : Z;
  alarms : Z;
  gas_failures : Z;
  vacuum_failures : Z
}.

(** The edge detectors. *)
Record edges := mkEdges {
  start_old : bool;
  gas_old : bool;
  vacuum_old : bool;
  alarm_old : bool
}.

Record state := mkState {
  out : outputs;
  alm : alarm_flags;
  system_running : bool;
  system_ready : bool;
  stats : stats_t;
  ff : edges;
  running : bool            (* the flag of the control loop *)
}.

(** [__init__] *)
Definition init : state :=
  mkState (mkOutputs false false false false false false)
          (mkAlarms false false false false false false false)
          false false
          (mkStats 0 0 0 0 0)
          (mkEdges false false false false)
          false.

Definition set_out (o : outputs) (s : state) : state :=
  mkState o (alm s) (system_running s) (system_ready s) (stats s) (ff s)
          (running s).
Definition set_alm (a : alarm_flags) (s : state) : state :=
  mkState (out s) a (system_running s) (system_ready s) (stats s) (ff s)
          (running s).
Definition set_system_running (b : bool) (s : state) : state :=
  mkState (out s) (alm s) b (system_ready s) (stats s) (ff s) (running s).
Definition set_system_ready (b : bool) (s : state) : state :=
  mkState (out s) (alm s) (system_running s) b (stats s) (ff s) (running s).
Definition set_stats (c : stats_t) (s : state) : state :=
  mkState (out s) (alm s) (system_running s) (system_ready s) c (ff s)
          (running s).
Definition set_ff (e : edges) (s : state) : state :=
  mkState (out s) (alm s) (system_running s) (system_ready s) (stats s) e
          (running s).

Definition incr_starts (s : state) : state :=
  let c := stats s in
  set_stats (mkStats (starts c + 1) (stops c) (alarms c) (gas_failures c)
               (vacuum_failures c)) s.
Definition incr_stops (s : state) : state :=
  let c := stats s in
  set_stats (mkStats (starts c) (stops c + 1) (alarms c) (gas_failures c)
               (vacuum_failures c)) s.
Definition incr_alarms (s : state) : state :=
  let c := stats s in
  set_stats (mkStats (starts c) (stops c) (alarms c + 1) (gas_failures c)
               (vacuum_failures c)) s.
Definition incr_gas_failures (s : state) : state :=
  let c := stats s in
  set_stats (mkStats (starts c) (stops c) (alarms c) (gas_failures c + 1)
               (vacuum_failures c)) s.
Definition incr_vacuum_failures (s : state) : state :=
  let c := stats s in
  set_stats (mkStats (starts c) (stops c) (alarms c) (gas_failures c)
               (vacuum_failures c + 1)) s.

Definition check_alarms (i : inputs) (s : state) : state :=
  let old_alarm := alm_any_alarm (alm s) in
  let vh :=
    if Qgeb (voltage i) VOLTAGE_TRIP then true
    else if Qltb (voltage i) VOLTAGE_RESET then false
    else alm_voltage_high (alm s) in
  let th :=
    if Qgeb (boiler_temp i) TEMP_TRIP then true
    else if Qltb (boiler_temp i) TEMP_RESET then false
    else alm_temp_high (alm s) in
  let no_gas := negb (gas_present i) in
  let no_vacuum := negb (vacuum_present i) in
  let oil_low := negb (oil_pressure_ok i) in
  let steam_bad := negb (steam_pressure_ok i) in
  let any :=
    vh || th || no_gas || no_vacuum || oil_low || steam_bad
    || emergency_stop i in
  let s := set_alm (mkAlarms vh th no_gas no_vacuum oil_low steam_bad any) s in
  if alm_any_alarm (alm s) && negb old_alarm then incr_alarms s else s.

Definition get_alarm_code (i : inputs) (s : state) : Z :=
  if alm_voltage_high (alm s) then 1
  else if alm_temp_high (alm s) then 2
  else if alm_no_gas (alm s) then 3
  else if alm_no_vacuum (alm s) then 4
  else if alm_oil_pressure_low (alm s) then 5
  else if alm_steam_pressure_bad (alm s) then 6
  else if emergency_stop i then 7
  else 0.

Definition handle_start_stop (i : inputs) (s : state) : state :=
  let s :=
    if cmd_start i && negb (start_old (ff s)) then
      if negb (system_running s) && negb (alm_any_alarm (alm s)) then
        incr_starts (set_system_running true s)
      else s
    else s in
  let s :=
    if cmd_stop i || alm_any_alarm (alm s) then
      if system_running s then incr_stops (set_system_running false s) else s
    else s in
  let e := ff s in
  set_ff (mkEdges (cmd_start i) (gas_old e) (vacuum_old e) (alarm_old e)) s.

Definition update_ready (i : inputs) (s : state) : state :=
  set_system_ready
    (negb (alm_voltage_high (alm s)) && negb (alm_temp_high (alm s))
     && gas_present i && vacuum_present i && oil_pressure_ok i
     && steam_pressure_ok i && negb (emergency_stop i)
     && system_running s) s.

Definition control_outputs (i : inputs) (s : state) : state :=
  let gas_valve0 := if system_ready s then true else false in
  let gas_valve1 := if negb (vacuum_present i) then false else gas_valve0 in
  set_out
    (mkOutputs gas_valve1
               (cmd_socket1 i && negb (alm_any_alarm (alm s)))
               (cmd_socket2 i && negb (alm_any_alarm (alm s)))
               (system_ready s && Qgtb (water_temp i) 20)
               (system_ready s && oil_pressure_ok i)
               (alm_any_alarm (alm s))) s.

Definition update_statistics (i : inputs) (s : state) : state :=
  let s :=
    if negb (gas_present i) && gas_old (ff s)
    then incr_gas_failures s else s in
  let s :=
    if negb (vacuum_present i) && vacuum_old (ff s)
    then incr_vacuum_failures s else s in
  set_ff (mkEdges (start_old (ff s)) (gas_present i) (vacuum_present i)
            (alm_any_alarm (alm s))) s.

(** The state just after the readiness step. *)
Definition upto_ready (i : inputs) (s : state) : state :=
  update_ready i (handle_start_stop i (check_alarms i s)).

Definition scan_cycle (i : inputs) (s : state) : state :=
  update_statistics i (control_outputs i (upto_ready i s)).

(** [stop] *)
Definition stop (s : state) : state :=
  if negb (running s) then s
  else
    mkState (mkOutputs false false false false false false)
            (alm s) (system_running s) (system_ready s) (stats s) (ff s)
            false.

(** [start]: the control loop is switched on; the cycles it then runs are
    [scan_cycle]. *)
Definition start (s : state) : state :=
  if running s then s
  else mkState (out s) (alm s) (system_running s) (system_ready s) (stats s)
               (ff s) true.

End Simple.

(* ================================================================== *)
(** * boiler_controller_real.py *)
(* ================================================================== *)
Module Real.

(** [BoilerConfig] *)
Definition VOLTAGE_TRIP : Q := 400.
Definition VOLTAGE_RESET : Q := 380.
Definition TEMP_TRIP : Q := 80.
Definition TEMP_RESET : Q := 75.

(** One record for each dictionary of the object; a field is a key. *)
Module Sensors.
Record t := mk {
  voltage : Q;
  boiler_temp : Q;
  water_temp : Q;
  temp1 : Q;
  temp2 : Q;
  oil_pressure : Q;
  steam_pressure : Q;
  gas_present : bool;
  vacuum_present : bool;
  oil_pressure_ok : bool;
  steam_pressure_ok : bool;
  emergency_stop : bool;
  manual_mode : bool
}.
End Sensors.

Module Commands.
Record t := mk {
  start : bool;
  stop : bool;
  socket1 : bool;
  socket2 : bool;
  reset : bool
}.
End Commands.

Module Outputs.
Record t := mk {
  gas_valve : bool;
  socket1 : bool;
  socket2 : bool;
  water_pump : bool;
  oil_pump : bool;
  alarm_light : bool;
  permit_run : bool;
  fan_vent : bool
}.
Definition all_off : t := mk false false false false false false false false.
End Outputs.

Module Alarms.
Record t := mk {
  voltage_high : bool;
  temp_high : bool;
  no_gas : bool;
  no_vacuum : bool;
  oil_pressure_low : bool;
  steam_pressure_bad : bool;
  emergency : bool;
  any_alarm : bool
}.
End Alarms.

Module SystemState.
Record t := mk {
  enabled : bool;
  running : bool;
  ready : bool;
  stable : bool
}.
End SystemState.

Module Stats.
Record t := mk {
  starts : Z;
  stops : Z;
  alarms : Z;
  gas_failures : Z;
  vacuum_failures : Z;
  runtime_seconds : Z;
  last_start_time : option Q
}.
End Stats.

Module Timers.
Record t := mk {
  startup_delay : Q;
  gas_valve_delay : Q;
  emergency_delay : Q;
  watchdog : Q
}.
End Timers.

Module EdgeDetectors.
Record t := mk {
  start_old : bool;
  stop_old : bool;
  gas_old : bool;
  vacuum_old : bool;
  alarm_old : bool
}.
End EdgeDetectors.

(** What a cycle consumes: the [sensors] dictionary as [check_alarms] finds
    it (after [read_sensors] and [apply_filters]), the [commands]
    dictionary after [read_commands], and the two readings of the clock,
    in [handle_start_stop_logic] and in [control_gas_valve]. *)
Record inputs := mkInputs {
  sensors : Sensors.t;
  commands : Commands.t;
  time_start_stop : Q;
  time_gas_valve : Q
}.

(** The object.  [wire] is the list of the output vectors handed to
    [write_coils], the latest first.  The Modbus client, the logger, the
    filter windows, [last_scan_time] and the thread handles are left out:
    the steps below do not read them. *)
Record state := mkState {
  running : bool;           (* [self.running], the flag of the controller *)
  scan_count : Z;
  outputs : Outputs.t;
  alarms : Alarms.t;
  system_state : SystemState.t;
  stats : Stats.t;
  timers : Timers.t;
  edge_detectors : EdgeDetectors.t;
  wire : list Outputs.t
}.

(** [__init__] *)
Definition init : state :=
  mkState false 0 Outputs.all_off
          (Alarms.mk false false false false false false false false)
          (SystemState.mk false false false false)
          (Stats.mk 0 0 0 0 0 0 None)
          (Timers.mk 0 0 0 0)
          (EdgeDetectors.mk false false false false false)
          [].

Definition set_outputs (o : Outputs.t) (s : state) : state :=
  mkState (running s) (scan_count s) o (alarms s) (system_state s) (stats s)
          (timers s) (edge_detectors s) (wire s).
Definition set_alarms (a : Alarms.t) (s : state) : state :=
  mkState (running s) (scan_count s) (outputs s) a (system_state s) (stats s)
          (timers s) (edge_detectors s) (wire s).
Definition set_system_state (y : SystemState.t) (s : state) : state :=
  mkState (running s) (scan_count s) (outputs s) (alarms s) y (stats s)
          (timers s) (edge_detectors s) (wire s).
Definition set_stats (c : Stats.t) (s : state) : state :=
  mkState (running s) (scan_count s) (outputs s) (alarms s) (system_state s)
          c (timers s) (edge_detectors s) (wire s).
Definition set_timers (t : Timers.t) (s : state) : state :=
  mkState (running s) (scan_count s) (outputs s) (alarms s) (system_state s)
          (stats s) t (edge_detectors s) (wire s).
Definition set_edge_detectors (e : EdgeDetectors.t) (s : state) : state :=
  mkState (running s) (scan_count s) (outputs s) (alarms s) (system_state s)
          (stats s) (timers s) e (wire s).

(** Assignments to one key. *)
Definition set_enabled (b : bool) (s : state) : state :=
  let y := system_state s in
  set_system_state
    (SystemState.mk b (SystemState.running y) (SystemState.ready y)
       (SystemState.stable y)) s.
Definition set_running (b : bool) (s : state) : state :=
  let y := system_state s in
  set_system_state
    (SystemState.mk (SystemState.enabled y) b (SystemState.ready y)
       (SystemState.stable y)) s.
Definition set_ready (b : bool) (s : state) : state :=
  let y := system_state s in
  set_system_state
    (SystemState.mk (SystemState.enabled y) (SystemState.running y) b
       (SystemState.stable y)) s.
Definition set_gas_valve (b : bool) (s : state) : state :=
  let o := outputs s in
  set_outputs
    (Outputs.mk b (Outputs.socket1 o) (Outputs.socket2 o)
       (Outputs.water_pump o) (Outputs.oil_pump o) (Outputs.alarm_light o)
       (Outputs.permit_run o) (Outputs.fan_vent o)) s.
Definition set_startup_delay (q : Q) (s : state) : state :=
  let t := timers s in
  set_timers
    (Timers.mk q (Timers.gas_valve_delay t) (Timers.emergency_delay t)
       (Timers.watchdog t)) s.
Definition set_gas_valve_delay (q : Q) (s : state) : state :=
  let t := timers s in
  set_timers
    (Timers.mk (Timers.startup_delay t) q (Timers.emergency_delay t)
       (Timers.watchdog t)) s.

Definition incr_alarms (s : state) : state :=
  let c := stats s in
  set_stats
    (Stats.mk (Stats.starts c) (Stats.stops c) (Stats.alarms c + 1)
       (Stats.gas_failures c) (Stats.vacuum_failures c)
       (Stats.runtime_seconds c) (Stats.last_start_time c)) s.
Definition incr_gas_failures (s : state) : state :=
  let c := stats s in
  set_stats
    (Stats.mk (Stats.starts c) (Stats.stops c) (Stats.alarms c)
       (Stats.gas_failures c + 1) (Stats.vacuum_failures c)
       (Stats.runtime_seconds c) (Stats.last_start_time c)) s.
Definition incr_vacuum_failures (s : state) : state :=
  let c := stats s in
  set_stats
    (Stats.mk (Stats.starts c) (Stats.stops c) (Stats.alarms c)
       (Stats.gas_failures c) (Stats.vacuum_failures c + 1)
       (Stats.runtime_seconds c) (Stats.last_start_time c)) s.
Definition incr_runtime_seconds (s : state) : state :=
  let c := stats s in
  set_stats
    (Stats.mk (Stats.starts c) (Stats.stops c) (Stats.alarms c)
       (Stats.gas_failures c) (Stats.vacuum_failures c)
       (Stats.runtime_seconds c + 1) (Stats.last_start_time c)) s.
(** [stats['starts'] += 1; stats['last_start_time'] = current_time] *)
Definition count_start (current_time : Q) (s : state) : state :=
  let c := stats s in
  set_stats
    (Stats.mk (Stats.starts c + 1) (Stats.stops c) (Stats.alarms c)
       (Stats.gas_failures c) (Stats.vacuum_failures c)
       (Stats.runtime_seconds c) (Some current_time)) s.

Definition write_outputs (s : state) : state :=
  mkState (running s) (scan_count s) (outputs s) (alarms s) (system_state s)
          (stats s) (timers s) (edge_detectors s) (outputs s :: wire s).

Definition check_alarms (i : inputs) (s : state) : state :=
  let sn := sensors i in
  let old_alarm := Alarms.any_alarm (alarms s) in
  let vh :=
    if Qgeb (Sensors.voltage sn) VOLTAGE_TRIP then true
    else if Qltb (Sensors.voltage sn) VOLTAGE_RESET then false
    else Alarms.voltage_high (alarms s) in
  let th :=
    if Qgeb (Sensors.boiler_temp sn) TEMP_TRIP then true
    else if Qltb (Sensors.boiler_temp sn) TEMP_RESET then false
    else Alarms.temp_high (alarms s) in
  let no_gas := negb (Sensors.gas_present sn) in
  let no_vacuum := negb (Sensors.vacuum_present sn) in
  let oil_low := negb (Sensors.oil_pressure_ok sn) in
  let steam_bad := negb (Sensors.steam_pressure_ok sn) in
  let emergency := Sensors.emergency_stop sn in
  let any :=
    vh || th || no_gas || no_vacuum || oil_low || steam_bad || emergency in
  let s :=
    set_alarms
      (Alarms.mk vh th no_gas no_vacuum oil_low steam_bad emergency any) s in
  if Alarms.any_alarm (alarms s) && negb old_alarm then incr_alarms s else s.

Definition get_alarm_code (s : state) : Z :=
  let a := alarms s in
  if Alarms.voltage_high a then 1
  else if Alarms.temp_high a then 2
  else if Alarms.no_gas a then 3
  else if Alarms.no_vacuum a then 4
  else if Alarms.oil_pressure_low a then 5
  else if Alarms.steam_pressure_bad a then 6
  else if Alarms.emergency a then 7
  else 0.

(** [handle_start_stop_logic].  The deadline [current_time + 3.0] is a
    float sum in the source and the exact sum here; what is proved of the
    deadline itself is proved of [RealClock], for any sum. *)
Definition handle_start_stop_logic (i : inputs) (s : state) : state :=
  let current_time := time_start_stop i in
  let c := commands i in
  let s :=
    if Commands.start c && negb (EdgeDetectors.start_old (edge_detectors s))
    then
      if negb (SystemState.running (system_state s))
         && negb (Alarms.any_alarm (alarms s))
      then set_startup_delay (current_time + 3) (set_enabled true s)
      else s
    else s in
  let s :=
    if Commands.stop c && negb (EdgeDetectors.stop_old (edge_detectors s))
    then set_running false (set_enabled false s)
    else s in
  let s :=
    let e := edge_detectors s in
    set_edge_detectors
      (EdgeDetectors.mk (Commands.start c) (Commands.stop c)
         (EdgeDetectors.gas_old e) (EdgeDetectors.vacuum_old e)
         (EdgeDetectors.alarm_old e)) s in
  let s :=
    if Alarms.any_alarm (alarms s)
    then set_running false (set_enabled false s)
    else s in
  if SystemState.enabled (system_state s)
     && Qgeb current_time (Timers.startup_delay (timers s))
     && negb (SystemState.running (system_state s))
  then count_start current_time (set_running true s)
  else s.

Definition update_system_ready (i : inputs) (s : state) : state :=
  let sn := sensors i in
  set_ready
    (negb (Alarms.voltage_high (alarms s))
     && negb (Alarms.temp_high (alarms s))
     && Sensors.gas_present sn && Sensors.vacuum_present sn
     && Sensors.oil_pressure_ok sn && Sensors.steam_pressure_ok sn
     && negb (Sensors.emergency_stop sn)
     && SystemState.running (system_state s)) s.

(** [control_gas_valve].  The deadline [current_time + 2.0] likewise. *)
Definition control_gas_valve (i : inputs) (s : state) : state :=
  let current_time := time_gas_valve i in
  let s :=
    if SystemState.ready (system_state s) then
      if Qgeb current_time (Timers.gas_valve_delay (timers s))
      then set_gas_valve true s
      else s
    else set_gas_valve_delay (current_time + 2) (set_gas_valve false s) in
  if negb (Sensors.vacuum_present (sensors i))
  then set_gas_valve false s
  else s.

Definition control_sockets (i : inputs) (s : state) : state :=
  let o := outputs s in
  let a := Alarms.any_alarm (alarms s) in
  set_outputs
    (Outputs.mk (Outputs.gas_valve o)
       (Commands.socket1 (commands i) && negb a)
       (Commands.socket2 (commands i) && negb a)
       (Outputs.water_pump o) (Outputs.oil_pump o) (Outputs.alarm_light o)
       (Outputs.permit_run o) (Outputs.fan_vent o)) s.

Definition control_pumps (i : inputs) (s : state) : state :=
  let o := outputs s in
  let y := system_state s in
  set_outputs
    (Outputs.mk (Outputs.gas_valve o) (Outputs.socket1 o) (Outputs.socket2 o)
       (SystemState.ready y && Qgtb (Sensors.water_temp (sensors i)) 20)
       (SystemState.ready y && Sensors.oil_pressure_ok (sensors i))
       (Outputs.alarm_light o) (Outputs.permit_run o)
       (SystemState.running y)) s.

Definition update_indicators (s : state) : state :=
  let o := outputs s in
  set_outputs
    (Outputs.mk (Outputs.gas_valve o) (Outputs.socket1 o) (Outputs.socket2 o)
       (Outputs.water_pump o) (Outputs.oil_pump o)
       (Alarms.any_alarm (alarms s)) (SystemState.ready (system_state s))
       (Outputs.fan_vent o)) s.

Definition update_statistics (i : inputs) (s : state) : state :=
  let sn := sensors i in
  let s :=
    if negb (Sensors.gas_present sn)
       && EdgeDetectors.gas_old (edge_detectors s)
    then incr_gas_failures s else s in
  let s :=
    if negb (Sensors.vacuum_present sn)
       && EdgeDetectors.vacuum_old (edge_detectors s)
    then incr_vacuum_failures s else s in
  let s :=
    let e := edge_detectors s in
    set_edge_detectors
      (EdgeDetectors.mk (EdgeDetectors.start_old e) (EdgeDetectors.stop_old e)
         (Sensors.gas_present sn) (Sensors.vacuum_present sn)
         (Alarms.any_alarm (alarms s))) s in
  if SystemState.running (system_state s) then incr_runtime_seconds s else s.

(** The state just after the readiness step. *)
Definition upto_ready (i : inputs) (s : state) : state :=
  update_system_ready i (handle_start_stop_logic i (check_alarms i s)).

(** The body of [scan_cycle] once both reads have succeeded. *)
Definition scan_body (i : inputs) (s : state) : state :=
  let s := upto_ready i s in
  let s := control_gas_valve i s in
  let s := control_sockets i s in
  let s := control_pumps i s in
  let s := update_indicators s in
  let s := write_outputs s in
  let s := update_statistics i s in
  mkState (running s) (scan_count s + 1) (outputs s) (alarms s)
          (system_state s) (stats s) (timers s) (edge_detectors s) (wire s).

(** [scan_cycle]: when [read_sensors] or [read_commands] fails the cycle
    returns at once. *)
Definition scan_cycle (r : option inputs) (s : state) : state :=
  match r with
  | Some i => scan_body i s
  | None => s
  end.

(** [start]; [connected] is the result of [connect_modbus]. *)
Definition start (connected : bool) (s : state) : state :=
  if running s then s
  else if negb connected then s
  else mkState true (scan_count s) (outputs s) (alarms s) (system_state s)
               (stats s) (timers s) (edge_detectors s) (wire s).

(** [stop] *)
Definition stop (s : state) : state :=
  if negb (running s) then s
  else
    let s :=
      mkState false (scan_count s) (outputs s) (alarms s) (system_state s)
              (stats s) (timers s) (edge_detectors s) (wire s) in
    write_outputs (set_outputs Outputs.all_off s).

End Real.

(* ================================================================== *)
(** * emulate_fatek.py *)
(* ================================================================== *)
Module Emu.

Definition ADC_MAX : Z := 4095.
Definition VOLTAGE_MAX : Z := 500.
Definition TEMP_MAX : Z := 150.
Definition VOLTAGE_TRIP : Z := 400.
Definition VOLTAGE_RESET : Z := 380.
Definition TEMP_TRIP : Z := 80.
Definition TEMP_RESET : Z := 75.

(** The on-delay timers, dictionaries with the keys IN, Q, ET and PT. *)
Module TON.
Record t := mk {
  IN : bool;
  Q : bool;
  ET : Z;
  PT : Z
}.
End TON.

(** [timer_update] *)
Definition timer_update (timer : TON.t) (dt : Z) : TON.t :=
  if TON.IN timer then
    let et := TON.ET timer + dt in
    TON.mk (TON.IN timer)
           (if et >=? TON.PT timer then true else TON.Q timer)
           et (TON.PT timer)
  else
    TON.mk (TON.IN timer) false 0 (TON.PT timer).

Definition set_IN (b : bool) (timer : TON.t) : TON.t :=
  TON.mk b (TON.Q timer) (TON.ET timer) (TON.PT timer).

(** The analog and discrete inputs and the commands, which the setters
    write between two cycles. *)
Record inputs := mkInputs {
  AI_BoilerVoltage : Z;
  AI_BoilerTemp : Z;
  AI_WaterTemp : Z;
  AI_TempSensor1 : Z;
  AI_TempSensor2 : Z;
  AI_OilPressure : Z;
  AI_SteamPressure : Z;
  DI_GasSensor : bool;
  DI_VacuumSensor : bool;
  DI_OilPressureOK : bool;
  DI_SteamPressureOK : bool;
  DI_EmergencyStop : bool;
  DI_ManualMode : bool;
  CMD_SystemStart : bool;
  CMD_SystemStop : bool;
  CMD_Socket1_On : bool;
  CMD_Socket2_On : bool;
  CMD_ResetAlarms : bool
}.

Record DO_t := mkDO {
  DO_GasValve : bool;
  DO_Socket1 : bool;
  DO_Socket2 : bool;
  DO_WaterPump : bool;
  DO_OilPump : bool;
  DO_AlarmLight : bool;
  DO_PermitRun : bool;
  DO_FanVent : bool
}.

Record ST_t := mkST {
  ST_SystemRunning : Z;
  ST_GasAvailable : Z;
  ST_VacuumOK : Z;
  ST_AlarmCode : Z
}.

Record ALM_t := mkALM {
  ALM_VoltageHigh : bool;
  ALM_TempHigh : bool;
  ALM_NoGas : bool;
  ALM_NoVacuum : bool;
  ALM_OilPressureLow : bool;
  ALM_SteamPressureBad : bool;
  ALM_Emergency : bool;
  ALM_AnyAlarm : bool
}.

Record SYS_t := mkSYS {
  SYS_Enabled : bool;
  SYS_Running : bool;
  SYS_Ready : bool;
  SYS_ManualMode : bool
}.

Record SNS_t := mkSNS {
  SNS_GasPresent : bool;
  SNS_VacuumPresent : bool;
  SNS_OilPressureOK : bool;
  SNS_SteamPressureOK : bool
}.

Record PHY_t := mkPHY {
  PHY_Voltage : Z;
  PHY_BoilerTemp : Z;
  PHY_WaterTemp : Z;
  PHY_Temp1 : Z;
  PHY_Temp2 : Z;
  PHY_OilPressure : Z;
  PHY_SteamPressure : Z
}.

Record FF_t := mkFF {
  FF_StartOld : bool;
  FF_StopOld : bool;
  FF_ResetOld : bool;
  FF_GasOld : bool;
  FF_VacuumOld : bool;
  FF_AlarmOld : bool
}.

Record CNT_t := mkCNT {
  CNT_Starts : Z;
  CNT_Stops : Z;
  CNT_Alarms : Z;
  CNT_GasFailures : Z;
  CNT_VacuumFailures : Z;
  CNT_RunTime : Z
}.

Record TMR_t := mkTMR {
  TMR_StartDelay : TON.t;
  TMR_AlarmDelay : TON.t;
  TMR_ResetDelay : TON.t;
  TMR_RunTimer : TON.t
}.

Record state := mkState {
  DO : DO_t;
  ST : ST_t;
  ALM : ALM_t;
  SYS : SYS_t;
  SNS : SNS_t;
  PHY : PHY_t;
  FF : FF_t;
  CNT : CNT_t;
  TMR : TMR_t;
  scan_count : Z
}.

(** [reset_all], then [scan_count = 0] *)
Definition init : state :=
  mkState (mkDO false false false false false false false false)
          (mkST 0 0 0 0)
          (mkALM false false false false false false false false)
          (mkSYS false false false false)
          (mkSNS false false false false)
          (mkPHY 0 0 0 0 0 0 0)
          (mkFF false false false false false false)
          (mkCNT 0 0 0 0 0 0)
          (mkTMR (TON.mk false false 0 3000) (TON.mk false false 0 2000)
                 (TON.mk false false 0 1000) (TON.mk false false 0 1000))
          0.

Definition set_DO (x : DO_t) (s : state) : state :=
  mkState x (ST s) (ALM s) (SYS s) (SNS s) (PHY s) (FF s) (CNT s) (TMR s)
          (scan_count s).
Definition set_ST (x : ST_t) (s : state) : state :=
  mkState (DO s) x (ALM s) (SYS s) (SNS s) (PHY s) (FF s) (CNT s) (TMR s)
          (scan_count s).
Definition set_ALM (x : ALM_t) (s : state) : state :=
  mkState (DO s) (ST s) x (SYS s) (SNS s) (PHY s) (FF s) (CNT s) (TMR s)
          (scan_count s).
Definition set_SYS (x : SYS_t) (s : state) : state :=
  mkState (DO s) (ST s) (ALM s) x (SNS s) (PHY s) (FF s) (CNT s) (TMR s)
          (scan_count s).
Definition set_SNS (x : SNS_t) (s : state) : state :=
  mkState (DO s) (ST s) (ALM s) (SYS s) x (PHY s) (FF s) (CNT s) (TMR s)
          (scan_count s).
Definition set_PHY (x : PHY_t) (s : state) : state :=
  mkState (DO s) (ST s) (ALM s) (SYS s) (SNS s) x (FF s) (CNT s) (TMR s)
          (scan_count s).
Definition set_FF (x : FF_t) (s : state) : state :=
  mkState (DO s) (ST s) (ALM s) (SYS s) (SNS s) (PHY s) x (CNT s) (TMR s)
          (scan_count s).
Definition set_CNT (x : CNT_t) (s : state) : state :=
  mkState (DO s) (ST s) (ALM s) (SYS s) (SNS s) (PHY s) (FF s) x (TMR s)
          (scan_count s).
Definition set_TMR (x : TMR_t) (s : state) : state :=
  mkState (DO s) (ST s) (ALM s) (SYS s) (SNS s) (PHY s) (FF s) (CNT s) x
          (scan_count s).

Definition set_scan_count (x : Z) (s : state) : state :=
  mkState (DO s) (ST s) (ALM s) (SYS s) (SNS s) (PHY s) (FF s) (CNT s)
          (TMR s) x.

(** Assignments to one attribute. *)
Definition set_SYS_Enabled (b : bool) (s : state) : state :=
  let y := SYS s in
  set_SYS (mkSYS b (SYS_Running y) (SYS_Ready y) (SYS_ManualMode y)) s.
Definition set_SYS_Running (b : bool) (s : state) : state :=
  let y := SYS s in
  set_SYS (mkSYS (SYS_Enabled y) b (SYS_Ready y) (SYS_ManualMode y)) s.
Definition set_SYS_Ready (b : bool) (s : state) : state :=
  let y := SYS s in
  set_SYS (mkSYS (SYS_Enabled y) (SYS_Running y) b (SYS_ManualMode y)) s.
Definition set_SYS_ManualMode (b : bool) (s : state) : state :=
  let y := SYS s in
  set_SYS (mkSYS (SYS_Enabled y) (SYS_Running y) (SYS_Ready y) b) s.

Definition set_FF_StartOld (b : bool) (s : state) : state :=
  let f := FF s in
  set_FF (mkFF b (FF_StopOld f) (FF_ResetOld f) (FF_GasOld f)
            (FF_VacuumOld f) (FF_AlarmOld f)) s.
Definition set_FF_StopOld (b : bool) (s : state) : state :=
  let f := FF s in
  set_FF (mkFF (FF_StartOld f) b (FF_ResetOld f) (FF_GasOld f)
            (FF_VacuumOld f) (FF_AlarmOld f)) s.
Definition set_FF_ResetOld (b : bool) (s : state) : state :=
  let f := FF s in
  set_FF (mkFF (FF_StartOld f) (FF_StopOld f) b (FF_GasOld f)
            (FF_VacuumOld f) (FF_AlarmOld f)) s.
Definition set_FF_GasOld (b : bool) (s : state) : state :=
  let f := FF s in
  set_FF (mkFF (FF_StartOld f) (FF_StopOld f) (FF_ResetOld f) b
            (FF_VacuumOld f) (FF_AlarmOld f)) s.
Definition set_FF_VacuumOld (b : bool) (s : state) : state :=
  let f := FF s in
  set_FF (mkFF (FF_StartOld f) (FF_StopOld f) (FF_ResetOld f) (FF_GasOld f)
            b (FF_AlarmOld f)) s.
Definition set_FF_AlarmOld (b : bool) (s : state) : state :=
  let f := FF s in
  set_FF (mkFF (FF_StartOld f) (FF_StopOld f) (FF_ResetOld f) (FF_GasOld f)
            (FF_VacuumOld f) b) s.

Definition incr_CNT_Starts (s : state) : state :=
  let c := CNT s in
  set_CNT (mkCNT (CNT_Starts c + 1) (CNT_Stops c) (CNT_Alarms c)
             (CNT_GasFailures c) (CNT_VacuumFailures c) (CNT_RunTime c)) s.
Definition incr_CNT_Stops (s : state) : state :=
  let c := CNT s in
  set_CNT (mkCNT (CNT_Starts c) (CNT_Stops c + 1) (CNT_Alarms c)
             (CNT_GasFailures c) (CNT_VacuumFailures c) (CNT_RunTime c)) s.
Definition incr_CNT_Alarms (s : state) : state :=
  let c := CNT s in
  set_CNT (mkCNT (CNT_Starts c) (CNT_Stops c) (CNT_Alarms c + 1)
             (CNT_GasFailures c) (CNT_VacuumFailures c) (CNT_RunTime c)) s.
Definition incr_CNT_GasFailures (s : state) : state :=
  let c := CNT s in
  set_CNT (mkCNT (CNT_Starts c) (CNT_Stops c) (CNT_Alarms c)
             (CNT_GasFailures c + 1) (CNT_VacuumFailures c) (CNT_RunTime c)) s.
Definition incr_CNT_VacuumFailures (s : state) : state :=
  let c := CNT s in
  set_CNT (mkCNT (CNT_Starts c) (CNT_Stops c) (CNT_Alarms c)
             (CNT_GasFailures c) (CNT_VacuumFailures c + 1) (CNT_RunTime c)) s.
Definition incr_CNT_RunTime (s : state) : state :=
  let c := CNT s in
  set_CNT (mkCNT (CNT_Starts c) (CNT_Stops c) (CNT_Alarms c)
             (CNT_GasFailures c) (CNT_VacuumFailures c) (CNT_RunTime c + 1)) s.

Definition set_TMR_StartDelay (x : TON.t) (s : state) : state :=
  let t := TMR s in
  set_TMR (mkTMR x (TMR_AlarmDelay t) (TMR_ResetDelay t) (TMR_RunTimer t)) s.
Definition set_TMR_ResetDelay (x : TON.t) (s : state) : state :=
  let t := TMR s in
  set_TMR (mkTMR (TMR_StartDelay t) (TMR_AlarmDelay t) x (TMR_RunTimer t)) s.
Definition set_TMR_RunTimer (x : TON.t) (s : state) : state :=
  let t := TMR s in
  set_TMR (mkTMR (TMR_StartDelay t) (TMR_AlarmDelay t) (TMR_ResetDelay t) x) s.

(** The blocks of [scan_cycle], in the order of the source. *)

(** Block 1: ADC conversion *)
Definition block1 (i : inputs) (s : state) : state :=
  set_PHY (mkPHY (AI_BoilerVoltage i * VOLTAGE_MAX / ADC_MAX)
                 (AI_BoilerTemp i * TEMP_MAX / ADC_MAX)
                 (AI_WaterTemp i * TEMP_MAX / ADC_MAX)
                 (AI_TempSensor1 i * TEMP_MAX / ADC_MAX)
                 (AI_TempSensor2 i * TEMP_MAX / ADC_MAX)
                 (AI_OilPressure i * 100 / ADC_MAX)
                 (AI_SteamPressure i * 10 / ADC_MAX)) s.

(** Block 2: discrete sensors *)
Definition block2 (i : inputs) (s : state) : state :=
  let s := set_SNS (mkSNS (DI_GasSensor i) (DI_VacuumSensor i)
                          (DI_OilPressureOK i) (DI_SteamPressureOK i)) s in
  set_SYS_ManualMode (DI_ManualMode i) s.

(** Blocks 3 and 4: voltage and temperature alarms *)
Definition block3 (s : state) : state :=
  let a := ALM s in
  let vh :=
    if PHY_Voltage (PHY s) >=? VOLTAGE_TRIP then true
    else if PHY_Voltage (PHY s) <? VOLTAGE_RESET then false
    else ALM_VoltageHigh a in
  set_ALM (mkALM vh (ALM_TempHigh a) (ALM_NoGas a) (ALM_NoVacuum a)
             (ALM_OilPressureLow a) (ALM_SteamPressureBad a)
             (ALM_Emergency a) (ALM_AnyAlarm a)) s.

Definition block4 (s : state) : state :=
  let a := ALM s in
  let th :=
    if PHY_BoilerTemp (PHY s) >=? TEMP_TRIP then true
    else if PHY_BoilerTemp (PHY s) <? TEMP_RESET then false
    else ALM_TempHigh a in
  set_ALM (mkALM (ALM_VoltageHigh a) th (ALM_NoGas a) (ALM_NoVacuum a)
             (ALM_OilPressureLow a) (ALM_SteamPressureBad a)
             (ALM_Emergency a) (ALM_AnyAlarm a)) s.

(** Block 5: sensor alarms *)
Definition block5 (i : inputs) (s : state) : state :=
  let a := ALM s in
  set_ALM (mkALM (ALM_VoltageHigh a) (ALM_TempHigh a)
             (negb (SNS_GasPresent (SNS s)))
             (negb (SNS_VacuumPresent (SNS s)))
             (negb (SNS_OilPressureOK (SNS s)))
             (negb (SNS_SteamPressureOK (SNS s)))
             (DI_EmergencyStop i) (ALM_AnyAlarm a)) s.

(** Block 6: general alarm.  The local [old_alarm] of the source is read
    by [scan_cycle] below, before this block. *)
Definition block6 (s : state) : state :=
  let a := ALM s in
  set_ALM (mkALM (ALM_VoltageHigh a) (ALM_TempHigh a) (ALM_NoGas a)
             (ALM_NoVacuum a) (ALM_OilPressureLow a)
             (ALM_SteamPressureBad a) (ALM_Emergency a)
             (ALM_VoltageHigh a || ALM_TempHigh a || ALM_NoGas a
              || ALM_NoVacuum a || ALM_OilPressureLow a
              || ALM_SteamPressureBad a || ALM_Emergency a)) s.

(** Block 7: start and stop, one definition for each statement.
    The start edge and its detector: *)
Definition block7_start (i : inputs) (s : state) : state :=
  let s :=
    if CMD_SystemStart i && negb (FF_StartOld (FF s)) then
      if negb (SYS_Running (SYS s)) && negb (ALM_AnyAlarm (ALM s)) then
        set_TMR_StartDelay (set_IN true (TMR_StartDelay (TMR s)))
          (set_SYS_Enabled true s)
      else s
    else s in
  set_FF_StartOld (CMD_SystemStart i) s.

(** the stop edge and its detector: *)
Definition block7_stop (i : inputs) (s : state) : state :=
  let s :=
    if CMD_SystemStop i && negb (FF_StopOld (FF s)) then
      set_SYS_Running false (set_SYS_Enabled false s)
    else s in
  set_FF_StopOld (CMD_SystemStop i) s.

(** the stop on alarm: *)
Definition block7_alarm (s : state) : state :=
  if ALM_AnyAlarm (ALM s) then
    set_SYS_Running false (set_SYS_Enabled false s)
  else s.

(** the start once the delay has elapsed: *)
Definition block7_delay (s : state) : state :=
  if TON.Q (TMR_StartDelay (TMR s)) then
    incr_CNT_Starts
      (set_TMR_StartDelay (set_IN false (TMR_StartDelay (TMR s)))
         (set_SYS_Running true s))
  else s.

Definition block7 (i : inputs) (s : state) : state :=
  block7_delay (block7_alarm (block7_stop i (block7_start i s))).

(** Block 8: readiness *)
Definition block8 (s : state) : state :=
  set_SYS_Ready
    (negb (ALM_VoltageHigh (ALM s)) && negb (ALM_TempHigh (ALM s))
     && SNS_GasPresent (SNS s) && SNS_VacuumPresent (SNS s)
     && SNS_OilPressureOK (SNS s) && SNS_SteamPressureOK (SNS s)
     && negb (ALM_Emergency (ALM s)) && SYS_Running (SYS s)) s.

(** Blocks 9 to 12, first half: the outputs *)
Definition block9to12_outputs (i : inputs) (s : state) : state :=
  let gas_valve0 := if SYS_Ready (SYS s) then true else false in
  let gas_valve1 :=
    if negb (SNS_VacuumPresent (SNS s)) then false else gas_valve0 in
  set_DO (mkDO gas_valve1
               (CMD_Socket1_On i && negb (ALM_AnyAlarm (ALM s)))
               (CMD_Socket2_On i && negb (ALM_AnyAlarm (ALM s)))
               (SYS_Ready (SYS s) && (PHY_WaterTemp (PHY s) >? 20))
               (SYS_Ready (SYS s) && SNS_OilPressureOK (SNS s))
               (ALM_AnyAlarm (ALM s))
               (SYS_Ready (SYS s))
               (SYS_Running (SYS s))) s.

(** Block 12, second half: the indication words and the alarm code *)
Definition block12_indication (s : state) : state :=
  let a := ALM s in
  set_ST (mkST (if SYS_Running (SYS s) then 1 else 0)
               (if SNS_GasPresent (SNS s) then 1 else 0)
               (if SNS_VacuumPresent (SNS s) then 1 else 0)
               (if ALM_VoltageHigh a then 1
                else if ALM_TempHigh a then 2
                else if ALM_NoGas a then 3
                else if ALM_NoVacuum a then 4
                else if ALM_OilPressureLow a then 5
                else if ALM_SteamPressureBad a then 6
                else if ALM_Emergency a then 7
                else 0)) s.

(** The two edge tests of the stop counter, as the statistics block
    evaluates them on the state it finds. *)
Definition stop_edge_at_statistics (i : inputs) (s : state) : bool :=
  CMD_SystemStop i && negb (FF_StopOld (FF s)).
Definition alarm_edge_at_statistics (old_alarm : bool) (s : state) : bool :=
  ALM_AnyAlarm (ALM s) && negb old_alarm.

(** Block 13: statistics.  First the alarm, gas and vacuum counters with
    their edge detectors... *)
Definition block13_counters (s : state) : state :=
  let s :=
    if ALM_AnyAlarm (ALM s) && negb (FF_AlarmOld (FF s))
    then incr_CNT_Alarms s else s in
  let s := set_FF_AlarmOld (ALM_AnyAlarm (ALM s)) s in
  let s :=
    if negb (SNS_GasPresent (SNS s)) && FF_GasOld (FF s)
    then incr_CNT_GasFailures s else s in
  let s := set_FF_GasOld (SNS_GasPresent (SNS s)) s in
  let s :=
    if negb (SNS_VacuumPresent (SNS s)) && FF_VacuumOld (FF s)
    then incr_CNT_VacuumFailures s else s in
  set_FF_VacuumOld (SNS_VacuumPresent (SNS s)) s.

(** ... then the stop counter. *)
Definition block13_stops (i : inputs) (old_alarm : bool) (s : state) : state :=
  if stop_edge_at_statistics i s || alarm_edge_at_statistics old_alarm s then
    if SYS_Running (SYS s) then incr_CNT_Stops s else s
  else s.

Definition block13 (i : inputs) (old_alarm : bool) (s : state) : state :=
  block13_stops i old_alarm (block13_counters s).

(** The run-time timer *)
Definition block_run_timer (s : state) : state :=
  let s := set_TMR_RunTimer
             (set_IN (SYS_Running (SYS s)) (TMR_RunTimer (TMR s))) s in
  if TON.Q (TMR_RunTimer (TMR s)) then
    let s := incr_CNT_RunTime s in
    let s := set_TMR_RunTimer (set_IN false (TMR_RunTimer (TMR s))) s in
    set_TMR_RunTimer (set_IN true (TMR_RunTimer (TMR s))) s
  else s.

(** Block 14: alarm reset *)
Definition block14 (i : inputs) (s : state) : state :=
  let s :=
    if CMD_ResetAlarms i && negb (FF_ResetOld (FF s)) then
      set_TMR_ResetDelay (set_IN true (TMR_ResetDelay (TMR s))) s
    else s in
  let s := set_FF_ResetOld (CMD_ResetAlarms i) s in
  if TON.Q (TMR_ResetDelay (TMR s)) then
    let s :=
      let a := ALM s in
      if negb (ALM_VoltageHigh a) && negb (ALM_TempHigh a)
         && negb (ALM_Emergency a) then
        set_ALM (mkALM (ALM_VoltageHigh a) (ALM_TempHigh a) false false
                   false false (ALM_Emergency a) (ALM_AnyAlarm a)) s
      else s in
    set_TMR_ResetDelay (set_IN false (TMR_ResetDelay (TMR s))) s
  else s.

(** The four calls of [timer_update] *)
Definition block_timers (dt : Z) (s : state) : state :=
  let t := TMR s in
  set_TMR (mkTMR (timer_update (TMR_StartDelay t) dt)
                 (timer_update (TMR_AlarmDelay t) dt)
                 (timer_update (TMR_ResetDelay t) dt)
                 (timer_update (TMR_RunTimer t) dt)) s.

(** Blocks 1 to 5 *)
Definition blocks1to5 (i : inputs) (s : state) : state :=
  let s := block1 i s in
  let s := block2 i s in
  let s := block3 s in
  let s := block4 s in
  block5 i s.

(** Blocks 6 to 12 *)
Definition blocks6to12 (i : inputs) (s : state) : state :=
  let s := block6 s in
  let s := block7 i s in
  let s := block8 s in
  let s := block9to12_outputs i s in
  block12_indication s.

(** The state that the statistics block finds. *)
Definition before_statistics (i : inputs) (s : state) : state :=
  blocks6to12 i (blocks1to5 i s).

Definition scan_cycle (i : inputs) (s : state) : state :=
  let dt := 100 in
  let s := blocks1to5 i s in
  let old_alarm := ALM_AnyAlarm (ALM s) in
  let s := blocks6to12 i s in
  let s := block13 i old_alarm s in
  let s := block_run_timer s in
  let s := block14 i s in
  let s := block_timers dt s in
  set_scan_count (scan_count s + 1) s.

End Emu.

(* ================================================================== *)
(** * Closed forms of one cycle

    What one cycle writes to each attribute, as a function of the state
    before the cycle and of the inputs.  The cycle equations below prove
    that the code computes exactly these values. *)
(* ================================================================== *)

Definition b2z (b : bool) : Z := if b then 1 else 0.

(** Trip and reset thresholds with a dead band in between. *)
Definition hystZ (trip reset v : Z) (old : bool) : bool :=
  if v >=? trip then true else if v <? reset then false else old.
Definition hystQ (trip reset v : Q) (old : bool) : bool :=
  if Qgeb v trip then true else if Qltb v reset then false else old.

Module ControllerNext.
Import Controller.

Definition bump (ds dp da dg dv : Z) (s : state) : state :=
  let c := st s in
  set_st (mkStats (starts c + ds) (stops c + dp) (alarms c + da)
            (gas_off_count c + dg) (vakuum_off_count c + dv)) s.

(** Values read by one block from the state it finds. *)
Definition general_alarm (i : inputs) (s : state) : bool :=
  M_AVARIA_NAPRUGA (M s) || M_AVARIA_TEMP (M s) || M_AVARIA_VAKUUM (M s)
  || negb (M_TISK_NORMA (M s)) || X_AVARIA_EXT i.
Definition started (i : inputs) (s : state) : bool :=
  CMD_START i && negb (M_SYSTEM_ON (M s)) && negb (M_ZAGALNA_AVARIA (M s)).
Definition stopped (i : inputs) (s : state) : bool :=
  (CMD_STOP i || M_ZAGALNA_AVARIA (M s))
  && (M_SYSTEM_ON (M s) || started i s).

(** Values after the whole cycle, from the state before it. *)
Definition volt (i : inputs) : Z := adc_to_physical (AI_NAPRUGA i) NAPRUGA_MAX.
Definition temp (i : inputs) : Z := adc_to_physical (AI_TEMP_BOILER i) TEMP_MAX.
Definition voltage_alarm' (i : inputs) (s : state) : bool :=
  hystZ NAPRUGA_AVAR_VOLT NAPRUGA_HYST_VOLT (volt i) (M_AVARIA_NAPRUGA (M s)).
Definition temp_alarm' (i : inputs) (s : state) : bool :=
  hystZ TEMP_AVAR_GRAD TEMP_HYST_GRAD (temp i) (M_AVARIA_TEMP (M s)).
Definition vakuum_alarm' (i : inputs) (s : state) : bool :=
  if Bool.eqb (M_VAKUUM_IE (M s)) (X_VAKUUM i) then M_AVARIA_VAKUUM (M s)
  else negb (X_VAKUUM i).
Definition alarm' (i : inputs) (s : state) : bool :=
  voltage_alarm' i s || temp_alarm' i s || vakuum_alarm' i s
  || negb (X_TISK_MASLA_DI i) || X_AVARIA_EXT i.
Definition started' (i : inputs) (s : state) : bool :=
  CMD_START i && negb (M_SYSTEM_ON (M s)) && negb (alarm' i s).
Definition stopped' (i : inputs) (s : state) : bool :=
  (CMD_STOP i || alarm' i s) && (M_SYSTEM_ON (M s) || started' i s).
Definition on' (i : inputs) (s : state) : bool :=
  (M_SYSTEM_ON (M s) || started' i s) && negb (stopped' i s).
Definition ready' (i : inputs) (s : state) : bool :=
  negb (voltage_alarm' i s) && negb (temp_alarm' i s)
  && X_GAZ i && X_VAKUUM i && X_TISK_MASLA_DI i
  && negb (X_AVARIA_EXT i) && on' i s.

(** Two input records that agree on everything but the gas sensor. *)
Definition same_but_gas (i1 i2 : inputs) : Prop :=
  AI_NAPRUGA i1 = AI_NAPRUGA i2 /\ AI_TEMP_BOILER i1 = AI_TEMP_BOILER i2
  /\ AI_TEMP_VODA i1 = AI_TEMP_VODA i2 /\ AI_TEMP_2 i1 = AI_TEMP_2 i2
  /\ AI_TISK_MASLA i1 = AI_TISK_MASLA i2
  /\ X_VAKUUM i1 = X_VAKUUM i2
  /\ X_TISK_MASLA_DI i1 = X_TISK_MASLA_DI i2
  /\ X_AVARIA_EXT i1 = X_AVARIA_EXT i2
  /\ CMD_ROZET_1 i1 = CMD_ROZET_1 i2 /\ CMD_ROZET_2 i1 = CMD_ROZET_2 i2
  /\ CMD_START i1 = CMD_START i2 /\ CMD_STOP i1 = CMD_STOP i2.

(** The state with the gas marker, the ready flag, the gas valve, the
    permit output and the gas-failure counter blanked. *)
Definition gas_blind (s : state) : state :=
  let y := Y s in
  let m := M s in
  let c := st s in
  mkState
    (mkOutputs false (Y_ROZET_1 y) (Y_ROZET_2 y) (Y_AVARIA_SIGNAL y) false)
    (mkMarkers (M_AVARIA_NAPRUGA m) (M_AVARIA_TEMP m) false (M_VAKUUM_IE m)
       (M_TISK_NORMA m) (M_AVARIA_VAKUUM m) false (M_ZAGALNA_AVARIA m)
       (M_SYSTEM_ON m))
    (PHY s) (scan_count s)
    (mkStats (starts c) (stops c) (alarms c) 0 (vakuum_off_count c))
    (running s).

End ControllerNext.

Module SimpleNext.
Import Simple.

Definition bump (ds dp da dg dv : Z) (s : state) : state :=
  let c := stats s in
  set_stats (mkStats (starts c + ds) (stops c + dp) (alarms c + da)
               (gas_failures c + dg) (vacuum_failures c + dv)) s.

(** Values read by one step from the state it finds. *)
Definition started (i : inputs) (s : state) : bool :=
  cmd_start i && negb (start_old (ff s))
  && (negb (system_running s) && negb (alm_any_alarm (alm s))).
Definition stopped (i : inputs) (s : state) : bool :=
  (cmd_stop i || alm_any_alarm (alm s))
  && (system_running s || started i s).

(** Values after the whole cycle, from the state before it. *)
Definition voltage_high' (i : inputs) (s : state) : bool :=
  hystQ VOLTAGE_TRIP VOLTAGE_RESET (voltage i) (alm_voltage_high (alm s)).
Definition temp_high' (i : inputs) (s : state) : bool :=
  hystQ TEMP_TRIP TEMP_RESET (boiler_temp i) (alm_temp_high (alm s)).
Definition any_alarm' (i : inputs) (s : state) : bool :=
  voltage_high' i s || temp_high' i s || negb (gas_present i)
  || negb (vacuum_present i) || negb (oil_pressure_ok i)
  || negb (steam_pressure_ok i) || emergency_stop i.
Definition started' (i : inputs) (s : state) : bool :=
  cmd_start i && negb (start_old (ff s))
  && (negb (system_running s) && negb (any_alarm' i s)).
Definition stopped' (i : inputs) (s : state) : bool :=
  (cmd_stop i || any_alarm' i s) && (system_running s || started' i s).
Definition running' (i : inputs) (s : state) : bool :=
  (system_running s || started' i s) && negb (stopped' i s).
Definition ready' (i : inputs) (s : state) : bool :=
  negb (voltage_high' i s) && negb (temp_high' i s)
  && gas_present i && vacuum_present i && oil_pressure_ok i
  && steam_pressure_ok i && negb (emergency_stop i) && running' i s.

End SimpleNext.

Module RealNext.
Import Real.

Definition bump (da dg dv dr : Z) (s : state) : state :=
  let c := stats s in
  set_stats
    (Stats.mk (Stats.starts c) (Stats.stops c) (Stats.alarms c + da)
       (Stats.gas_failures c + dg) (Stats.vacuum_failures c + dv)
       (Stats.runtime_seconds c + dr) (Stats.last_start_time c)) s.

(** Values read by [handle_start_stop_logic] from the state it finds. *)
Definition armed (i : inputs) (s : state) : bool :=
  Commands.start (commands i)
  && negb (EdgeDetectors.start_old (edge_detectors s))
  && (negb (SystemState.running (system_state s))
      && negb (Alarms.any_alarm (alarms s))).
Definition stop_edge (i : inputs) (s : state) : bool :=
  Commands.stop (commands i)
  && negb (EdgeDetectors.stop_old (edge_detectors s)).
Definition halted (i : inputs) (s : state) : bool :=
  stop_edge i s || Alarms.any_alarm (alarms s).
Definition delay_after (i : inputs) (s : state) : Q :=
  if armed i s then (time_start_stop i + 3)%Q
  else Timers.startup_delay (timers s).
Definition launched (i : inputs) (s : state) : bool :=
  (SystemState.enabled (system_state s) || armed i s) && negb (halted i s)
  && Qgeb (time_start_stop i) (delay_after i s)
  && negb (SystemState.running (system_state s) && negb (halted i s)).

(** Values after the whole cycle, from the state before it. *)
Definition voltage_high' (i : inputs) (s : state) : bool :=
  hystQ VOLTAGE_TRIP VOLTAGE_RESET (Sensors.voltage (sensors i))
    (Alarms.voltage_high (alarms s)).
Definition temp_high' (i : inputs) (s : state) : bool :=
  hystQ TEMP_TRIP TEMP_RESET (Sensors.boiler_temp (sensors i))
    (Alarms.temp_high (alarms s)).
Definition any_alarm' (i : inputs) (s : state) : bool :=
  voltage_high' i s || temp_high' i s
  || negb (Sensors.gas_present (sensors i))
  || negb (Sensors.vacuum_present (sensors i))
  || negb (Sensors.oil_pressure_ok (sensors i))
  || negb (Sensors.steam_pressure_ok (sensors i))
  || Sensors.emergency_stop (sensors i).
Definition armed' (i : inputs) (s : state) : bool :=
  Commands.start (commands i)
  && negb (EdgeDetectors.start_old (edge_detectors s))
  && (negb (SystemState.running (system_state s)) && negb (any_alarm' i s)).
Definition halted' (i : inputs) (s : state) : bool :=
  stop_edge i s || any_alarm' i s.
Definition enabled' (i : inputs) (s : state) : bool :=
  (SystemState.enabled (system_state s) || armed' i s) && negb (halted' i s).
Definition startup_delay' (i : inputs) (s : state) : Q :=
  if armed' i s then (time_start_stop i + 3)%Q
  else Timers.startup_delay (timers s).
Definition launched' (i : inputs) (s : state) : bool :=
  enabled' i s && Qgeb (time_start_stop i) (startup_delay' i s)
  && negb (SystemState.running (system_state s) && negb (halted' i s)).
Definition running' (i : inputs) (s : state) : bool :=
  SystemState.running (system_state s) && negb (halted' i s)
  || launched' i s.
Definition ready' (i : inputs) (s : state) : bool :=
  negb (voltage_high' i s) && negb (temp_high' i s)
  && Sensors.gas_present (sensors i) && Sensors.vacuum_present (sensors i)
  && Sensors.oil_pressure_ok (sensors i)
  && Sensors.steam_pressure_ok (sensors i)
  && negb (Sensors.emergency_stop (sensors i)) && running' i s.
Definition gas_valve' (i : inputs) (s : state) : bool :=
  if negb (Sensors.vacuum_present (sensors i)) then false
  else if ready' i s then
         if Qgeb (time_gas_valve i) (Timers.gas_valve_delay (timers s))
         then true else Outputs.gas_valve (outputs s)
       else false.
Definition outputs' (i : inputs) (s : state) : Outputs.t :=
  Outputs.mk (gas_valve' i s)
    (Commands.socket1 (commands i) && negb (any_alarm' i s))
    (Commands.socket2 (commands i) && negb (any_alarm' i s))
    (ready' i s && Qgtb (Sensors.water_temp (sensors i)) 20)
    (ready' i s && Sensors.oil_pressure_ok (sensors i))
    (any_alarm' i s) (ready' i s) (running' i s).

End RealNext.

Module EmuNext.
Import Emu.

Definition bump (ds dp da dg dv dr : Z) (s : state) : state :=
  let c := CNT s in
  set_CNT (mkCNT (CNT_Starts c + ds) (CNT_Stops c + dp) (CNT_Alarms c + da)
             (CNT_GasFailures c + dg) (CNT_VacuumFailures c + dv)
             (CNT_RunTime c + dr)) s.

(** Values read by block 7 from the state it finds. *)
Definition armed (i : inputs) (s : state) : bool :=
  CMD_SystemStart i && negb (FF_StartOld (FF s))
  && (negb (SYS_Running (SYS s)) && negb (ALM_AnyAlarm (ALM s))).
Definition stop_edge (i : inputs) (s : state) : bool :=
  CMD_SystemStop i && negb (FF_StopOld (FF s)).
Definition fired (s : state) : bool := TON.Q (TMR_StartDelay (TMR s)).

(** The blocks that update the state under a condition, with the
    condition moved into the values written. *)
Definition block7_start_nf (i : inputs) (s : state) : state :=
  set_FF_StartOld (CMD_SystemStart i)
    (set_TMR_StartDelay
       (set_IN (if armed i s then true else TON.IN (TMR_StartDelay (TMR s)))
          (TMR_StartDelay (TMR s)))
       (set_SYS_Enabled (if armed i s then true else SYS_Enabled (SYS s)) s)).
Definition block7_stop_nf (i : inputs) (s : state) : state :=
  set_FF_StopOld (CMD_SystemStop i)
    (set_SYS_Running
       (if stop_edge i s then false else SYS_Running (SYS s))
       (set_SYS_Enabled
          (if stop_edge i s then false else SYS_Enabled (SYS s)) s)).
Definition block7_alarm_nf (s : state) : state :=
  set_SYS_Running
    (if ALM_AnyAlarm (ALM s) then false else SYS_Running (SYS s))
    (set_SYS_Enabled
       (if ALM_AnyAlarm (ALM s) then false else SYS_Enabled (SYS s)) s).
Definition block7_delay_nf (s : state) : state :=
  bump (b2z (fired s)) 0 0 0 0 0
    (set_TMR_StartDelay
       (set_IN (if fired s then false else TON.IN (TMR_StartDelay (TMR s)))
          (TMR_StartDelay (TMR s)))
       (set_SYS_Running
          (if fired s then true else SYS_Running (SYS s)) s)).
Definition block13_counters_nf (s : state) : state :=
  bump 0 0 (b2z (ALM_AnyAlarm (ALM s) && negb (FF_AlarmOld (FF s))))
    (b2z (negb (SNS_GasPresent (SNS s)) && FF_GasOld (FF s)))
    (b2z (negb (SNS_VacuumPresent (SNS s)) && FF_VacuumOld (FF s))) 0
    (set_FF
       (mkFF (FF_StartOld (FF s)) (FF_StopOld (FF s)) (FF_ResetOld (FF s))
          (SNS_GasPresent (SNS s)) (SNS_VacuumPresent (SNS s))
          (ALM_AnyAlarm (ALM s))) s).
Definition block13_stops_nf (i : inputs) (old_alarm : bool) (s : state) : state :=
  bump 0
    (b2z ((stop_edge_at_statistics i s
           || alarm_edge_at_statistics old_alarm s)
          && SYS_Running (SYS s))) 0 0 0 0 s.
Definition block_run_timer_nf (s : state) : state :=
  bump 0 0 0 0 0 (b2z (TON.Q (TMR_RunTimer (TMR s))))
    (set_TMR_RunTimer
       (set_IN (if TON.Q (TMR_RunTimer (TMR s)) then true
                else SYS_Running (SYS s))
          (TMR_RunTimer (TMR s))) s).
Definition block14_nf (i : inputs) (s : state) : state :=
  let tr := TMR_ResetDelay (TMR s) in
  let a := ALM s in
  let clear :=
    if TON.Q tr
    then negb (ALM_VoltageHigh a) && negb (ALM_TempHigh a)
         && negb (ALM_Emergency a)
    else false in
  set_TMR_ResetDelay
    (set_IN (if TON.Q tr then false
             else if CMD_ResetAlarms i && negb (FF_ResetOld (FF s)) then true
             else TON.IN tr) tr)
    (set_ALM
       (mkALM (ALM_VoltageHigh a) (ALM_TempHigh a)
          (if clear then false else ALM_NoGas a)
          (if clear then false else ALM_NoVacuum a)
          (if clear then false else ALM_OilPressureLow a)
          (if clear then false else ALM_SteamPressureBad a)
          (ALM_Emergency a) (ALM_AnyAlarm a))
       (set_FF_ResetOld (CMD_ResetAlarms i) s)).

(** Values after the whole cycle, from the state before it. *)
Definition volt (i : inputs) : Z := AI_BoilerVoltage i * VOLTAGE_MAX / ADC_MAX.
Definition temp (i : inputs) : Z := AI_BoilerTemp i * TEMP_MAX / ADC_MAX.
Definition water (i : inputs) : Z := AI_WaterTemp i * TEMP_MAX / ADC_MAX.
Definition voltage_high' (i : inputs) (s : state) : bool :=
  hystZ VOLTAGE_TRIP VOLTAGE_RESET (volt i) (ALM_VoltageHigh (ALM s)).
Definition temp_high' (i : inputs) (s : state) : bool :=
  hystZ TEMP_TRIP TEMP_RESET (temp i) (ALM_TempHigh (ALM s)).
Definition any_alarm' (i : inputs) (s : state) : bool :=
  voltage_high' i s || temp_high' i s || negb (DI_GasSensor i)
  || negb (DI_VacuumSensor i) || negb (DI_OilPressureOK i)
  || negb (DI_SteamPressureOK i) || DI_EmergencyStop i.
Definition armed' (i : inputs) (s : state) : bool :=
  CMD_SystemStart i && negb (FF_StartOld (FF s))
  && (negb (SYS_Running (SYS s)) && negb (any_alarm' i s)).
Definition enabled' (i : inputs) (s : state) : bool :=
  if any_alarm' i s then false
  else if stop_edge i s then false
  else if armed' i s then true
  else SYS_Enabled (SYS s).
Definition running' (i : inputs) (s : state) : bool :=
  if fired s then true
  else if any_alarm' i s then false
  else if stop_edge i s then false
  else SYS_Running (SYS s).
Definition ready' (i : inputs) (s : state) : bool :=
  negb (voltage_high' i s) && negb (temp_high' i s)
  && DI_GasSensor i && DI_VacuumSensor i && DI_OilPressureOK i
  && DI_SteamPressureOK i && negb (DI_EmergencyStop i) && running' i s.
Definition start_delay' (i : inputs) (s : state) : TON.t :=
  timer_update
    (set_IN (if fired s then false
             else if armed' i s then true
             else TON.IN (TMR_StartDelay (TMR s)))
       (TMR_StartDelay (TMR s))) 100.

(** One when the start-delay timer is armed or its output is set: a start
    is still to come. *)
Definition start_pending (s : state) : Z :=
  b2z (TON.IN (TMR_StartDelay (TMR s)) || TON.Q (TMR_StartDelay (TMR s))).

End EmuNext.

(* ================================================================== *)
(** * Concrete inputs and runs *)
(* ================================================================== *)
Module Scenario.

(** Controller.py: all sensors good, 244 V, 54 degrees, no command. *)
Definition ctl_idle : Controller.inputs :=
  Controller.mkInputs 2000 1500 1000 800 2000 true true true false
                      false false false false.
(** The same with the start command held. *)
Definition ctl_start : Controller.inputs :=
  Controller.mkInputs 2000 1500 1000 800 2000 true true true false
                      false false true false.
(** Start held while the oil pressure is low. *)
Definition ctl_start_oil_low : Controller.inputs :=
  Controller.mkInputs 2000 1500 1000 800 2000 true true false false
                      false false true false.
(** Vacuum lost, both sockets requested. *)
Definition ctl_vacuum_lost : Controller.inputs :=
  Controller.mkInputs 2000 1500 1000 800 2000 true false true false
                      true true false false.
(** Gas lost, nothing else changed with respect to [ctl_start]. *)
Definition ctl_start_no_gas : Controller.inputs :=
  Controller.mkInputs 2000 1500 1000 800 2000 false true true false
                      false false true false.
(** 419 V, above the trip threshold. *)
Definition ctl_over : Controller.inputs :=
  Controller.mkInputs 3439 1500 1000 800 2000 true true true false
                      false false false false.
(** 359 V, below the reset threshold. *)
Definition ctl_under : Controller.inputs :=
  Controller.mkInputs 2948 1500 1000 800 2000 true true true false
                      false false false false.
(** 392 V, inside the dead band. *)
Definition ctl_dead_band : Controller.inputs :=
  Controller.mkInputs 3211 1500 1000 800 2000 true true true false
                      false false false false.

(** The controller started, after one cycle with the start command. *)
Definition ctl_running : Controller.state :=
  Controller.scan_cycle ctl_start (Controller.start Controller.init).

(** simple_boiler_test.py: the values of [__init__], no command. *)
Definition simple_idle : Simple.inputs :=
  Simple.mkInputs 350 60 40 true true true true false
                  false false false false.
Definition simple_start : Simple.inputs :=
  Simple.mkInputs 350 60 40 true true true true false
                  true false false false.
Definition simple_vacuum_lost : Simple.inputs :=
  Simple.mkInputs 350 60 40 true false true true false
                  false false true true.
Definition simple_dead_band : Simple.inputs :=
  Simple.mkInputs 390 60 40 true true true true false
                  false false false false.

(** The system started by the control loop. *)
Definition simple_running : Simple.state :=
  Simple.scan_cycle simple_start (Simple.start Simple.init).
(** The system started by a direct call of [scan_cycle], the control loop
    never switched on. *)
Definition simple_direct : Simple.state :=
  Simple.scan_cycle simple_start Simple.init.

(** boiler_controller_real.py *)
Definition real_sensors_ok : Real.Sensors.t :=
  Real.Sensors.mk 350 60 40 44 40 73 5 true true true true false false.
Definition real_sensors_vacuum_lost : Real.Sensors.t :=
  Real.Sensors.mk 350 60 40 44 40 73 5 true false true true false false.
Definition real_sensors_dead_band : Real.Sensors.t :=
  Real.Sensors.mk 390 60 40 44 40 73 5 true true true true false false.
(** Start pressed at time 10. *)
Definition real_start : Real.inputs :=
  Real.mkInputs real_sensors_ok
    (Real.Commands.mk true false false false false) 10 10.
(** Four seconds later, start released. *)
Definition real_later : Real.inputs :=
  Real.mkInputs real_sensors_ok
    (Real.Commands.mk false false false false false) 14 14.
Definition real_vacuum_lost : Real.inputs :=
  Real.mkInputs real_sensors_vacuum_lost
    (Real.Commands.mk false false true true false) 15 15.
Definition real_dead_band : Real.inputs :=
  Real.mkInputs real_sensors_dead_band
    (Real.Commands.mk false false false false false) 15 15.

(** The system connected, started and running with the valve open. *)
Definition real_running : Real.state :=
  Real.scan_body real_later
    (Real.scan_body real_start (Real.start true Real.init)).

(** emulate_fatek.py: the values of [reset_all], no command. *)
Definition emu_idle : Emu.inputs :=
  Emu.mkInputs 2500 1500 1000 1200 1100 3000 2000
               true true true true false false
               false false false false false.
Definition emu_start : Emu.inputs :=
  Emu.mkInputs 2500 1500 1000 1200 1100 3000 2000
               true true true true false false
               true false false false false.
Definition emu_stop : Emu.inputs :=
  Emu.mkInputs 2500 1500 1000 1200 1100 3000 2000
               true true true true false false
               false true false false false.
Definition emu_vacuum_lost : Emu.inputs :=
  Emu.mkInputs 2500 1500 1000 1200 1100 3000 2000
               true false true true false false
               false false true true false.

(** Start pressed for one cycle, then 29 idle cycles: the start delay has
    just elapsed and the timer output is set. *)
Definition emu_delay_elapsed : Emu.state :=
  run Emu.scan_cycle Emu.init (emu_start :: repeat emu_idle 29).
(** One more idle cycle: the system runs. *)
Definition emu_running : Emu.state :=
  Emu.scan_cycle emu_idle emu_delay_elapsed.

End Scenario.

(* ================================================================== *)
(** * Setters, signal filter and traces *)
(* ================================================================== *)

(** Controller.py: the test setters write the analog inputs through
    [AnalogInput.set_value], which clamps. *)
Module ControllerSet.
Import Controller.

Definition set_AI_NAPRUGA (value : Z) (i : inputs) : inputs :=
  mkInputs (clamp_adc value) (AI_TEMP_BOILER i) (AI_TEMP_VODA i)
           (AI_TEMP_2 i) (AI_TISK_MASLA i) (X_GAZ i) (X_VAKUUM i)
           (X_TISK_MASLA_DI i) (X_AVARIA_EXT i) (CMD_ROZET_1 i)
           (CMD_ROZET_2 i) (CMD_START i) (CMD_STOP i).
Definition set_AI_TEMP_BOILER (value : Z) (i : inputs) : inputs :=
  mkInputs (AI_NAPRUGA i) (clamp_adc value) (AI_TEMP_VODA i)
           (AI_TEMP_2 i) (AI_TISK_MASLA i) (X_GAZ i) (X_VAKUUM i)
           (X_TISK_MASLA_DI i) (X_AVARIA_EXT i) (CMD_ROZET_1 i)
           (CMD_ROZET_2 i) (CMD_START i) (CMD_STOP i).

(** [set_voltage] and [set_temperature] *)
Definition set_voltage (volts : Z) (i : inputs) : inputs :=
  set_AI_NAPRUGA (volts * ADC_MAX / NAPRUGA_MAX) i.
Definition set_temperature (temp : Z) (i : inputs) : inputs :=
  set_AI_TEMP_BOILER (temp * ADC_MAX / TEMP_MAX) i.

End ControllerSet.

(** emulate_fatek.py: the setters write the attribute itself. *)
Module EmuSet.
Import Emu.

Definition set_voltage (volts : Z) (i : inputs) : inputs :=
  mkInputs (volts * ADC_MAX / VOLTAGE_MAX) (AI_BoilerTemp i)
           (AI_WaterTemp i) (AI_TempSensor1 i) (AI_TempSensor2 i)
           (AI_OilPressure i) (AI_SteamPressure i) (DI_GasSensor i)
           (DI_VacuumSensor i) (DI_OilPressureOK i) (DI_SteamPressureOK i)
           (DI_EmergencyStop i) (DI_ManualMode i) (CMD_SystemStart i)
           (CMD_SystemStop i) (CMD_Socket1_On i) (CMD_Socket2_On i)
           (CMD_ResetAlarms i).
Definition set_temperature (temp : Z) (i : inputs) : inputs :=
  mkInputs (AI_BoilerVoltage i) (temp * ADC_MAX / TEMP_MAX)
           (AI_WaterTemp i) (AI_TempSensor1 i) (AI_TempSensor2 i)
           (AI_OilPressure i) (AI_SteamPressure i) (DI_GasSensor i)
           (DI_VacuumSensor i) (DI_OilPressureOK i) (DI_SteamPressureOK i)
           (DI_EmergencyStop i) (DI_ManualMode i) (CMD_SystemStart i)
           (CMD_SystemStop i) (CMD_Socket1_On i) (CMD_Socket2_On i)
           (CMD_ResetAlarms i).

(** Two input records that agree on everything but the reset command. *)
Definition same_but_reset (i1 i2 : inputs) : Prop :=
  AI_BoilerVoltage i1 = AI_BoilerVoltage i2
  /\ AI_BoilerTemp i1 = AI_BoilerTemp i2
  /\ AI_WaterTemp i1 = AI_WaterTemp i2
  /\ AI_TempSensor1 i1 = AI_TempSensor1 i2
  /\ AI_TempSensor2 i1 = AI_TempSensor2 i2
  /\ AI_OilPressure i1 = AI_OilPressure i2
  /\ AI_SteamPressure i1 = AI_SteamPressure i2
  /\ DI_GasSensor i1 = DI_GasSensor i2
  /\ DI_VacuumSensor i1 = DI_VacuumSensor i2
  /\ DI_OilPressureOK i1 = DI_OilPressureOK i2
  /\ DI_SteamPressureOK i1 = DI_SteamPressureOK i2
  /\ DI_EmergencyStop i1 = DI_EmergencyStop i2
  /\ DI_ManualMode i1 = DI_ManualMode i2
  /\ CMD_SystemStart i1 = CMD_SystemStart i2
  /\ CMD_SystemStop i1 = CMD_SystemStop i2
  /\ CMD_Socket1_On i1 = CMD_Socket1_On i2
  /\ CMD_Socket2_On i1 = CMD_Socket2_On i2.

(** The state with what the reset block writes blanked: the four sensor
    alarm flags, the reset detector and the reset timer. *)
Definition reset_blind (s : state) : state :=
  let a := ALM s in
  let f := FF s in
  let t := TMR s in
  mkState (DO s) (ST s)
    (mkALM (ALM_VoltageHigh a) (ALM_TempHigh a) false false false false
       (ALM_Emergency a) (ALM_AnyAlarm a))
    (SYS s) (SNS s) (PHY s)
    (mkFF (FF_StartOld f) (FF_StopOld f) false (FF_GasOld f)
       (FF_VacuumOld f) (FF_AlarmOld f))
    (CNT s)
    (mkTMR (TMR_StartDelay t) (TMR_AlarmDelay t) (TON.mk false false 0 0)
       (TMR_RunTimer t))
    (scan_count s).

End EmuSet.

(** boiler_controller_real.py, [apply_filters]: a window of the last
    readings for each of the two filtered signals.  The readings are
    floats in the source; the window handling does not depend on their
    arithmetic, so the type of a reading and the mean [sum(w) / len(w)]
    are parameters. *)
Module RealFilter.
Section Window.

Variable A : Type.
Variable mean : list A -> A.

(** [w.append(x)], then [w.pop(0)] when [len(w) > 5] *)
Definition push (w : list A) (x : A) : list A :=
  let w := w ++ [x] in
  if (5 <? length w)%nat then tl w else w.

(** The value written back to the sensor. *)
Definition smoothed (w : list A) (x : A) : A :=
  if (0 <? length w)%nat then mean w else x.

(** The [filters] dictionary. *)
Record filters := mkFilters {
  voltage : list A;
  temperature : list A
}.

(** [apply_filters]: the new windows and the new values of
    [sensors['voltage']] and [sensors['boiler_temp']]. *)
Definition apply_filters (f : filters) (v t : A) : filters * (A * A) :=
  let wv := push (voltage f) v in
  let wt := push (temperature f) t in
  (mkFilters wv wt, (smoothed wv v, smoothed wt t)).

(** The windows after the readings of successive cycles. *)
Definition feed (w : list A) (l : list A) : list A := fold_left push l w.

End Window.
End RealFilter.

(** Falling edges of a boolean signal, [prev] being its value before the
    first element. *)
Fixpoint count_falls (prev : bool) (l : list bool) : Z :=
  match l with
  | [] => 0
  | c :: l' => b2z (prev && negb c) + count_falls c l'
  end.

(** No rising edge in a boolean signal. *)
Fixpoint no_rise (prev : bool) (l : list bool) : Prop :=
  match l with
  | [] => True
  | c :: l' => (c = true -> prev = true) /\ no_rise c l'
  end.

(** Alarm codes in their order of priority: the first flag set gives the
    code, 0 when none is. *)
Fixpoint first_set (code : Z) (flags : list bool) : Z :=
  match flags with
  | [] => 0
  | b :: l => if b then code else first_set (code + 1) l
  end.

(** A latched flag is stable over a run: it stays false while every input
    is [quiet] and stays true while every input is [loud]. *)
Definition latch_stable {S I : Type} (cycle : I -> S -> S)
    (flag : S -> bool) (quiet loud : I -> Prop) : Prop :=
  forall s l,
    (flag s = false -> Forall quiet l -> flag (run cycle s l) = false)
    /\ (flag s = true -> Forall loud l -> flag (run cycle s l) = true).

(** Scenario D of the specification for simple_boiler_test.py: 390 V,
    395 V, 390 V. *)
Definition simple_volts (v : Q) : Simple.inputs :=
  Simple.mkInputs v 60 40 true true true true false
                  false false false false.

(** Rising edges of a boolean signal. *)
Fixpoint count_rises (prev : bool) (l : list bool) : Z :=
  match l with
  | [] => 0
  | c :: l' => b2z (c && negb prev) + count_rises c l'
  end.

(** The states after each cycle of a run. *)
Fixpoint trace {S I : Type} (cycle : I -> S -> S) (s : S) (l : list I)
    : list S :=
  match l with
  | [] => []
  | i :: l' => cycle i s :: trace cycle (cycle i s) l'
  end.

(** The cycles of the Modbus controller whose reads succeeded. *)
Fixpoint somes {A : Type} (l : list (option A)) : list A :=
  match l with
  | [] => []
  | Some a :: l' => a :: somes l'
  | None :: l' => somes l'
  end.

(** The alarm detector of the emulator holds the general alarm at the end
    of every cycle. *)
Definition emu_alarm_detector_set (s : Emu.state) : Prop :=
  Emu.FF_AlarmOld (Emu.FF s) = Emu.ALM_AnyAlarm (Emu.ALM s).

(** [n] successive calls of [timer_update] on one timer, its input left
    as it is. *)
Definition emu_timer_run (n : nat) (dt : Z) (t : Emu.TON.t) : Emu.TON.t :=
  Nat.iter n (fun t => Emu.timer_update t dt) t.

(** The inputs with the reset command released. *)
Definition emu_clear_reset (i : Emu.inputs) : Emu.inputs :=
  Emu.mkInputs (Emu.AI_BoilerVoltage i) (Emu.AI_BoilerTemp i)
    (Emu.AI_WaterTemp i) (Emu.AI_TempSensor1 i) (Emu.AI_TempSensor2 i)
    (Emu.AI_OilPressure i) (Emu.AI_SteamPressure i) (Emu.DI_GasSensor i)
    (Emu.DI_VacuumSensor i) (Emu.DI_OilPressureOK i)
    (Emu.DI_SteamPressureOK i) (Emu.DI_EmergencyStop i)
    (Emu.DI_ManualMode i) (Emu.CMD_SystemStart i) (Emu.CMD_SystemStop i)
    (Emu.CMD_Socket1_On i) (Emu.CMD_Socket2_On i) false.

(** The start-delay timer of the emulator counting, [k] cycles after the
    start edge, the system not yet running. *)
Definition emu_start_counting (k : Z) (starts : Z) (s : Emu.state) : Prop :=
  Emu.TMR_StartDelay (Emu.TMR s) = Emu.TON.mk true false (100 * k) 3000
  /\ Emu.SYS_Running (Emu.SYS s) = false
  /\ Emu.CNT_Starts (Emu.CNT s) = starts.

(** A cycle of the emulator with the reset command pressed. *)
Definition emu_reset : Emu.inputs :=
  Emu.mkInputs 2500 1500 1000 1200 1100 3000 2000
               true true true true false false
               false false false false true.

(** The mean of a window of exact readings. *)
Definition Qmean (w : list Q) : Q :=
  (fold_right Qplus 0 w / inject_Z (Z.of_nat (length w)))%Q.

(** The last [n] elements of a list. *)
Definition lastn {A : Type} (n : nat) (l : list A) : list A :=
  skipn (length l - n) l.

(** The number of elements of a boolean list that are true. *)
Fixpoint count_true (l : list bool) : Z :=
  match l with
  | [] => 0
  | b :: l' => b2z b + count_true l'
  end.

(* ================================================================== *)
(** * test_boiler.py, class [PLCEmulator] *)
(* ================================================================== *)
Module PLC.

Definition ADC_MAX : Z := 4095.
Definition VOLTAGE_MAX : Z := 500.
Definition TEMP_MAX : Z := 150.
Definition VOLTAGE_ALARM : Z := 400.
Definition VOLTAGE_RESET : Z := 380.
Definition TEMP_ALARM : Z := 80.
Definition TEMP_RESET : Z := 75.

(** The analog and discrete inputs and the commands, which the setters
    write between two cycles. *)
Record inputs := mkInputs {
  AI_VOLTAGE : Z;
  AI_TEMP_BOILER : Z;
  AI_TEMP_WATER : Z;
  AI_TEMP_1 : Z;
  AI_TEMP_2 : Z;
  AI_OIL_PRESSURE : Z;
  X_GAS_PRESENT : bool;
  X_VACUUM_OK : bool;
  X_OIL_PRESS_OK : bool;
  X_EMERGENCY_STOP : bool;
  CMD_START : bool;
  CMD_STOP : bool;
  CMD_SOCKET1 : bool;
  CMD_SOCKET2 : bool
}.

Record outputs := mkOutputs {
  Y_GAS_VALVE : bool;
  Y_SOCKET1 : bool;
  Y_SOCKET2 : bool;
  Y_ALARM_LIGHT : bool;
  Y_PERMIT_RUN : bool;
  Y_WATER_PUMP : bool
}.

Record markers := mkMarkers {
  M_VOLTAGE_ALARM : bool;
  M_TEMP_ALARM : bool;
  M_VACUUM_ALARM : bool;
  M_OIL_ALARM : bool;
  M_ANY_ALARM : bool;
  M_SYSTEM_RUN : bool;
  M_SYSTEM_READY : bool;
  M_GAS_AVAILABLE : bool;
  M_VACUUM_OK : bool
}.

Record displays := mkDisplays {
  VOLTAGE_DISPLAY : Z;
  TEMP_B_DISPLAY : Z;
  TEMP_W_DISPLAY : Z;
  TEMP_1_DISPLAY : Z;
  TEMP_2_DISPLAY : Z;
  OIL_P_DISPLAY : Z
}.

Record stats := mkStats {
  STAT_START_COUNT : Z;
  STAT_ALARM_COUNT : Z;
  STAT_GAS_OFF : Z;
  STAT_VAC_OFF : Z
}.

Record detectors := mkDetectors {
  M_CMD_START_OLD : bool;
  M_CMD_STOP_OLD : bool;
  M_GAS_OLD : bool;
  M_VAC_OLD : bool;
  M_ALARM_OLD : bool
}.

(** The object.  [self.running], the flag of the scan loop of the test,
    is left out: no method reads it. *)
Record state := mkState {
  Y : outputs;
  M : markers;
  D : displays;
  ST : stats;
  FF : detectors;
  scan_count : Z
}.

(** [reset_io], then [scan_count = 0] *)
Definition init : state :=
  mkState (mkOutputs false false false false false false)
          (mkMarkers false false false false false false false false false)
          (mkDisplays 0 0 0 0 0 0)
          (mkStats 0 0 0 0)
          (mkDetectors false false false false false)
          0.

(** The inputs as [reset_io] leaves them. *)
Definition reset_inputs : inputs :=
  mkInputs 2500 1500 1000 1200 1100 3000 true true true false
           false false false false.

(** [scan_cycle]: straight-line code; every assignment of the source is
    one binding here, in the order of the source, a name bound again
    standing for the attribute written again.  [started] is the
    condition of the two nested tests of block 8. *)
Definition scan_cycle (i : inputs) (s : state) : state :=
  (* Block 1 *)
  let VOLTAGE_DISPLAY := AI_VOLTAGE i * VOLTAGE_MAX / ADC_MAX in
  let TEMP_B_DISPLAY := AI_TEMP_BOILER i * TEMP_MAX / ADC_MAX in
  let TEMP_W_DISPLAY := AI_TEMP_WATER i * TEMP_MAX / ADC_MAX in
  let TEMP_1_DISPLAY := AI_TEMP_1 i * TEMP_MAX / ADC_MAX in
  let TEMP_2_DISPLAY := AI_TEMP_2 i * TEMP_MAX / ADC_MAX in
  let OIL_P_DISPLAY := AI_OIL_PRESSURE i * 100 / ADC_MAX in
  (* Block 2 *)
  let M_VOLTAGE_ALARM :=
    if VOLTAGE_DISPLAY >=? VOLTAGE_ALARM then true
    else if VOLTAGE_DISPLAY <? VOLTAGE_RESET then false
    else M_VOLTAGE_ALARM (M s) in
  (* Block 3 *)
  let M_TEMP_ALARM :=
    if TEMP_B_DISPLAY >=? TEMP_ALARM then true
    else if TEMP_B_DISPLAY <? TEMP_RESET then false
    else M_TEMP_ALARM (M s) in
  (* Block 4 *)
  let M_GAS_AVAILABLE := X_GAS_PRESENT i in
  let STAT_GAS_OFF :=
    if Bool.eqb M_GAS_AVAILABLE false && Bool.eqb (M_GAS_OLD (FF s)) true
    then STAT_GAS_OFF (ST s) + 1 else STAT_GAS_OFF (ST s) in
  let M_GAS_OLD := M_GAS_AVAILABLE in
  (* Block 5 *)
  let M_VACUUM_OK := X_VACUUM_OK i in
  let M_VACUUM_ALARM := if Bool.eqb M_VACUUM_OK false then true else false in
  let STAT_VAC_OFF :=
    if Bool.eqb M_VACUUM_OK false && Bool.eqb (M_VAC_OLD (FF s)) true
    then STAT_VAC_OFF (ST s) + 1 else STAT_VAC_OFF (ST s) in
  let M_VAC_OLD := M_VACUUM_OK in
  (* Block 6 *)
  let M_OIL_ALARM := negb (X_OIL_PRESS_OK i) in
  (* Block 7 *)
  let M_ANY_ALARM :=
    M_VOLTAGE_ALARM || M_TEMP_ALARM || M_VACUUM_ALARM || M_OIL_ALARM
    || X_EMERGENCY_STOP i in
  let STAT_ALARM_COUNT :=
    if Bool.eqb M_ANY_ALARM true && Bool.eqb (M_ALARM_OLD (FF s)) false
    then STAT_ALARM_COUNT (ST s) + 1 else STAT_ALARM_COUNT (ST s) in
  let M_ALARM_OLD := M_ANY_ALARM in
  (* Block 8 *)
  let started :=
    Bool.eqb (CMD_START i) true && Bool.eqb (M_CMD_START_OLD (FF s)) false
    && (Bool.eqb (M_SYSTEM_RUN (M s)) false && Bool.eqb M_ANY_ALARM false) in
  let M_SYSTEM_RUN := if started then true else M_SYSTEM_RUN (M s) in
  let STAT_START_COUNT :=
    if started then STAT_START_COUNT (ST s) + 1
    else STAT_START_COUNT (ST s) in
  let M_CMD_START_OLD := CMD_START i in
  let M_SYSTEM_RUN :=
    if Bool.eqb (CMD_STOP i) true && Bool.eqb (M_CMD_STOP_OLD (FF s)) false
    then false else M_SYSTEM_RUN in
  let M_CMD_STOP_OLD := CMD_STOP i in
  let M_SYSTEM_RUN :=
    if Bool.eqb M_ANY_ALARM true then false else M_SYSTEM_RUN in
  (* Block 9 *)
  let M_SYSTEM_READY :=
    negb M_VOLTAGE_ALARM && negb M_TEMP_ALARM && M_GAS_AVAILABLE
    && M_VACUUM_OK && negb M_OIL_ALARM && negb (X_EMERGENCY_STOP i)
    && M_SYSTEM_RUN in
  (* Block 10 *)
  let Y_GAS_VALVE := if M_SYSTEM_READY then true else false in
  let Y_GAS_VALVE :=
    if Bool.eqb M_VACUUM_OK false then false else Y_GAS_VALVE in
  (* Block 11 *)
  let Y_SOCKET1 :=
    Bool.eqb (CMD_SOCKET1 i) true && Bool.eqb M_ANY_ALARM false in
  let Y_SOCKET2 :=
    Bool.eqb (CMD_SOCKET2 i) true && Bool.eqb M_ANY_ALARM false in
  (* Block 12 *)
  let Y_WATER_PUMP := M_SYSTEM_READY && (TEMP_W_DISPLAY >? 20) in
  (* Block 13 *)
  let Y_ALARM_LIGHT := M_ANY_ALARM in
  (* Block 14 *)
  let Y_PERMIT_RUN := M_SYSTEM_READY in
  mkState
    (mkOutputs Y_GAS_VALVE Y_SOCKET1 Y_SOCKET2 Y_ALARM_LIGHT Y_PERMIT_RUN
       Y_WATER_PUMP)
    (mkMarkers M_VOLTAGE_ALARM M_TEMP_ALARM M_VACUUM_ALARM M_OIL_ALARM
       M_ANY_ALARM M_SYSTEM_RUN M_SYSTEM_READY M_GAS_AVAILABLE M_VACUUM_OK)
    (mkDisplays VOLTAGE_DISPLAY TEMP_B_DISPLAY TEMP_W_DISPLAY TEMP_1_DISPLAY
       TEMP_2_DISPLAY OIL_P_DISPLAY)
    (mkStats STAT_START_COUNT STAT_ALARM_COUNT STAT_GAS_OFF STAT_VAC_OFF)
    (mkDetectors M_CMD_START_OLD M_CMD_STOP_OLD M_GAS_OLD M_VAC_OLD
       M_ALARM_OLD)
    (scan_count s + 1).

(** [set_voltage] and [set_temperature] *)
Definition set_voltage (volts : Z) (i : inputs) : inputs :=
  mkInputs (volts * ADC_MAX / VOLTAGE_MAX) (AI_TEMP_BOILER i)
    (AI_TEMP_WATER i) (AI_TEMP_1 i) (AI_TEMP_2 i) (AI_OIL_PRESSURE i)
    (X_GAS_PRESENT i) (X_VACUUM_OK i) (X_OIL_PRESS_OK i)
    (X_EMERGENCY_STOP i) (CMD_START i) (CMD_STOP i) (CMD_SOCKET1 i)
    (CMD_SOCKET2 i).
Definition set_temperature (temp : Z) (i : inputs) : inputs :=
  mkInputs (AI_VOLTAGE i) (temp * ADC_MAX / TEMP_MAX)
    (AI_TEMP_WATER i) (AI_TEMP_1 i) (AI_TEMP_2 i) (AI_OIL_PRESSURE i)
    (X_GAS_PRESENT i) (X_VACUUM_OK i) (X_OIL_PRESS_OK i)
    (X_EMERGENCY_STOP i) (CMD_START i) (CMD_STOP i) (CMD_SOCKET1 i)
    (CMD_SOCKET2 i).

(** The general alarm of a cycle, from the state before it. *)
Definition voltage_alarm' (i : inputs) (s : state) : bool :=
  hystZ VOLTAGE_ALARM VOLTAGE_RESET (AI_VOLTAGE i * VOLTAGE_MAX / ADC_MAX)
    (M_VOLTAGE_ALARM (M s)).
Definition temp_alarm' (i : inputs) (s : state) : bool :=
  hystZ TEMP_ALARM TEMP_RESET (AI_TEMP_BOILER i * TEMP_MAX / ADC_MAX)
    (M_TEMP_ALARM (M s)).
Definition any_alarm' (i : inputs) (s : state) : bool :=
  voltage_alarm' i s || temp_alarm' i s || negb (X_VACUUM_OK i)
  || negb (X_OIL_PRESS_OK i) || X_EMERGENCY_STOP i.

(** Two input records that agree on everything but the gas sensor. *)
Definition same_but_gas (i1 i2 : inputs) : Prop :=
  AI_VOLTAGE i1 = AI_VOLTAGE i2 /\ AI_TEMP_BOILER i1 = AI_TEMP_BOILER i2
  /\ AI_TEMP_WATER i1 = AI_TEMP_WATER i2 /\ AI_TEMP_1 i1 = AI_TEMP_1 i2
  /\ AI_TEMP_2 i1 = AI_TEMP_2 i2 /\ AI_OIL_PRESSURE i1 = AI_OIL_PRESSURE i2
  /\ X_VACUUM_OK i1 = X_VACUUM_OK i2
  /\ X_OIL_PRESS_OK i1 = X_OIL_PRESS_OK i2
  /\ X_EMERGENCY_STOP i1 = X_EMERGENCY_STOP i2
  /\ CMD_START i1 = CMD_START i2 /\ CMD_STOP i1 = CMD_STOP i2
  /\ CMD_SOCKET1 i1 = CMD_SOCKET1 i2 /\ CMD_SOCKET2 i1 = CMD_SOCKET2 i2.

End PLC.

(* ================================================================== *)
(** * test_st_code.py, class [STCodeTester] *)
(* ================================================================== *)
Module STTest.

(** The [inputs] dictionary of a scenario; a key may be missing, and
    [inputs.get(key, default)] then gives the default. *)
Record inputs := mkInputs {
  AI_VOLTAGE : option Z;
  AI_BOILER_TEMP : option Z;
  DI_GAS_SENSOR : option bool;
  DI_VACUUM_SENSOR : option bool;
  CMD_SOCKET1 : option bool;
  CMD_SOCKET2 : option bool
}.

Definition get {A : Type} (o : option A) (default : A) : A :=
  match o with
  | Some v => v
  | None => default
  end.

(** The dictionary that [execute_st_logic] returns. *)
Record outputs := mkOutputs {
  DO_GAS_VALVE : bool;
  DO_SOCKET1 : bool;
  DO_SOCKET2 : bool;
  DO_ALARM_LIGHT : bool;
  ALM_ANY_ALARM : bool;
  SYSTEM_READY : bool
}.

(** [execute_st_logic] *)
Definition execute_st_logic (inputs : inputs) : outputs :=
  let voltage := get (AI_VOLTAGE inputs) 0 in
  let temp := get (AI_BOILER_TEMP inputs) 0 in
  let gas_present := get (DI_GAS_SENSOR inputs) false in
  let vacuum_present := get (DI_VACUUM_SENSOR inputs) false in
  let voltage_alarm := voltage >=? 400 in
  let temp_alarm := temp >=? 80 in
  let gas_alarm := negb gas_present in
  let vacuum_alarm := negb vacuum_present in
  let any_alarm := voltage_alarm || temp_alarm || gas_alarm || vacuum_alarm in
  let system_ready :=
    negb voltage_alarm && negb temp_alarm && gas_present && vacuum_present in
  let gas_valve := system_ready in
  let gas_valve := if negb vacuum_present then false else gas_valve in
  let socket1 := get (CMD_SOCKET1 inputs) false && negb any_alarm in
  let socket2 := get (CMD_SOCKET2 inputs) false && negb any_alarm in
  let alarm_light := any_alarm in
  mkOutputs gas_valve socket1 socket2 alarm_light any_alarm system_ready.

(** The keys of the returned dictionary. *)
Inductive key :=
| K_DO_GAS_VALVE | K_DO_SOCKET1 | K_DO_SOCKET2 | K_DO_ALARM_LIGHT
| K_ALM_ANY_ALARM | K_SYSTEM_READY.

Definition lookup (actual : outputs) (k : key) : bool :=
  match k with
  | K_DO_GAS_VALVE => DO_GAS_VALVE actual
  | K_DO_SOCKET1 => DO_SOCKET1 actual
  | K_DO_SOCKET2 => DO_SOCKET2 actual
  | K_DO_ALARM_LIGHT => DO_ALARM_LIGHT actual
  | K_ALM_ANY_ALARM => ALM_ANY_ALARM actual
  | K_SYSTEM_READY => SYSTEM_READY actual
  end.

(** [check_outputs]: the expected dictionary as the list of its items,
    its keys among those of the returned dictionary. *)
Definition check_outputs (actual : outputs) (expected : list (key * bool))
    : bool :=
  forallb (fun kv => Bool.eqb (lookup actual (fst kv)) (snd kv)) expected.

(** A scenario, without its name. *)
Record scenario := mkScenario {
  sc_inputs : inputs;
  sc_expected : list (key * bool)
}.

(** [simulate_st_execution]: the flags appended to [test_results] and the
    value returned. *)
Definition simulate_st_execution (test_results : list bool)
    (test_scenarios : list scenario) : list bool * bool :=
  let test_results :=
    test_results
    ++ map (fun sc =>
              check_outputs (execute_st_logic (sc_inputs sc))
                (sc_expected sc)) test_scenarios in
  (test_results, forallb (fun passed => passed) test_results).

Definition scenario_of (v t : Z) (gas vacuum s1 s2 : bool)
    (valve o1 o2 light alarm ready : bool) : scenario :=
  mkScenario
    (mkInputs (Some v) (Some t) (Some gas) (Some vacuum) (Some s1) (Some s2))
    [(K_DO_GAS_VALVE, valve); (K_DO_SOCKET1, o1); (K_DO_SOCKET2, o2);
     (K_DO_ALARM_LIGHT, light); (K_ALM_ANY_ALARM, alarm);
     (K_SYSTEM_READY, ready)].

(** [create_test_scenarios] *)
Definition create_test_scenarios : list scenario :=
  [scenario_of 350 60 true true false false
     true false false false false true;
   scenario_of 420 60 true true false false
     false false false true true false;
   scenario_of 350 85 true true false false
     false false false true true false;
   scenario_of 350 60 false true false false
     false false false true true false;
   scenario_of 350 60 true false false false
     false false false true true false;
   scenario_of 350 60 true true true true
     true true true false false true;
   scenario_of 420 60 true true true true
     false false false true true false].

(** The tester's inputs read off a cycle of the emulator: the physical
    values of block 1 and the sensors and socket commands. *)
Definition of_emulator (i : Emu.inputs) : inputs :=
  mkInputs (Some (EmuNext.volt i)) (Some (EmuNext.temp i))
    (Some (Emu.DI_GasSensor i)) (Some (Emu.DI_VacuumSensor i))
    (Some (Emu.CMD_Socket1_On i)) (Some (Emu.CMD_Socket2_On i)).

End STTest.

(* ================================================================== *)
(** * boiler_controller_real.py: the cycle with its filter, and the two
      deadlines *)
(* ================================================================== *)

(** [scan_cycle] from the readings: [apply_filters] runs between the two
    reads and [check_alarms] and writes the two smoothed values back into
    the [sensors] dictionary, so that every later step of the cycle sees
    them in place of the readings.  The mean [sum(w) / len(w)] is float
    arithmetic in the source and a parameter here. *)
Module RealPipeline.
Section Mean.

Variable mean : list Q -> Q.

(** The object with its [filters] dictionary. *)
Record state := mkState {
  filters : RealFilter.filters Q;
  ctl : Real.state
}.

(** [__init__]: both windows empty. *)
Definition init : state :=
  mkState (RealFilter.mkFilters Q [] []) Real.init.

(** The [sensors] dictionary with the two values written back. *)
Definition write_back (sn : Real.Sensors.t) (v t : Q) : Real.Sensors.t :=
  Real.Sensors.mk v t (Real.Sensors.water_temp sn) (Real.Sensors.temp1 sn)
    (Real.Sensors.temp2 sn) (Real.Sensors.oil_pressure sn)
    (Real.Sensors.steam_pressure sn) (Real.Sensors.gas_present sn)
    (Real.Sensors.vacuum_present sn) (Real.Sensors.oil_pressure_ok sn)
    (Real.Sensors.steam_pressure_ok sn) (Real.Sensors.emergency_stop sn)
    (Real.Sensors.manual_mode sn).

(** The inputs that the steps after [apply_filters] find; [raw] holds the
    [sensors] dictionary as [read_sensors] leaves it. *)
Definition filtered (raw : Real.inputs) (s : state) : Real.inputs :=
  let r :=
    RealFilter.apply_filters Q mean (filters s)
      (Real.Sensors.voltage (Real.sensors raw))
      (Real.Sensors.boiler_temp (Real.sensors raw)) in
  Real.mkInputs
    (write_back (Real.sensors raw) (fst (snd r)) (snd (snd r)))
    (Real.commands raw) (Real.time_start_stop raw) (Real.time_gas_valve raw).

(** The body of [scan_cycle] once both reads have succeeded. *)
Definition scan_body (raw : Real.inputs) (s : state) : state :=
  let r :=
    RealFilter.apply_filters Q mean (filters s)
      (Real.Sensors.voltage (Real.sensors raw))
      (Real.Sensors.boiler_temp (Real.sensors raw)) in
  mkState (fst r) (Real.scan_body (filtered raw s) (ctl s)).

(** [scan_cycle]: a failed read returns before [apply_filters]. *)
Definition scan_cycle (r : option Real.inputs) (s : state) : state :=
  match r with
  | Some raw => scan_body raw s
  | None => s
  end.

(** The two flags and the two values that [check_alarms] compared in the
    cycle that has led to a state: the means of the windows. *)
Definition voltage_high (s : state) : bool :=
  Real.Alarms.voltage_high (Real.alarms (ctl s)).
Definition temp_high (s : state) : bool :=
  Real.Alarms.temp_high (Real.alarms (ctl s)).
Definition voltage_seen (s : state) : Q :=
  mean (RealFilter.voltage Q (filters s)).
Definition temp_seen (s : state) : Q :=
  mean (RealFilter.temperature Q (filters s)).

End Mean.


End RealPipeline.

(** The two steps of boiler_controller_real.py that compute a deadline,
    [current_time + 3.0] and [current_time + 2.0]: a sum of floats in the
    source, rounded, and the parameter [fadd] here.  With the exact sum
    for [fadd] they are the steps of [Real]. *)
Module RealClock.
Import Real.
Section FloatSum.

Variable fadd : Q -> Q -> Q.

Definition handle_start_stop_logic (i : inputs) (s : state) : state :=
  let current_time := time_start_stop i in
  let c := commands i in
  let s :=
    if Commands.start c && negb (EdgeDetectors.start_old (edge_detectors s))
    then
      if negb (SystemState.running (system_state s))
         && negb (Alarms.any_alarm (alarms s))
      then set_startup_delay (fadd current_time 3) (set_enabled true s)
      else s
    else s in
  let s :=
    if Commands.stop c && negb (EdgeDetectors.stop_old (edge_detectors s))
    then set_running false (set_enabled false s)
    else s in
  let s :=
    let e := edge_detectors s in
    set_edge_detectors
      (EdgeDetectors.mk (Commands.start c) (Commands.stop c)
         (EdgeDetectors.gas_old e) (EdgeDetectors.vacuum_old e)
         (EdgeDetectors.alarm_old e)) s in
  let s :=
    if Alarms.any_alarm (alarms s)
    then set_running false (set_enabled false s)
    else s in
  if SystemState.enabled (system_state s)
     && Qgeb current_time (Timers.startup_delay (timers s))
     && negb (SystemState.running (system_state s))
  then count_start current_time (set_running true s)
  else s.

Definition control_gas_valve (i : inputs) (s : state) : state :=
  let current_time := time_gas_valve i in
  let s :=
    if SystemState.ready (system_state s) then
      if Qgeb current_time (Timers.gas_valve_delay (timers s))
      then set_gas_valve true s
      else s
    else set_gas_valve_delay (fadd current_time 2) (set_gas_valve false s) in
  if negb (Sensors.vacuum_present (sensors i))
  then set_gas_valve false s
  else s.

End FloatSum.
End RealClock.

(** Controller.py, scenario C of the specification with the start
    command held: the vacuum lost for one cycle. *)
Definition ctl_start_vacuum_lost : Controller.inputs :=
  Controller.mkInputs 2000 1500 1000 800 2000 true false true false
                      false false true false.

(** A latched flag is stable over a run, as to the values the cycles have
    compared: it stays false while every state reached is [quiet] and
    stays true while every state reached is [loud]. *)
Definition latch_stable_seen {S I : Type} (cycle : I -> S -> S)
    (flag : S -> bool) (quiet loud : S -> Prop) : Prop :=
  forall s l,
    (flag s = false -> Forall quiet (trace cycle s l) ->
     flag (run cycle s l) = false)
    /\ (flag s = true -> Forall loud (trace cycle s l) ->
        flag (run cycle s l) = true).

(* ================================================================== *)
(** * Cycle equations of Controller.py *)
(* ================================================================== *)
Module ControllerFacts.
Import Controller ControllerNext.

Ltac break_state s :=
  let y := fresh "y" in let m := fresh "m" in let p := fresh "p" in
  let n := fresh "n" in let c := fresh "c" in let r := fresh "r" in
  destruct s as [y m p n c r]; destruct y, m, p, c.

(** Unfolds setters, projections and closed forms; arithmetic and the
    threshold tests stay folded. *)
Ltac norm :=
  cbv beta iota zeta delta
    [bump b2z
     general_alarm started stopped
     volt temp voltage_alarm' temp_alarm' vakuum_alarm' alarm' started'
     stopped' on' ready'
     set_st set_M set_Y set_PHY
     set_M_AVARIA_NAPRUGA set_M_AVARIA_TEMP set_M_GAZ_IE set_M_VAKUUM_IE
     set_M_TISK_NORMA set_M_AVARIA_VAKUUM set_M_SYSTEM_READY
     set_M_ZAGALNA_AVARIA set_M_SYSTEM_ON
     incr_starts incr_stops incr_alarms incr_gas_off_count
     incr_vakuum_off_count
     _update_physical_values _check_oil_pressure _update_system_ready
     _control_gas_valve _control_sockets _control_alarm_signal
     _control_operation_permit
     Y M PHY st scan_count running
     Y_KLAPAN_GAZ Y_ROZET_1 Y_ROZET_2 Y_AVARIA_SIGNAL Y_DOZV_ROBOTY
     M_AVARIA_NAPRUGA M_AVARIA_TEMP M_GAZ_IE M_VAKUUM_IE M_TISK_NORMA
     M_AVARIA_VAKUUM M_SYSTEM_READY M_ZAGALNA_AVARIA M_SYSTEM_ON
     NAPRUGA_VOLT TEMP_BOILER_GRAD TEMP_VODA_GRAD TEMP_2_GRAD
     starts stops alarms gas_off_count vakuum_off_count].

Ltac same_state :=
  norm; cbv [negb andb orb Bool.eqb]; repeat (f_equal; try lia).

Lemma ctl_check_voltage_alarm_eq s :
  _check_voltage_alarm s =
  set_M_AVARIA_NAPRUGA
    (hystZ NAPRUGA_AVAR_VOLT NAPRUGA_HYST_VOLT (NAPRUGA_VOLT (PHY s))
       (M_AVARIA_NAPRUGA (M s))) s.
Proof.
  break_state s. unfold _check_voltage_alarm, hystZ. cbn.
  destruct (_ >=? _); [reflexivity|].
  destruct (_ <? _), M_AVARIA_NAPRUGA0; reflexivity.
Qed.

Lemma ctl_check_temperature_alarm_eq s :
  _check_temperature_alarm s =
  set_M_AVARIA_TEMP
    (hystZ TEMP_AVAR_GRAD TEMP_HYST_GRAD (TEMP_BOILER_GRAD (PHY s))
       (M_AVARIA_TEMP (M s))) s.
Proof.
  break_state s. unfold _check_temperature_alarm, hystZ. cbn.
  destruct (_ >=? _); [reflexivity|].
  destruct (_ <? _), M_AVARIA_TEMP0; reflexivity.
Qed.

Lemma ctl_check_gas_and_vakuum_eq i s :
  _check_gas_and_vakuum i s =
  bump 0 0 0 (b2z (M_GAZ_IE (M s) && negb (X_GAZ i)))
             (b2z (M_VAKUUM_IE (M s) && negb (X_VAKUUM i)))
    (set_M_AVARIA_VAKUUM
       (if Bool.eqb (M_VAKUUM_IE (M s)) (X_VAKUUM i)
        then M_AVARIA_VAKUUM (M s)
        else negb (X_VAKUUM i))
       (set_M_VAKUUM_IE (X_VAKUUM i) (set_M_GAZ_IE (X_GAZ i) s))).
Proof.
  break_state s. unfold _check_gas_and_vakuum. cbn.
  destruct (X_GAZ i), (X_VAKUUM i), M_GAZ_IE0, M_VAKUUM_IE0; same_state.
Qed.

Lemma ctl_update_general_alarm_eq i s :
  _update_general_alarm i s =
  bump 0 0 (b2z (general_alarm i s && negb (M_ZAGALNA_AVARIA (M s)))) 0 0
    (set_M_ZAGALNA_AVARIA (general_alarm i s) s).
Proof.
  unfold _update_general_alarm, general_alarm.
  destruct (M_AVARIA_NAPRUGA (M s) || M_AVARIA_TEMP (M s)
            || M_AVARIA_VAKUUM (M s) || negb (M_TISK_NORMA (M s))
            || X_AVARIA_EXT i);
    break_state s; cbn; destruct M_ZAGALNA_AVARIA0; same_state.
Qed.

Lemma ctl_handle_start_stop_eq i s :
  _handle_start_stop i s =
  bump (b2z (started i s)) (b2z (stopped i s)) 0 0 0
    (set_M_SYSTEM_ON
       ((M_SYSTEM_ON (M s) || started i s) && negb (stopped i s)) s).
Proof.
  unfold _handle_start_stop, stopped, started.
  break_state s. cbn.
  destruct (CMD_START i), (CMD_STOP i), M_SYSTEM_ON0, M_ZAGALNA_AVARIA0;
    same_state.
Qed.

Ltac to_nf :=
  unfold scan_cycle, upto_ready; cbv zeta;
  rewrite ?ctl_handle_start_stop_eq, ?ctl_update_general_alarm_eq,
    ?ctl_check_gas_and_vakuum_eq, ?ctl_check_temperature_alarm_eq,
    ?ctl_check_voltage_alarm_eq.

(** The markers after one cycle. *)
Lemma ctl_scan_cycle_M i s :
  M (scan_cycle i s) =
  mkMarkers (voltage_alarm' i s) (temp_alarm' i s) (X_GAZ i) (X_VAKUUM i)
            (X_TISK_MASLA_DI i) (vakuum_alarm' i s) (ready' i s)
            (alarm' i s) (on' i s).
Proof. to_nf. norm. reflexivity. Qed.

(** The markers just after the readiness step are already the final
    ones. *)
Lemma ctl_upto_ready_M i s : M (upto_ready i s) = M (scan_cycle i s).
Proof. to_nf. norm. reflexivity. Qed.

(** The outputs after one cycle. *)
Lemma ctl_scan_cycle_Y i s :
  Y (scan_cycle i s) =
  mkOutputs (if negb (X_VAKUUM i) then false else ready' i s)
            (CMD_ROZET_1 i && negb (alarm' i s))
            (CMD_ROZET_2 i && negb (alarm' i s))
            (alarm' i s) (ready' i s).
Proof. to_nf. norm. reflexivity. Qed.

(** The counters after one cycle. *)
Lemma ctl_scan_cycle_st i s :
  st (scan_cycle i s) =
  mkStats (starts (st s) + b2z (started' i s))
          (stops (st s) + b2z (stopped' i s))
          (alarms (st s) + b2z (alarm' i s && negb (M_ZAGALNA_AVARIA (M s))))
          (gas_off_count (st s) + b2z (M_GAZ_IE (M s) && negb (X_GAZ i)))
          (vakuum_off_count (st s)
           + b2z (M_VAKUUM_IE (M s) && negb (X_VAKUUM i))).
Proof. to_nf. norm. f_equal; lia. Qed.

Lemma ctl_scan_cycle_PHY i s :
  PHY (scan_cycle i s) =
  mkPhysical (volt i) (temp i) (adc_to_physical (AI_TEMP_VODA i) TEMP_MAX)
             (adc_to_physical (AI_TEMP_2 i) TEMP_MAX).
Proof. to_nf. norm. reflexivity. Qed.

Lemma ctl_scan_cycle_running i s : running (scan_cycle i s) = running s.
Proof. to_nf. norm. reflexivity. Qed.

Lemma ctl_scan_cycle_scan_count i s :
  scan_count (scan_cycle i s) = scan_count s + 1.
Proof. to_nf. norm. reflexivity. Qed.

End ControllerFacts.

(* ================================================================== *)
(** * Cycle equations of emulate_fatek.py *)
(* ================================================================== *)
Module EmuFacts.
Import Emu EmuNext.

Ltac norm :=
  cbv beta iota zeta delta
    [bump b2z armed stop_edge fired
     block7_start_nf block7_stop_nf block7_alarm_nf block7_delay_nf
     block13_counters_nf block13_stops_nf block_run_timer_nf block14_nf
     set_scan_count
     volt temp water voltage_high' temp_high' any_alarm' armed'
     enabled' running' ready' start_delay'
     stop_edge_at_statistics alarm_edge_at_statistics
     set_IN
     set_DO set_ST set_ALM set_SYS set_SNS set_PHY set_FF set_CNT set_TMR
     set_SYS_Enabled set_SYS_Running set_SYS_Ready set_SYS_ManualMode
     set_FF_StartOld set_FF_StopOld set_FF_ResetOld set_FF_GasOld
     set_FF_VacuumOld set_FF_AlarmOld
     incr_CNT_Starts incr_CNT_Stops incr_CNT_Alarms incr_CNT_GasFailures
     incr_CNT_VacuumFailures incr_CNT_RunTime
     set_TMR_StartDelay set_TMR_ResetDelay set_TMR_RunTimer
     block1 block2 block3 block4 block5 block6 block8 block9to12_outputs
     block12_indication block_timers
     DO ST ALM SYS SNS PHY FF CNT TMR scan_count
     TON.IN TON.Q TON.ET TON.PT
     DO_GasValve DO_Socket1 DO_Socket2 DO_WaterPump DO_OilPump
     DO_AlarmLight DO_PermitRun DO_FanVent
     ST_SystemRunning ST_GasAvailable ST_VacuumOK ST_AlarmCode
     ALM_VoltageHigh ALM_TempHigh ALM_NoGas ALM_NoVacuum
     ALM_OilPressureLow ALM_SteamPressureBad ALM_Emergency ALM_AnyAlarm
     SYS_Enabled SYS_Running SYS_Ready SYS_ManualMode
     SNS_GasPresent SNS_VacuumPresent SNS_OilPressureOK
     SNS_SteamPressureOK
     PHY_Voltage PHY_BoilerTemp PHY_WaterTemp PHY_Temp1 PHY_Temp2
     PHY_OilPressure PHY_SteamPressure
     FF_StartOld FF_StopOld FF_ResetOld FF_GasOld FF_VacuumOld FF_AlarmOld
     CNT_Starts CNT_Stops CNT_Alarms CNT_GasFailures CNT_VacuumFailures
     CNT_RunTime
     TMR_StartDelay TMR_AlarmDelay TMR_ResetDelay TMR_RunTimer].

(** The same, with the boolean connectives and the command inputs
    evaluated too. *)
Ltac normb :=
  cbv beta iota zeta delta
    [negb andb orb
     CMD_SystemStart CMD_SystemStop CMD_ResetAlarms
     bump b2z armed stop_edge fired
     stop_edge_at_statistics alarm_edge_at_statistics
     set_IN
     set_DO set_ST set_ALM set_SYS set_SNS set_PHY set_FF set_CNT set_TMR
     set_SYS_Enabled set_SYS_Running set_SYS_Ready set_SYS_ManualMode
     set_FF_StartOld set_FF_StopOld set_FF_ResetOld set_FF_GasOld
     set_FF_VacuumOld set_FF_AlarmOld
     incr_CNT_Starts incr_CNT_Stops incr_CNT_Alarms incr_CNT_GasFailures
     incr_CNT_VacuumFailures incr_CNT_RunTime
     set_TMR_StartDelay set_TMR_ResetDelay set_TMR_RunTimer
     DO ST ALM SYS SNS PHY FF CNT TMR scan_count
     TON.IN TON.Q TON.ET TON.PT
     ALM_VoltageHigh ALM_TempHigh ALM_NoGas ALM_NoVacuum
     ALM_OilPressureLow ALM_SteamPressureBad ALM_Emergency ALM_AnyAlarm
     SYS_Enabled SYS_Running SYS_Ready SYS_ManualMode
     SNS_GasPresent SNS_VacuumPresent SNS_OilPressureOK
     SNS_SteamPressureOK
     FF_StartOld FF_StopOld FF_ResetOld FF_GasOld FF_VacuumOld FF_AlarmOld
     CNT_Starts CNT_Stops CNT_Alarms CNT_GasFailures CNT_VacuumFailures
     CNT_RunTime
     TMR_StartDelay TMR_AlarmDelay TMR_ResetDelay TMR_RunTimer].

Ltac finish := try reflexivity; repeat (f_equal; try lia).

Lemma emu_block7_start_eq i s : block7_start i s = block7_start_nf i s.
Proof.
  destruct s as [d t a y n p f c m k].
  destruct y as [en rn rd mm], a as [vh th ng nv ol sb em any],
    f as [so po ro go vo ao], m as [[tin tq tet tpt] ? ? ?].
  destruct i.
  destruct CMD_SystemStart0, so, rn, any;
    unfold block7_start, block7_start_nf; normb; reflexivity.
Qed.

Lemma emu_block7_stop_eq i s : block7_stop i s = block7_stop_nf i s.
Proof.
  destruct s as [d t a y n p f c m k].
  destruct y as [en rn rd mm], f as [so po ro go vo ao].
  destruct i.
  destruct CMD_SystemStop0, po; unfold block7_stop, block7_stop_nf; normb; reflexivity.
Qed.

Lemma emu_block7_alarm_eq s : block7_alarm s = block7_alarm_nf s.
Proof.
  destruct s as [d t a y n p f c m k].
  destruct y as [en rn rd mm], a as [vh th ng nv ol sb em any].
  destruct any; unfold block7_alarm, block7_alarm_nf; normb; reflexivity.
Qed.

Lemma emu_block7_delay_eq s : block7_delay s = block7_delay_nf s.
Proof.
  destruct s as [d t a y n p f c m k].
  destruct y as [en rn rd mm], c, m as [[tin tq tet tpt] ? ? ?].
  destruct tq; unfold block7_delay, block7_delay_nf; normb; finish.
Qed.

Lemma emu_block13_counters_eq s : block13_counters s = block13_counters_nf s.
Proof.
  destruct s as [d t a y n p f c m k].
  destruct a as [vh th ng nv ol sb em any], n as [gas vac oil steam],
    f as [so po ro go vo ao], c.
  destruct any, gas, vac, go, vo, ao; unfold block13_counters, block13_counters_nf; normb; finish.
Qed.

Lemma emu_block13_stops_eq i old_alarm s : block13_stops i old_alarm s = block13_stops_nf i old_alarm s.
Proof.
  destruct s as [d t a y n p f c m k].
  destruct a as [vh th ng nv ol sb em any], y as [en rn rd mm],
    f as [so po ro go vo ao], c.
  destruct i.
  destruct CMD_SystemStop0, po, any, old_alarm, rn;
    unfold block13_stops, block13_stops_nf; normb; finish.
Qed.

Lemma emu_block_run_timer_eq s : block_run_timer s = block_run_timer_nf s.
Proof.
  destruct s as [d t a y n p f c m k].
  destruct y as [en rn rd mm], c, m as [? ? ? [tin tq tet tpt]].
  destruct tq; unfold block_run_timer, block_run_timer_nf; normb; finish.
Qed.

Lemma emu_block14_eq i s : block14 i s = block14_nf i s.
Proof.
  destruct s as [d t a y n p f c m k].
  destruct a as [vh th ng nv ol sb em any], f as [so po ro go vo ao],
    m as [? ? [tin tq tet tpt] ?].
  destruct i.
  destruct CMD_ResetAlarms0, ro, tq, vh, th, em;
    unfold block14, block14_nf; normb; reflexivity.
Qed.

Ltac to_nf :=
  unfold scan_cycle, before_statistics, blocks6to12, blocks1to5, block13,
    block7;
  cbv zeta;
  rewrite ?emu_block14_eq, ?emu_block_run_timer_eq, ?emu_block13_stops_eq,
    ?emu_block13_counters_eq, ?emu_block7_delay_eq, ?emu_block7_alarm_eq,
    ?emu_block7_stop_eq, ?emu_block7_start_eq.

Lemma emu_scan_cycle_SYS i s :
  SYS (scan_cycle i s) =
  mkSYS (enabled' i s) (running' i s) (ready' i s) (DI_ManualMode i).
Proof. to_nf. norm. reflexivity. Qed.

Lemma emu_scan_cycle_AnyAlarm i s :
  ALM_AnyAlarm (ALM (scan_cycle i s)) = any_alarm' i s.
Proof. to_nf. norm. reflexivity. Qed.

Lemma emu_scan_cycle_DO i s :
  DO (scan_cycle i s) =
  mkDO (if negb (DI_VacuumSensor i) then false
        else if ready' i s then true else false)
       (CMD_Socket1_On i && negb (any_alarm' i s))
       (CMD_Socket2_On i && negb (any_alarm' i s))
       (ready' i s && (water i >? 20))
       (ready' i s && DI_OilPressureOK i)
       (any_alarm' i s) (ready' i s) (running' i s).
Proof. to_nf. norm. reflexivity. Qed.

(** After a cycle every edge detector holds the value of this cycle. *)
Lemma emu_scan_cycle_FF i s :
  FF (scan_cycle i s) =
  mkFF (CMD_SystemStart i) (CMD_SystemStop i) (CMD_ResetAlarms i)
       (DI_GasSensor i) (DI_VacuumSensor i) (any_alarm' i s).
Proof. to_nf. norm. reflexivity. Qed.

Lemma emu_scan_cycle_StartDelay i s :
  TMR_StartDelay (TMR (scan_cycle i s)) = start_delay' i s.
Proof. to_nf. norm. reflexivity. Qed.

Lemma emu_scan_cycle_Starts i s :
  CNT_Starts (CNT (scan_cycle i s)) = CNT_Starts (CNT s) + b2z (fired s).
Proof. to_nf. norm. cbv [hystZ]. lia. Qed.

(** The stop counter; its stop-edge test compares the command with the
    detector that block 7 has already set to the command. *)
Lemma emu_scan_cycle_Stops i s :
  CNT_Stops (CNT (scan_cycle i s)) =
  CNT_Stops (CNT s)
  + b2z ((CMD_SystemStop i && negb (CMD_SystemStop i)
          || any_alarm' i s && negb (ALM_AnyAlarm (ALM s)))
         && running' i s).
Proof. to_nf. norm. cbv [hystZ]. lia. Qed.

End EmuFacts.

(* ================================================================== *)
(** * Cycle equations of boiler_controller_real.py *)
(* ================================================================== *)
Module RealFacts.
Import Real RealNext.

Ltac break_state s :=
  let o := fresh "o" in let a := fresh "a" in let y := fresh "y" in
  let c := fresh "c" in let t := fresh "t" in let e := fresh "e" in
  destruct s as [? ? o a y c t e ?]; destruct o, a, y, c, t, e.

Ltac norm :=
  cbv beta iota zeta delta
    [bump b2z armed stop_edge halted delay_after launched
     voltage_high' temp_high' any_alarm' armed' halted' enabled'
     startup_delay' launched' running' ready' gas_valve' outputs'
     set_outputs set_alarms set_system_state set_stats set_timers
     set_edge_detectors set_enabled set_running set_ready set_gas_valve
     set_startup_delay set_gas_valve_delay
     incr_alarms incr_gas_failures incr_vacuum_failures
     incr_runtime_seconds count_start write_outputs
     update_system_ready control_sockets control_pumps update_indicators
     running scan_count outputs alarms system_state stats timers
     edge_detectors wire
     Outputs.gas_valve Outputs.socket1 Outputs.socket2 Outputs.water_pump
     Outputs.oil_pump Outputs.alarm_light Outputs.permit_run
     Outputs.fan_vent Outputs.all_off
     Alarms.voltage_high Alarms.temp_high Alarms.no_gas Alarms.no_vacuum
     Alarms.oil_pressure_low Alarms.steam_pressure_bad Alarms.emergency
     Alarms.any_alarm
     SystemState.enabled SystemState.running SystemState.ready
     SystemState.stable
     Stats.starts Stats.stops Stats.alarms Stats.gas_failures
     Stats.vacuum_failures Stats.runtime_seconds Stats.last_start_time
     Timers.startup_delay Timers.gas_valve_delay Timers.emergency_delay
     Timers.watchdog
     EdgeDetectors.start_old EdgeDetectors.stop_old EdgeDetectors.gas_old
     EdgeDetectors.vacuum_old EdgeDetectors.alarm_old].

(** The same, with the boolean connectives and the input projections
    evaluated too. *)
Ltac normb :=
  cbv beta iota zeta delta
    [negb andb orb
     sensors commands time_start_stop time_gas_valve
     Commands.start Commands.stop Commands.socket1 Commands.socket2
     Commands.reset
     bump b2z armed stop_edge halted delay_after launched
     voltage_high' temp_high' any_alarm' armed' halted' enabled'
     startup_delay' launched' running' ready' gas_valve' outputs'
     set_outputs set_alarms set_system_state set_stats set_timers
     set_edge_detectors set_enabled set_running set_ready set_gas_valve
     set_startup_delay set_gas_valve_delay
     incr_alarms incr_gas_failures incr_vacuum_failures
     incr_runtime_seconds count_start write_outputs
     update_system_ready control_sockets control_pumps update_indicators
     running scan_count outputs alarms system_state stats timers
     edge_detectors wire
     Outputs.gas_valve Outputs.socket1 Outputs.socket2 Outputs.water_pump
     Outputs.oil_pump Outputs.alarm_light Outputs.permit_run
     Outputs.fan_vent Outputs.all_off
     Alarms.voltage_high Alarms.temp_high Alarms.no_gas Alarms.no_vacuum
     Alarms.oil_pressure_low Alarms.steam_pressure_bad Alarms.emergency
     Alarms.any_alarm
     SystemState.enabled SystemState.running SystemState.ready
     SystemState.stable
     Stats.starts Stats.stops Stats.alarms Stats.gas_failures
     Stats.vacuum_failures Stats.runtime_seconds Stats.last_start_time
     Timers.startup_delay Timers.gas_valve_delay Timers.emergency_delay
     Timers.watchdog
     EdgeDetectors.start_old EdgeDetectors.stop_old EdgeDetectors.gas_old
     EdgeDetectors.vacuum_old EdgeDetectors.alarm_old].


Ltac same_state := norm; cbv [negb andb orb]; repeat (f_equal; try lia).

Lemma real_check_alarms_eq i s :
  check_alarms i s =
  bump (b2z (any_alarm' i s && negb (Alarms.any_alarm (alarms s)))) 0 0 0
    (set_alarms
       (Alarms.mk (voltage_high' i s) (temp_high' i s)
          (negb (Sensors.gas_present (sensors i)))
          (negb (Sensors.vacuum_present (sensors i)))
          (negb (Sensors.oil_pressure_ok (sensors i)))
          (negb (Sensors.steam_pressure_ok (sensors i)))
          (Sensors.emergency_stop (sensors i))
          (any_alarm' i s)) s).
Proof.
  unfold check_alarms. cbv zeta.
  change (if Qgeb (Sensors.voltage (sensors i)) VOLTAGE_TRIP then true
          else if Qltb (Sensors.voltage (sensors i)) VOLTAGE_RESET then false
               else Alarms.voltage_high (alarms s))
    with (voltage_high' i s).
  change (if Qgeb (Sensors.boiler_temp (sensors i)) TEMP_TRIP then true
          else if Qltb (Sensors.boiler_temp (sensors i)) TEMP_RESET
               then false
               else Alarms.temp_high (alarms s))
    with (temp_high' i s).
  change (voltage_high' i s || temp_high' i s
          || negb (Sensors.gas_present (sensors i))
          || negb (Sensors.vacuum_present (sensors i))
          || negb (Sensors.oil_pressure_ok (sensors i))
          || negb (Sensors.steam_pressure_ok (sensors i))
          || Sensors.emergency_stop (sensors i))
    with (any_alarm' i s).
  generalize (any_alarm' i s) (voltage_high' i s) (temp_high' i s).
  intros any vh th. break_state s. cbn.
  destruct any, any_alarm; same_state.
Qed.

Lemma real_handle_start_stop_logic_eq i s :
  handle_start_stop_logic i s =
  let c := stats s in
  let y := system_state s in
  let e := edge_detectors s in
  set_stats
    (Stats.mk (Stats.starts c + b2z (launched i s)) (Stats.stops c)
       (Stats.alarms c) (Stats.gas_failures c) (Stats.vacuum_failures c)
       (Stats.runtime_seconds c)
       (if launched i s then Some (time_start_stop i)
        else Stats.last_start_time c))
    (set_system_state
       (SystemState.mk
          ((SystemState.enabled y || armed i s) && negb (halted i s))
          (SystemState.running y && negb (halted i s) || launched i s)
          (SystemState.ready y) (SystemState.stable y))
       (set_edge_detectors
          (EdgeDetectors.mk (Commands.start (commands i))
             (Commands.stop (commands i)) (EdgeDetectors.gas_old e)
             (EdgeDetectors.vacuum_old e) (EdgeDetectors.alarm_old e))
          (set_startup_delay (delay_after i s) s))).
Proof.
  destruct s as [run n o a y c t e w].
  destruct y as [en rn rd stb], a as [vh th ng nv ol sb em any],
    e as [so po go vo ao], c, t.
  destruct i as [sn [cstart cstop c1 c2 crst] t1 t2].
  destruct cstart, cstop, so, po, rn, any, en;
    unfold handle_start_stop_logic; normb;
    repeat match goal with
           | |- context [Qgeb ?a ?b] => destruct (Qgeb a b)
           end;
    try reflexivity; repeat (f_equal; try lia).
Qed.

Lemma real_control_gas_valve_eq i s :
  control_gas_valve i s =
  set_gas_valve
    (if negb (Sensors.vacuum_present (sensors i)) then false
     else if SystemState.ready (system_state s) then
            if Qgeb (time_gas_valve i) (Timers.gas_valve_delay (timers s))
            then true else Outputs.gas_valve (outputs s)
          else false)
    (set_gas_valve_delay
       (if SystemState.ready (system_state s)
        then Timers.gas_valve_delay (timers s)
        else (time_gas_valve i + 2)%Q) s).
Proof.
  destruct s as [run n o a y c t e w].
  destruct y as [en rn rd stb], o, t.
  destruct i as [[? ? ? ? ? ? ? ? vac ? ? ? ?] cm t1 t2].
  destruct rd, vac; unfold control_gas_valve; normb;
    cbv [Sensors.vacuum_present];
    repeat match goal with
           | |- context [Qgeb ?a ?b] => destruct (Qgeb a b)
           end; reflexivity.
Qed.

Lemma real_update_statistics_eq i s :
  update_statistics i s =
  let e := edge_detectors s in
  bump 0
    (b2z (negb (Sensors.gas_present (sensors i)) && EdgeDetectors.gas_old e))
    (b2z (negb (Sensors.vacuum_present (sensors i))
          && EdgeDetectors.vacuum_old e))
    (b2z (SystemState.running (system_state s)))
    (set_edge_detectors
       (EdgeDetectors.mk (EdgeDetectors.start_old e)
          (EdgeDetectors.stop_old e) (Sensors.gas_present (sensors i))
          (Sensors.vacuum_present (sensors i))
          (Alarms.any_alarm (alarms s))) s).
Proof.
  destruct s as [run n o a y c t e w].
  destruct y as [en rn rd stb], e as [so po go vo ao], c.
  destruct i as [[? ? ? ? ? ? ? gas vac ? ? ? ?] cm t1 t2].
  destruct gas, vac, go, vo, rn; unfold update_statistics; normb;
    cbv [Sensors.gas_present Sensors.vacuum_present];
    repeat (f_equal; try lia).
Qed.

Ltac to_nf :=
  unfold scan_body, upto_ready; cbv zeta;
  rewrite ?real_update_statistics_eq, ?real_control_gas_valve_eq,
    ?real_handle_start_stop_logic_eq, ?real_check_alarms_eq.

Lemma real_scan_body_alarms i s :
  alarms (scan_body i s) =
  Alarms.mk (voltage_high' i s) (temp_high' i s)
    (negb (Sensors.gas_present (sensors i)))
    (negb (Sensors.vacuum_present (sensors i)))
    (negb (Sensors.oil_pressure_ok (sensors i)))
    (negb (Sensors.steam_pressure_ok (sensors i)))
    (Sensors.emergency_stop (sensors i))
    (any_alarm' i s).
Proof. to_nf. norm. reflexivity. Qed.

Lemma real_scan_body_system_state i s :
  system_state (scan_body i s) =
  SystemState.mk (enabled' i s) (running' i s) (ready' i s)
    (SystemState.stable (system_state s)).
Proof. to_nf. norm. reflexivity. Qed.

(** The state just after the readiness step already has the final alarm
    flags and system state. *)
Lemma real_upto_ready_final i s :
  alarms (upto_ready i s) = alarms (scan_body i s)
  /\ system_state (upto_ready i s) = system_state (scan_body i s).
Proof. split; to_nf; norm; reflexivity. Qed.

Lemma real_scan_body_outputs i s : outputs (scan_body i s) = outputs' i s.
Proof. to_nf. norm. reflexivity. Qed.

(** One vector is written per cycle, the one the cycle has computed. *)
Lemma real_scan_body_wire i s : wire (scan_body i s) = outputs' i s :: wire s.
Proof. to_nf. norm. reflexivity. Qed.

Lemma real_scan_body_stats i s :
  stats (scan_body i s) =
  let c := stats s in
  let e := edge_detectors s in
  Stats.mk (Stats.starts c + b2z (launched' i s))
    (Stats.stops c)
    (Stats.alarms c
     + b2z (any_alarm' i s && negb (Alarms.any_alarm (alarms s))))
    (Stats.gas_failures c
     + b2z (negb (Sensors.gas_present (sensors i))
            && EdgeDetectors.gas_old e))
    (Stats.vacuum_failures c
     + b2z (negb (Sensors.vacuum_present (sensors i))
            && EdgeDetectors.vacuum_old e))
    (Stats.runtime_seconds c + b2z (running' i s))
    (if launched' i s then Some (time_start_stop i)
     else Stats.last_start_time c).
Proof. to_nf. norm. f_equal; lia. Qed.

(** After a cycle every edge detector holds the value of this cycle. *)
Lemma real_scan_body_edge_detectors i s :
  edge_detectors (scan_body i s) =
  EdgeDetectors.mk (Commands.start (commands i)) (Commands.stop (commands i))
    (Sensors.gas_present (sensors i)) (Sensors.vacuum_present (sensors i))
    (any_alarm' i s).
Proof. to_nf. norm. reflexivity. Qed.

Lemma real_scan_body_running i s : running (scan_body i s) = running s.
Proof. to_nf. norm. reflexivity. Qed.

End RealFacts.

(* ================================================================== *)
(** * Cycle equations of simple_boiler_test.py *)
(* ================================================================== *)
Module SimpleFacts.
Import Simple SimpleNext.

Ltac break_state s :=
  let o := fresh "o" in let a := fresh "a" in let c := fresh "c" in
  let e := fresh "e" in
  destruct s as [o a ? ? c e ?]; destruct o, a, c, e.

Ltac norm :=
  cbv beta iota zeta delta
    [bump b2z started stopped
     voltage_high' temp_high' any_alarm' started' stopped' running' ready'
     set_out set_alm set_system_running set_system_ready set_stats set_ff
     incr_starts incr_stops incr_alarms incr_gas_failures
     incr_vacuum_failures
     update_ready control_outputs
     out alm system_running system_ready stats ff running
     gas_valve socket1 socket2 water_pump oil_pump alarm_light
     alm_voltage_high alm_temp_high alm_no_gas alm_no_vacuum
     alm_oil_pressure_low alm_steam_pressure_bad alm_any_alarm
     starts stops alarms gas_failures vacuum_failures
     start_old gas_old vacuum_old alarm_old].

Ltac same_state := norm; cbv [negb andb orb]; repeat (f_equal; try lia).

Lemma simple_check_alarms_eq i s :
  check_alarms i s =
  bump 0 0 (b2z (any_alarm' i s && negb (alm_any_alarm (alm s)))) 0 0
    (set_alm
       (mkAlarms (voltage_high' i s) (temp_high' i s)
          (negb (gas_present i)) (negb (vacuum_present i))
          (negb (oil_pressure_ok i)) (negb (steam_pressure_ok i))
          (any_alarm' i s)) s).
Proof.
  unfold check_alarms. cbv zeta.
  change (if Qgeb (voltage i) VOLTAGE_TRIP then true
          else if Qltb (voltage i) VOLTAGE_RESET then false
               else alm_voltage_high (alm s))
    with (voltage_high' i s).
  change (if Qgeb (boiler_temp i) TEMP_TRIP then true
          else if Qltb (boiler_temp i) TEMP_RESET then false
               else alm_temp_high (alm s))
    with (temp_high' i s).
  change (voltage_high' i s || temp_high' i s || negb (gas_present i)
          || negb (vacuum_present i) || negb (oil_pressure_ok i)
          || negb (steam_pressure_ok i) || emergency_stop i)
    with (any_alarm' i s).
  generalize (any_alarm' i s) (voltage_high' i s) (temp_high' i s).
  intros any vh th. break_state s. cbn.
  destruct any, alm_any_alarm0; same_state.
Qed.

Lemma simple_handle_start_stop_eq i s :
  handle_start_stop i s =
  set_ff (mkEdges (cmd_start i) (gas_old (ff s)) (vacuum_old (ff s))
            (alarm_old (ff s)))
    (bump (b2z (started i s)) (b2z (stopped i s)) 0 0 0
       (set_system_running
          ((system_running s || started i s) && negb (stopped i s)) s)).
Proof.
  unfold handle_start_stop, stopped, started. break_state s. cbn.
  destruct (cmd_start i), (cmd_stop i), start_old0, system_running0,
    alm_any_alarm0; same_state.
Qed.

Lemma simple_update_statistics_eq i s :
  update_statistics i s =
  set_ff (mkEdges (start_old (ff s)) (gas_present i) (vacuum_present i)
            (alm_any_alarm (alm s)))
    (bump 0 0 0 (b2z (negb (gas_present i) && gas_old (ff s)))
                (b2z (negb (vacuum_present i) && vacuum_old (ff s))) s).
Proof.
  unfold update_statistics. break_state s. cbn.
  destruct (gas_present i), (vacuum_present i), gas_old0, vacuum_old0;
    same_state.
Qed.

Ltac to_nf :=
  unfold scan_cycle, upto_ready; cbv zeta;
  rewrite ?simple_update_statistics_eq, ?simple_handle_start_stop_eq, ?simple_check_alarms_eq.

Lemma simple_scan_cycle_alm i s :
  alm (scan_cycle i s) =
  mkAlarms (voltage_high' i s) (temp_high' i s)
           (negb (gas_present i)) (negb (vacuum_present i))
           (negb (oil_pressure_ok i)) (negb (steam_pressure_ok i))
           (any_alarm' i s).
Proof. to_nf. norm. reflexivity. Qed.

Lemma simple_scan_cycle_system_running i s :
  system_running (scan_cycle i s) = running' i s.
Proof. to_nf. norm. reflexivity. Qed.

Lemma simple_scan_cycle_system_ready i s :
  system_ready (scan_cycle i s) = ready' i s.
Proof. to_nf. norm. reflexivity. Qed.

(** The state just after the readiness step already has the final alarm
    flags, run flag and ready flag. *)
Lemma simple_upto_ready_final i s :
  alm (upto_ready i s) = alm (scan_cycle i s)
  /\ system_running (upto_ready i s) = system_running (scan_cycle i s)
  /\ system_ready (upto_ready i s) = system_ready (scan_cycle i s).
Proof. repeat split; to_nf; norm; reflexivity. Qed.

Lemma simple_scan_cycle_out i s :
  out (scan_cycle i s) =
  mkOutputs
    (if negb (vacuum_present i) then false
     else if ready' i s then true else false)
    (cmd_socket1 i && negb (any_alarm' i s))
    (cmd_socket2 i && negb (any_alarm' i s))
    (ready' i s && Qgtb (water_temp i) 20)
    (ready' i s && oil_pressure_ok i)
    (any_alarm' i s).
Proof. to_nf. norm. reflexivity. Qed.

Lemma simple_scan_cycle_stats i s :
  stats (scan_cycle i s) =
  mkStats (starts (stats s) + b2z (started' i s))
          (stops (stats s) + b2z (stopped' i s))
          (alarms (stats s)
           + b2z (any_alarm' i s && negb (alm_any_alarm (alm s))))
          (gas_failures (stats s)
           + b2z (negb (gas_present i) && gas_old (ff s)))
          (vacuum_failures (stats s)
           + b2z (negb (vacuum_present i) && vacuum_old (ff s))).
Proof. to_nf. norm. f_equal; lia. Qed.

(** After a cycle every edge detector holds the value of this cycle. *)
Lemma simple_scan_cycle_ff i s :
  ff (scan_cycle i s) =
  mkEdges (cmd_start i) (gas_present i) (vacuum_present i)
          (any_alarm' i s).
Proof. to_nf. norm. reflexivity. Qed.

Lemma simple_scan_cycle_running i s : running (scan_cycle i s) = running s.
Proof. to_nf. norm. reflexivity. Qed.

End SimpleFacts.

(* ================================================================== *)
(** * Threshold tests *)
(* ================================================================== *)

Lemma hystZ_trip trip reset v old : trip <= v -> hystZ trip reset v old = true.
Proof.
  intros H. unfold hystZ. destruct (v >=? trip) eqn:E; [reflexivity|].
  rewrite Z.geb_leb in E. apply Z.leb_gt in E. lia.
Qed.

Lemma hystZ_reset trip reset v old :
  reset <= trip -> v < reset -> hystZ trip reset v old = false.
Proof.
  intros Hrt H. unfold hystZ.
  destruct (v >=? trip) eqn:E.
  - rewrite Z.geb_leb in E. apply Z.leb_le in E. lia.
  - destruct (v <? reset) eqn:E'; [reflexivity|].
    apply Z.ltb_ge in E'. lia.
Qed.

Lemma hystZ_hold trip reset v old :
  reset <= v < trip -> hystZ trip reset v old = old.
Proof.
  intros [H1 H2]. unfold hystZ.
  destruct (v >=? trip) eqn:E.
  - rewrite Z.geb_leb in E. apply Z.leb_le in E. lia.
  - destruct (v <? reset) eqn:E'; [|reflexivity].
    apply Z.ltb_lt in E'. lia.
Qed.

Lemma Qgeb_true x y : (y <= x)%Q -> Qgeb x y = true.
Proof. intros H. unfold Qgeb. now apply Qle_bool_iff. Qed.

Lemma Qgeb_false x y : (x < y)%Q -> Qgeb x y = false.
Proof.
  intros H. unfold Qgeb. destruct (Qle_bool y x) eqn:E; [|reflexivity].
  apply Qle_bool_iff in E. exfalso. exact (Qlt_not_le _ _ H E).
Qed.

Lemma Qltb_true x y : (x < y)%Q -> Qltb x y = true.
Proof. intros H. unfold Qltb. fold (Qgeb x y). now rewrite Qgeb_false. Qed.

Lemma Qltb_false x y : (y <= x)%Q -> Qltb x y = false.
Proof. intros H. unfold Qltb. fold (Qgeb x y). now rewrite Qgeb_true. Qed.

Lemma hystQ_trip trip reset v old :
  (trip <= v)%Q -> hystQ trip reset v old = true.
Proof. intros H. unfold hystQ. now rewrite Qgeb_true. Qed.

Lemma hystQ_reset trip reset v old :
  (reset <= trip)%Q -> (v < reset)%Q -> hystQ trip reset v old = false.
Proof.
  intros Hrt H. unfold hystQ.
  rewrite Qgeb_false by (eapply Qlt_le_trans; eassumption).
  now rewrite Qltb_true.
Qed.

Lemma hystQ_hold trip reset v old :
  (reset <= v)%Q -> (v < trip)%Q -> hystQ trip reset v old = old.
Proof.
  intros H1 H2. unfold hystQ.
  rewrite Qgeb_false by assumption. now rewrite Qltb_false.
Qed.

(* ================================================================== *)
(** * Vacuum interlock of the gas valve *)
(* ================================================================== *)

(** C1.  In the three controllers, a cycle whose vacuum sensor reads false
    ends with the gas valve closed, from every state and for every other
    input; the valve function itself closes the valve on a missing vacuum
    whatever the ready flag it finds, the vacuum test being its last
    write.  In the Modbus controller the vector written to the device in
    that cycle has the valve closed too. *)
Theorem C1_vacuum_loss_closes_gas_valve :
  (forall i s, Controller.X_VAKUUM i = false ->
     Controller.Y_KLAPAN_GAZ (Controller.Y (Controller.scan_cycle i s))
     = false)
  /\ (forall s, Controller.M_VAKUUM_IE (Controller.M s) = false ->
        Controller.Y_KLAPAN_GAZ
          (Controller.Y (Controller._control_gas_valve s)) = false)
  /\ (forall i s, Simple.vacuum_present i = false ->
        Simple.gas_valve (Simple.out (Simple.scan_cycle i s)) = false
        /\ Simple.gas_valve (Simple.out (Simple.control_outputs i s))
           = false)
  /\ (forall i s, Real.Sensors.vacuum_present (Real.sensors i) = false ->
        Real.Outputs.gas_valve (Real.outputs (Real.scan_body i s)) = false
        /\ Real.Outputs.gas_valve
             (Real.outputs (Real.control_gas_valve i s)) = false
        /\ exists rest,
             Real.wire (Real.scan_body i s)
             = Real.outputs (Real.scan_body i s) :: rest).
Proof.
  split; [|split; [|split]].
  - intros i s H. rewrite ControllerFacts.ctl_scan_cycle_Y. cbn. now rewrite H.
  - intros s H. unfold Controller._control_gas_valve. cbn. now rewrite H.
  - intros i s H. split.
    + rewrite SimpleFacts.simple_scan_cycle_out. cbn. now rewrite H.
    + unfold Simple.control_outputs. cbn. now rewrite H.
  - intros i s H. split; [|split].
    + rewrite RealFacts.real_scan_body_outputs. unfold RealNext.outputs'. cbn.
      unfold RealNext.gas_valve'. now rewrite H.
    + rewrite RealFacts.real_control_gas_valve_eq. cbn. now rewrite H.
    + exists (Real.wire s).
      now rewrite RealFacts.real_scan_body_wire, RealFacts.real_scan_body_outputs.
Qed.

(** The valve is open and the system ready before the vacuum is lost, and
    closed at the end of the cycle that reads the loss. *)
Lemma C1_witness :
  Controller.M_SYSTEM_READY (Controller.M Scenario.ctl_running) = true
  /\ Controller.Y_KLAPAN_GAZ (Controller.Y Scenario.ctl_running) = true
  /\ Controller.Y_KLAPAN_GAZ
       (Controller.Y
          (Controller.scan_cycle Scenario.ctl_vacuum_lost
             Scenario.ctl_running)) = false.
Proof.
  split; [reflexivity|]. split; [reflexivity|].
  apply (proj1 C1_vacuum_loss_closes_gas_valve). reflexivity.
Defined.

(* ================================================================== *)
(** * Hysteresis of the voltage alarm *)
(* ================================================================== *)

Lemma hystZ_quiet trip reset v : v < trip -> hystZ trip reset v false = false.
Proof.
  intros H. unfold hystZ. destruct (v >=? trip) eqn:E.
  - rewrite Z.geb_leb in E. apply Z.leb_le in E. lia.
  - now destruct (v <? reset).
Qed.

Lemma hystZ_loud trip reset v : reset <= v -> hystZ trip reset v true = true.
Proof.
  intros H. unfold hystZ. destruct (v >=? trip); [reflexivity|].
  destruct (v <? reset) eqn:E; [|reflexivity].
  apply Z.ltb_lt in E. lia.
Qed.

Lemma hystQ_quiet trip reset v :
  (v < trip)%Q -> hystQ trip reset v false = false.
Proof.
  intros H. unfold hystQ. rewrite Qgeb_false by exact H.
  now destruct (Qltb v reset).
Qed.

Lemma hystQ_loud trip reset v :
  (reset <= v)%Q -> hystQ trip reset v true = true.
Proof.
  intros H. unfold hystQ. destruct (Qgeb v trip); [reflexivity|].
  now rewrite Qltb_false.
Qed.

(** Controller.py: the voltage alarm flag is false at initialisation, and
    after any sequence of cycles the next cycle leaves it true when the
    cycle's voltage is at least 400, false when it is below 380, and as
    it was before the cycle when the voltage is in the dead band. *)
Lemma Controller_voltage_hysteresis :
  Controller.M_AVARIA_NAPRUGA (Controller.M Controller.init) = false
  /\ forall l i,
       let s := run Controller.scan_cycle Controller.init l in
       let s' := Controller.scan_cycle i s in
       let v := Controller.NAPRUGA_VOLT (Controller.PHY s') in
       (400 <= v -> Controller.M_AVARIA_NAPRUGA (Controller.M s') = true)
       /\ (v < 380 ->
           Controller.M_AVARIA_NAPRUGA (Controller.M s') = false)
       /\ (380 <= v < 400 ->
           Controller.M_AVARIA_NAPRUGA (Controller.M s')
           = Controller.M_AVARIA_NAPRUGA (Controller.M s)).
Proof.
  split; [reflexivity|]. intros l i s s' v.
  subst v s'. rewrite ControllerFacts.ctl_scan_cycle_PHY,
    ControllerFacts.ctl_scan_cycle_M. cbn.
  unfold ControllerNext.voltage_alarm'.
  repeat split; intros H.
  - now apply hystZ_trip.
  - apply hystZ_reset; [unfold Controller.NAPRUGA_HYST_VOLT,
      Controller.NAPRUGA_AVAR_VOLT; lia | exact H].
  - now apply hystZ_hold.
Qed.

(** simple_boiler_test.py: the same. *)
Lemma Simple_voltage_hysteresis :
  Simple.alm_voltage_high (Simple.alm Simple.init) = false
  /\ forall l i,
       let s := run Simple.scan_cycle Simple.init l in
       let s' := Simple.scan_cycle i s in
       let v := Simple.voltage i in
       ((400 <= v)%Q -> Simple.alm_voltage_high (Simple.alm s') = true)
       /\ ((v < 380)%Q ->
           Simple.alm_voltage_high (Simple.alm s') = false)
       /\ ((380 <= v)%Q -> (v < 400)%Q ->
           Simple.alm_voltage_high (Simple.alm s')
           = Simple.alm_voltage_high (Simple.alm s)).
Proof.
  split; [reflexivity|]. intros l i s s' v.
  subst s'. rewrite SimpleFacts.simple_scan_cycle_alm.
  cbn. unfold SimpleNext.voltage_high'. fold v.
  repeat split.
  - intros H. now apply hystQ_trip.
  - intros H. apply hystQ_reset; [|exact H].
    unfold Simple.VOLTAGE_RESET, Simple.VOLTAGE_TRIP. discriminate.
  - intros H1 H2. now apply hystQ_hold.
Qed.

(** The window of [apply_filters] is never empty after the reading has
    been appended. *)
Lemma push_nonempty {A : Type} (w : list A) x :
  (0 <? length (RealFilter.push A w x))%nat = true.
Proof.
  unfold RealFilter.push. cbv zeta.
  destruct (Nat.ltb_spec 5 (length (w ++ [x]))) as [H|H].
  - apply Nat.ltb_lt. destruct (w ++ [x]); cbn in *; lia.
  - apply Nat.ltb_lt. rewrite length_app. cbn. lia.
Qed.

(** boiler_controller_real.py with its filter: the windows after a
    cycle, and the two flags, which [check_alarms] computes from the means
    of the windows. *)
Lemma pipeline_filters mean raw s :
  RealPipeline.filters (RealPipeline.scan_body mean raw s)
  = RealFilter.mkFilters Q
      (RealFilter.push Q (RealFilter.voltage Q (RealPipeline.filters s))
         (Real.Sensors.voltage (Real.sensors raw)))
      (RealFilter.push Q (RealFilter.temperature Q (RealPipeline.filters s))
         (Real.Sensors.boiler_temp (Real.sensors raw))).
Proof. reflexivity. Qed.

Lemma pipeline_voltage_high mean raw s :
  RealPipeline.voltage_high (RealPipeline.scan_body mean raw s)
  = hystQ Real.VOLTAGE_TRIP Real.VOLTAGE_RESET
      (RealPipeline.voltage_seen mean (RealPipeline.scan_body mean raw s))
      (RealPipeline.voltage_high s).
Proof.
  unfold RealPipeline.voltage_seen. rewrite pipeline_filters.
  unfold RealPipeline.voltage_high, RealPipeline.scan_body. cbv zeta.
  cbn [RealPipeline.ctl RealFilter.voltage].
  rewrite RealFacts.real_scan_body_alarms.
  cbn [Real.Alarms.voltage_high]. unfold RealNext.voltage_high'.
  unfold RealPipeline.filtered, RealFilter.apply_filters. cbv zeta.
  cbn [Real.sensors fst snd RealPipeline.write_back Real.Sensors.voltage].
  unfold RealFilter.smoothed. now rewrite push_nonempty.
Qed.

Lemma pipeline_temp_high mean raw s :
  RealPipeline.temp_high (RealPipeline.scan_body mean raw s)
  = hystQ Real.TEMP_TRIP Real.TEMP_RESET
      (RealPipeline.temp_seen mean (RealPipeline.scan_body mean raw s))
      (RealPipeline.temp_high s).
Proof.
  unfold RealPipeline.temp_seen. rewrite pipeline_filters.
  unfold RealPipeline.temp_high, RealPipeline.scan_body. cbv zeta.
  cbn [RealPipeline.ctl RealFilter.temperature].
  rewrite RealFacts.real_scan_body_alarms.
  cbn [Real.Alarms.temp_high]. unfold RealNext.temp_high'.
  unfold RealPipeline.filtered, RealFilter.apply_filters. cbv zeta.
  cbn [Real.sensors fst snd RealPipeline.write_back
       Real.Sensors.boiler_temp].
  unfold RealFilter.smoothed. now rewrite push_nonempty.
Qed.



(* ================================================================== *)
(** * An alarm stops the system *)
(* ================================================================== *)

(** Controller.py: a cycle that ends with the general alarm set ends with
    the system off. *)
Lemma Controller_alarm_stops i s :
  ControllerNext.alarm' i s = true -> ControllerNext.on' i s = false.
Proof.
  unfold ControllerNext.on', ControllerNext.stopped',
    ControllerNext.started'.
  intros ->.
  destruct (Controller.CMD_START i), (Controller.CMD_STOP i),
    (Controller.M_SYSTEM_ON (Controller.M s)); reflexivity.
Qed.

(** simple_boiler_test.py: the same. *)
Lemma Simple_alarm_stops i s :
  SimpleNext.any_alarm' i s = true -> SimpleNext.running' i s = false.
Proof.
  unfold SimpleNext.running', SimpleNext.stopped', SimpleNext.started'.
  intros ->.
  destruct (Simple.cmd_start i), (Simple.cmd_stop i),
    (Simple.start_old (Simple.ff s)), (Simple.system_running s);
    reflexivity.
Qed.

(** boiler_controller_real.py: the same; the delayed start tests
    [enabled], which the alarm has just cleared. *)
Lemma Real_alarm_stops i s :
  RealNext.any_alarm' i s = true ->
  RealNext.running' i s = false /\ RealNext.enabled' i s = false.
Proof.
  unfold RealNext.running', RealNext.launched', RealNext.enabled',
    RealNext.halted'.
  intros ->. rewrite orb_true_r. cbn. rewrite !andb_false_r. now cbn.
Qed.

(** Without an alarm every sensor condition of the alarm holds. *)
Lemma Simple_no_alarm i s :
  SimpleNext.any_alarm' i s = false ->
  SimpleNext.voltage_high' i s = false /\ SimpleNext.temp_high' i s = false
  /\ Simple.gas_present i = true /\ Simple.vacuum_present i = true
  /\ Simple.oil_pressure_ok i = true /\ Simple.steam_pressure_ok i = true
  /\ Simple.emergency_stop i = false.
Proof.
  unfold SimpleNext.any_alarm'. intros H.
  do 6 (apply orb_false_iff in H; destruct H as [H ?]).
  repeat match goal with
         | X : negb _ = false |- _ => apply negb_false_iff in X
         end.
  repeat split; assumption.
Qed.

Lemma Real_no_alarm i s :
  RealNext.any_alarm' i s = false ->
  RealNext.voltage_high' i s = false /\ RealNext.temp_high' i s = false
  /\ Real.Sensors.gas_present (Real.sensors i) = true
  /\ Real.Sensors.vacuum_present (Real.sensors i) = true
  /\ Real.Sensors.oil_pressure_ok (Real.sensors i) = true
  /\ Real.Sensors.steam_pressure_ok (Real.sensors i) = true
  /\ Real.Sensors.emergency_stop (Real.sensors i) = false.
Proof.
  unfold RealNext.any_alarm'. intros H.
  do 6 (apply orb_false_iff in H; destruct H as [H ?]).
  repeat match goal with
         | X : negb _ = false |- _ => apply negb_false_iff in X
         end.
  repeat split; assumption.
Qed.

(* ================================================================== *)
(** * Readiness *)
(* ================================================================== *)

(** The ready flag of the two controllers that also test the steam
    pressure: an alarm has already stopped the system, and without an
    alarm the steam pressure is good. *)
Lemma Simple_ready_seven i s :
  SimpleNext.ready' i s =
  SimpleNext.running' i s
  && negb (SimpleNext.voltage_high' i s)
  && negb (SimpleNext.temp_high' i s)
  && Simple.gas_present i && Simple.vacuum_present i
  && Simple.oil_pressure_ok i && negb (Simple.emergency_stop i).
Proof.
  unfold SimpleNext.ready'.
  destruct (SimpleNext.any_alarm' i s) eqn:A.
  - rewrite (Simple_alarm_stops _ _ A). now rewrite andb_false_r.
  - destruct (Simple_no_alarm _ _ A) as (-> & -> & -> & -> & -> & -> & ->).
    cbn. now rewrite !andb_true_r.
Qed.

Lemma Real_ready_seven i s :
  RealNext.ready' i s =
  RealNext.running' i s
  && negb (RealNext.voltage_high' i s)
  && negb (RealNext.temp_high' i s)
  && Real.Sensors.gas_present (Real.sensors i)
  && Real.Sensors.vacuum_present (Real.sensors i)
  && Real.Sensors.oil_pressure_ok (Real.sensors i)
  && negb (Real.Sensors.emergency_stop (Real.sensors i)).
Proof.
  unfold RealNext.ready'.
  destruct (RealNext.any_alarm' i s) eqn:A.
  - rewrite (proj1 (Real_alarm_stops _ _ A)). now rewrite andb_false_r.
  - destruct (Real_no_alarm _ _ A) as (-> & -> & -> & -> & -> & -> & ->).
    cbn. now rewrite !andb_true_r.
Qed.

(** C7.  In the three controllers, in every cycle, the ready flag just
    after the readiness step, and still at the end of the cycle, is the
    conjunction of the running flag, no voltage alarm, no temperature
    alarm, gas present, vacuum present, oil pressure good and no emergency
    stop, all seven as that cycle has them; nothing of the ready flag of
    the previous cycle enters. *)
Theorem C7_ready_is_conjunction_of_seven :
  (forall i s s',
     s' = Controller.upto_ready i s \/ s' = Controller.scan_cycle i s ->
     Controller.M_SYSTEM_READY (Controller.M s') =
     Controller.M_SYSTEM_ON (Controller.M s')
     && negb (Controller.M_AVARIA_NAPRUGA (Controller.M s'))
     && negb (Controller.M_AVARIA_TEMP (Controller.M s'))
     && Controller.X_GAZ i && Controller.X_VAKUUM i
     && Controller.X_TISK_MASLA_DI i && negb (Controller.X_AVARIA_EXT i))
  /\ (forall i s s',
        s' = Simple.upto_ready i s \/ s' = Simple.scan_cycle i s ->
        Simple.system_ready s' =
        Simple.system_running s'
        && negb (Simple.alm_voltage_high (Simple.alm s'))
        && negb (Simple.alm_temp_high (Simple.alm s'))
        && Simple.gas_present i && Simple.vacuum_present i
        && Simple.oil_pressure_ok i && negb (Simple.emergency_stop i))
  /\ (forall i s s',
        s' = Real.upto_ready i s \/ s' = Real.scan_body i s ->
        Real.SystemState.ready (Real.system_state s') =
        Real.SystemState.running (Real.system_state s')
        && negb (Real.Alarms.voltage_high (Real.alarms s'))
        && negb (Real.Alarms.temp_high (Real.alarms s'))
        && Real.Sensors.gas_present (Real.sensors i)
        && Real.Sensors.vacuum_present (Real.sensors i)
        && Real.Sensors.oil_pressure_ok (Real.sensors i)
        && negb (Real.Sensors.emergency_stop (Real.sensors i))).
Proof.
  split; [|split]; intros i s s' Hs'.
  - assert (E : Controller.M s' = Controller.M (Controller.scan_cycle i s)).
    { destruct Hs' as [-> | ->];
        [apply ControllerFacts.ctl_upto_ready_M | reflexivity]. }
    rewrite E, ControllerFacts.ctl_scan_cycle_M. cbn.
    unfold ControllerNext.ready'.
    destruct (ControllerNext.on' i s),
      (ControllerNext.voltage_alarm' i s), (ControllerNext.temp_alarm' i s),
      (Controller.X_GAZ i), (Controller.X_VAKUUM i),
      (Controller.X_TISK_MASLA_DI i), (Controller.X_AVARIA_EXT i);
      reflexivity.
  - assert (E : Simple.alm s' = Simple.alm (Simple.scan_cycle i s)
                /\ Simple.system_running s'
                   = Simple.system_running (Simple.scan_cycle i s)
                /\ Simple.system_ready s'
                   = Simple.system_ready (Simple.scan_cycle i s)).
    { destruct Hs' as [-> | ->];
        [apply SimpleFacts.simple_upto_ready_final | repeat split]. }
    destruct E as (-> & -> & ->).
    rewrite SimpleFacts.simple_scan_cycle_alm, SimpleFacts.simple_scan_cycle_system_ready,
      SimpleFacts.simple_scan_cycle_system_running. cbn.
    apply Simple_ready_seven.
  - assert (E : Real.alarms s' = Real.alarms (Real.scan_body i s)
                /\ Real.system_state s'
                   = Real.system_state (Real.scan_body i s)).
    { destruct Hs' as [-> | ->];
        [apply RealFacts.real_upto_ready_final | split; reflexivity]. }
    destruct E as (-> & ->).
    rewrite RealFacts.real_scan_body_alarms, RealFacts.real_scan_body_system_state.
    cbn. apply Real_ready_seven.
Qed.

(** A cycle with the steam pressure bad and the start command held, from
    the running system: the ready flag and the conjunction of the seven
    are both false. *)
Lemma C7_witness :
  Simple.system_ready
    (Simple.scan_cycle
       (Simple.mkInputs 350 60 40 true true true false false
                        true false false false)
       Scenario.simple_running)
  = false.
Proof.
  rewrite (proj1 (proj2 C7_ready_is_conjunction_of_seven) _
             Scenario.simple_running _ (or_intror eq_refl)).
  reflexivity.
Defined.

(* ================================================================== *)
(** * Sockets *)
(* ================================================================== *)

(** C8.  In the Modbus controller, in Controller.py and in the emulator,
    after every cycle each socket output is the conjunction of its command
    of that cycle and the negation of the general alarm of that cycle;
    no earlier value of the output enters.  So both sockets are off in
    every cycle whose general alarm is set. *)
Theorem C8_sockets_follow_command_unless_alarm :
  (forall i s,
     let s' := Real.scan_body i s in
     let alarm := Real.Alarms.any_alarm (Real.alarms s') in
     Real.Outputs.socket1 (Real.outputs s')
     = Real.Commands.socket1 (Real.commands i) && negb alarm
     /\ Real.Outputs.socket2 (Real.outputs s')
        = Real.Commands.socket2 (Real.commands i) && negb alarm
     /\ (alarm = true ->
         Real.Outputs.socket1 (Real.outputs s') = false
         /\ Real.Outputs.socket2 (Real.outputs s') = false))
  /\ (forall i s,
        let s' := Controller.scan_cycle i s in
        let alarm := Controller.M_ZAGALNA_AVARIA (Controller.M s') in
        Controller.Y_ROZET_1 (Controller.Y s')
        = Controller.CMD_ROZET_1 i && negb alarm
        /\ Controller.Y_ROZET_2 (Controller.Y s')
           = Controller.CMD_ROZET_2 i && negb alarm
        /\ (alarm = true ->
            Controller.Y_ROZET_1 (Controller.Y s') = false
            /\ Controller.Y_ROZET_2 (Controller.Y s') = false))
  /\ (forall i s,
        let s' := Emu.scan_cycle i s in
        let alarm := Emu.ALM_AnyAlarm (Emu.ALM s') in
        Emu.DO_Socket1 (Emu.DO s') = Emu.CMD_Socket1_On i && negb alarm
        /\ Emu.DO_Socket2 (Emu.DO s') = Emu.CMD_Socket2_On i && negb alarm
        /\ (alarm = true ->
            Emu.DO_Socket1 (Emu.DO s') = false
            /\ Emu.DO_Socket2 (Emu.DO s') = false)).
Proof.
  split; [|split]; intros i s s' alarm; subst alarm s'.
  - rewrite RealFacts.real_scan_body_outputs, RealFacts.real_scan_body_alarms.
    unfold RealNext.outputs'. cbn.
    split; [reflexivity|]. split; [reflexivity|].
    intros ->. now rewrite !andb_false_r.
  - rewrite ControllerFacts.ctl_scan_cycle_Y, ControllerFacts.ctl_scan_cycle_M. cbn.
    split; [reflexivity|]. split; [reflexivity|].
    intros ->. now rewrite !andb_false_r.
  - rewrite EmuFacts.emu_scan_cycle_DO, EmuFacts.emu_scan_cycle_AnyAlarm. cbn.
    split; [reflexivity|]. split; [reflexivity|].
    intros ->. now rewrite !andb_false_r.
Qed.

(** Both sockets requested while the vacuum is lost: the alarm is set and
    both sockets are off. *)
Lemma C8_witness :
  Emu.CMD_Socket1_On Scenario.emu_vacuum_lost = true
  /\ Emu.CMD_Socket2_On Scenario.emu_vacuum_lost = true
  /\ Emu.DO_Socket1
       (Emu.DO (Emu.scan_cycle Scenario.emu_vacuum_lost
                  Scenario.emu_running)) = false
  /\ Emu.DO_Socket2
       (Emu.DO (Emu.scan_cycle Scenario.emu_vacuum_lost
                  Scenario.emu_running)) = false.
Proof.
  split; [reflexivity|]. split; [reflexivity|].
  apply (proj2 (proj2 (proj2 (proj2 C8_sockets_follow_command_unless_alarm)
                         Scenario.emu_vacuum_lost Scenario.emu_running))).
  vm_compute. reflexivity.
Defined.

(* ================================================================== *)
(** * The gas sensor and the general alarm in Controller.py *)
(* ================================================================== *)

(** C10.  Two cycles of Controller.py from the same state, on inputs that
    agree on everything but the gas sensor, end with the same general
    alarm, the same running flag, the same socket outputs and the same
    alarm signal; the two final states differ at most in the gas marker,
    the ready flag, the gas valve, the permit output and the gas-failure
    counter. *)
Theorem C10_gas_sensor_not_in_general_alarm :
  forall s i1 i2,
    ControllerNext.same_but_gas i1 i2 ->
    let s1 := Controller.scan_cycle i1 s in
    let s2 := Controller.scan_cycle i2 s in
    Controller.M_ZAGALNA_AVARIA (Controller.M s1)
    = Controller.M_ZAGALNA_AVARIA (Controller.M s2)
    /\ Controller.M_SYSTEM_ON (Controller.M s1)
       = Controller.M_SYSTEM_ON (Controller.M s2)
    /\ Controller.Y_ROZET_1 (Controller.Y s1)
       = Controller.Y_ROZET_1 (Controller.Y s2)
    /\ Controller.Y_ROZET_2 (Controller.Y s1)
       = Controller.Y_ROZET_2 (Controller.Y s2)
    /\ Controller.Y_AVARIA_SIGNAL (Controller.Y s1)
       = Controller.Y_AVARIA_SIGNAL (Controller.Y s2)
    /\ ControllerNext.gas_blind s1 = ControllerNext.gas_blind s2.
Proof.
  intros s i1 i2 H s1 s2.
  assert (G : ControllerNext.gas_blind s1 = ControllerNext.gas_blind s2).
  { subst s1 s2. unfold ControllerNext.gas_blind. cbv zeta.
    rewrite !ControllerFacts.ctl_scan_cycle_Y, !ControllerFacts.ctl_scan_cycle_M,
      !ControllerFacts.ctl_scan_cycle_st, !ControllerFacts.ctl_scan_cycle_PHY,
      !ControllerFacts.ctl_scan_cycle_running,
      !ControllerFacts.ctl_scan_cycle_scan_count.
    destruct i1, i2. unfold ControllerNext.same_but_gas in H. cbn in H.
    destruct H as (-> & -> & -> & -> & -> & -> & -> & -> & -> & -> & -> & ->).
    reflexivity. }
  clearbody s1 s2.
  repeat split; try exact G.
  all: unfold ControllerNext.gas_blind in G; cbv zeta in G;
       injection G; intros; assumption.
Qed.

(** The running system with the start command held, once with gas and once
    without: same alarm, same running flag, different ready flag. *)
Lemma C10_witness :
  ControllerNext.same_but_gas Scenario.ctl_start Scenario.ctl_start_no_gas
  /\ Controller.M_ZAGALNA_AVARIA
       (Controller.M
          (Controller.scan_cycle Scenario.ctl_start Scenario.ctl_running))
     = Controller.M_ZAGALNA_AVARIA
         (Controller.M
            (Controller.scan_cycle Scenario.ctl_start_no_gas
               Scenario.ctl_running))
  /\ Controller.M_SYSTEM_READY
       (Controller.M
          (Controller.scan_cycle Scenario.ctl_start Scenario.ctl_running))
     <> Controller.M_SYSTEM_READY
          (Controller.M
             (Controller.scan_cycle Scenario.ctl_start_no_gas
                Scenario.ctl_running)).
Proof.
  assert (H : ControllerNext.same_but_gas Scenario.ctl_start
                Scenario.ctl_start_no_gas).
  { unfold ControllerNext.same_but_gas. cbn. repeat split. }
  split; [exact H|]. split.
  - apply (C10_gas_sensor_not_in_general_alarm Scenario.ctl_running _ _ H).
  - vm_compute. discriminate.
Defined.

(* ================================================================== *)
(** * Running under an alarm *)
(* ================================================================== *)

(** Controller.py and the Modbus controller never end a cycle running with
    the general alarm set. *)
Lemma Controller_never_running_under_alarm i s :
  Controller.M_ZAGALNA_AVARIA (Controller.M (Controller.scan_cycle i s))
  = true ->
  Controller.M_SYSTEM_ON (Controller.M (Controller.scan_cycle i s)) = false.
Proof.
  rewrite ControllerFacts.ctl_scan_cycle_M. cbn. apply Controller_alarm_stops.
Qed.

Lemma Simple_never_running_under_alarm i s :
  Simple.alm_any_alarm (Simple.alm (Simple.scan_cycle i s)) = true ->
  Simple.system_running (Simple.scan_cycle i s) = false.
Proof.
  rewrite SimpleFacts.simple_scan_cycle_alm, SimpleFacts.simple_scan_cycle_system_running.
  cbn. apply Simple_alarm_stops.
Qed.

Lemma Real_never_running_under_alarm i s :
  Real.Alarms.any_alarm (Real.alarms (Real.scan_body i s)) = true ->
  Real.SystemState.running (Real.system_state (Real.scan_body i s)) = false.
Proof.
  rewrite RealFacts.real_scan_body_alarms, RealFacts.real_scan_body_system_state.
  cbn. intros A. apply (Real_alarm_stops _ _ A).
Qed.

(** The emulator: a cycle that finds the output of the start-delay timer
    set ends running, whatever the alarm of that cycle. *)
Lemma Emu_delay_start_ignores_alarm i s :
  EmuNext.fired s = true ->
  Emu.SYS_Running (Emu.SYS (Emu.scan_cycle i s)) = true.
Proof.
  intros F. rewrite EmuFacts.emu_scan_cycle_SYS. cbn.
  unfold EmuNext.running'. now rewrite F.
Qed.

(** C2.  The emulator violates the property: the start command is pressed for
    one cycle, the three seconds of the start delay pass, and the vacuum
    is lost in the cycle in which the timer output is found set.  That
    cycle evaluates the general alarm as true, clears [SYS_Enabled] and
    [SYS_Running], and then sets [SYS_Running] again from the timer: it
    ends with the alarm set and the system running, one start counted. *)
Theorem C2_emulator_runs_under_alarm :
  let s := Emu.scan_cycle Scenario.emu_vacuum_lost Scenario.emu_delay_elapsed
  in
  Emu.ALM_AnyAlarm (Emu.ALM s) = true
  /\ Emu.SYS_Running (Emu.SYS s) = true
  /\ Emu.SYS_Enabled (Emu.SYS s) = false
  /\ Emu.CNT_Starts (Emu.CNT s)
     = Emu.CNT_Starts (Emu.CNT Scenario.emu_delay_elapsed) + 1.
Proof. vm_compute. repeat split. Qed.

(* ================================================================== *)
(** * The stop counter *)
(* ================================================================== *)

(** Controller.py: an alarm that rises while the system runs stops it and
    counts one stop; the next cycles under the alarm count nothing. *)
Lemma Controller_alarm_edge_counts_one_stop i s :
  Controller.M_SYSTEM_ON (Controller.M s) = true ->
  Controller.M_ZAGALNA_AVARIA (Controller.M (Controller.scan_cycle i s))
  = true ->
  Controller.M_SYSTEM_ON (Controller.M (Controller.scan_cycle i s)) = false
  /\ Controller.stops (Controller.st (Controller.scan_cycle i s))
     = Controller.stops (Controller.st s) + 1.
Proof.
  rewrite ControllerFacts.ctl_scan_cycle_M, ControllerFacts.ctl_scan_cycle_st. cbn.
  intros On A. split; [now apply Controller_alarm_stops|].
  unfold ControllerNext.stopped'. rewrite A, On, orb_true_r. reflexivity.
Qed.

Lemma Controller_alarm_held_counts_no_stop i s :
  Controller.M_SYSTEM_ON (Controller.M s) = false ->
  Controller.M_ZAGALNA_AVARIA (Controller.M (Controller.scan_cycle i s))
  = true ->
  Controller.stops (Controller.st (Controller.scan_cycle i s))
  = Controller.stops (Controller.st s).
Proof.
  rewrite ControllerFacts.ctl_scan_cycle_M, ControllerFacts.ctl_scan_cycle_st. cbn.
  intros Off A.
  unfold ControllerNext.stopped', ControllerNext.started'.
  rewrite A, Off, !andb_false_r. cbn. lia.
Qed.

(** The emulator counts a stop only in a cycle that finds the output of
    the start-delay timer set. *)
Lemma Emu_stops_only_with_timer i s :
  EmuNext.fired s = false ->
  Emu.CNT_Stops (Emu.CNT (Emu.scan_cycle i s)) = Emu.CNT_Stops (Emu.CNT s).
Proof.
  intros F. rewrite EmuFacts.emu_scan_cycle_Stops.
  unfold EmuNext.running'. rewrite F.
  destruct (EmuNext.any_alarm' i s), (Emu.CMD_SystemStop i),
    (Emu.ALM_AnyAlarm (Emu.ALM s)); cbn; lia.
Qed.

(** The Modbus controller never writes its stop counter. *)
Lemma Real_stops_never_counted i s :
  Real.Stats.stops (Real.stats (Real.scan_body i s))
  = Real.Stats.stops (Real.stats s).
Proof. rewrite RealFacts.real_scan_body_stats. reflexivity. Qed.

(** C5.  The emulator and the Modbus controller violate the property.
    In the emulator the running system loses the vacuum: the alarm rises,
    the cycle stops the system, and the stop counter stays as it was,
    because the statistics block tests [SYS_Running] after block 7 has
    cleared it.  In the Modbus controller no cycle changes the stop
    counter. *)
Theorem C5_alarm_stop_not_counted :
  (let s := Scenario.emu_running in
   let s' := Emu.scan_cycle Scenario.emu_vacuum_lost s in
   Emu.ALM_AnyAlarm (Emu.ALM s) = false
   /\ Emu.SYS_Running (Emu.SYS s) = true
   /\ Emu.ALM_AnyAlarm (Emu.ALM s') = true
   /\ Emu.SYS_Running (Emu.SYS s') = false
   /\ Emu.CNT_Stops (Emu.CNT s') = Emu.CNT_Stops (Emu.CNT s))
  /\ (forall i s,
        Real.Stats.stops (Real.stats (Real.scan_body i s))
        = Real.Stats.stops (Real.stats s)).
Proof.
  split; [vm_compute; repeat split | exact Real_stops_never_counted].
Qed.

(* ================================================================== *)
(** * Edge detectors *)
(* ================================================================== *)

(** In two consecutive cycles of the Modbus controller the gas-failure,
    vacuum-failure and alarm counters of the second cycle compare its
    readings with those of the first. *)
Lemma Real_edges_read_previous_cycle i0 i1 s :
  let s1 := Real.scan_body i0 s in
  let s2 := Real.scan_body i1 s1 in
  Real.Stats.gas_failures (Real.stats s2)
  = Real.Stats.gas_failures (Real.stats s1)
    + b2z (negb (Real.Sensors.gas_present (Real.sensors i1))
           && Real.Sensors.gas_present (Real.sensors i0))
  /\ Real.Stats.vacuum_failures (Real.stats s2)
     = Real.Stats.vacuum_failures (Real.stats s1)
       + b2z (negb (Real.Sensors.vacuum_present (Real.sensors i1))
              && Real.Sensors.vacuum_present (Real.sensors i0))
  /\ Real.Stats.alarms (Real.stats s2)
     = Real.Stats.alarms (Real.stats s1)
       + b2z (Real.Alarms.any_alarm (Real.alarms s2)
              && negb (Real.Alarms.any_alarm (Real.alarms s1)))
  /\ RealNext.armed' i1 s1
     = Real.Commands.start (Real.commands i1)
       && negb (Real.Commands.start (Real.commands i0))
       && (negb (Real.SystemState.running (Real.system_state s1))
           && negb (Real.Alarms.any_alarm (Real.alarms s2)))
  /\ RealNext.stop_edge i1 s1
     = Real.Commands.stop (Real.commands i1)
       && negb (Real.Commands.stop (Real.commands i0)).
Proof.
  intros s1 s2. subst s2.
  rewrite (RealFacts.real_scan_body_stats i1 s1),
    (RealFacts.real_scan_body_alarms i1 s1).
  unfold RealNext.armed', RealNext.stop_edge.
  subst s1. rewrite RealFacts.real_scan_body_edge_detectors. cbn.
  repeat split.
Qed.

(** The emulator's statistics block finds the stop detector already equal
    to the stop command. *)
Lemma Emu_stop_detector_overwritten i s :
  Emu.FF_StopOld (Emu.FF (Emu.block13_counters (Emu.before_statistics i s)))
  = Emu.CMD_SystemStop i.
Proof.
  unfold Emu.before_statistics, Emu.blocks6to12, Emu.blocks1to5, Emu.block7.
  rewrite EmuFacts.emu_block13_counters_eq, EmuFacts.emu_block7_delay_eq,
    EmuFacts.emu_block7_alarm_eq, EmuFacts.emu_block7_stop_eq,
    EmuFacts.emu_block7_start_eq.
  reflexivity.
Qed.

(** C6.  The emulator violates the property.  The stop edge is tested
    twice in
    a cycle, in block 7 and in the statistics block, and block 7 writes the
    stop detector in between: the test of the statistics block is false in
    every cycle.  In the cycle below the stop command rises against the
    detector left by the previous cycle and the system is running when the
    statistics block is reached, yet no stop is counted. *)
Theorem C6_emulator_stop_edge_reads_overwritten_detector :
  (forall i s,
     Emu.stop_edge_at_statistics i
       (Emu.block13_counters (Emu.before_statistics i s)) = false)
  /\ (let s := Scenario.emu_delay_elapsed in
      let i := Scenario.emu_stop in
      Emu.CMD_SystemStop i = true
      /\ Emu.FF_StopOld (Emu.FF s) = false
      /\ Emu.SYS_Running
           (Emu.SYS (Emu.block13_counters (Emu.before_statistics i s)))
         = true
      /\ Emu.CNT_Stops (Emu.CNT (Emu.scan_cycle i s))
         = Emu.CNT_Stops (Emu.CNT s)).
Proof.
  split.
  - intros i s. unfold Emu.stop_edge_at_statistics.
    rewrite Emu_stop_detector_overwritten.
    now destruct (Emu.CMD_SystemStop i).
  - vm_compute. repeat split.
Qed.

(* ================================================================== *)
(** * The start command *)
(* ================================================================== *)

Lemma run_cons {S I : Type} (cycle : I -> S -> S) s i l :
  run cycle s (i :: l) = run cycle (cycle i s) l.
Proof. reflexivity. Qed.

(** A counter that can move by one in a first cycle, and afterwards only
    by what a non-negative potential loses, moves by at most one over any
    run.  [inv] is what the first cycle establishes and the others keep. *)
Section HeldCommand.

Variables (S I : Type).
Variable cycle : I -> S -> S.
Variable held : I -> Prop.
Variables (count pending : S -> Z).
Variable inv : S -> Prop.

Hypothesis pending_nonneg : forall s, 0 <= pending s.
Hypothesis first_cycle :
  forall i s, held i ->
    count (cycle i s) + pending (cycle i s) <= count s + 1
    /\ inv (cycle i s).
Hypothesis next_cycle :
  forall i s, held i -> inv s ->
    count (cycle i s) + pending (cycle i s) <= count s + pending s
    /\ inv (cycle i s).

Lemma held_next_cycles l :
  forall s, Forall held l -> inv s ->
    count (run cycle s l) + pending (run cycle s l) <= count s + pending s.
Proof.
  induction l as [|i l IH]; intros s Hl Hs.
  - cbn. lia.
  - rewrite run_cons. inversion Hl as [|? ? Hi Hl']; subst.
    destruct (next_cycle i s Hi Hs) as [Hc Hinv].
    specialize (IH (cycle i s) Hl' Hinv). lia.
Qed.

Lemma held_at_most_one l :
  forall s, Forall held l -> count (run cycle s l) <= count s + 1.
Proof.
  destruct l as [|i l]; intros s Hl.
  - cbn. lia.
  - rewrite run_cons. inversion Hl as [|? ? Hi Hl']; subst.
    destruct (first_cycle i s Hi) as [Hc Hinv].
    pose proof (held_next_cycles l (cycle i s) Hl' Hinv).
    pose proof (pending_nonneg (run cycle (cycle i s) l)). lia.
Qed.

End HeldCommand.

(** simple_boiler_test.py: a start is counted only on a rising edge. *)
Lemma Simple_started_edge i s :
  SimpleNext.started' i s = true ->
  Simple.cmd_start i = true /\ Simple.start_old (Simple.ff s) = false
  /\ Simple.system_running s = false /\ SimpleNext.any_alarm' i s = false.
Proof.
  unfold SimpleNext.started'. intros H.
  destruct (Simple.cmd_start i), (Simple.start_old (Simple.ff s)),
    (Simple.system_running s), (SimpleNext.any_alarm' i s);
    try discriminate; repeat split.
Qed.

Lemma Simple_starts_step i s :
  Simple.starts (Simple.stats (Simple.scan_cycle i s))
  = Simple.starts (Simple.stats s) + b2z (SimpleNext.started' i s).
Proof. now rewrite SimpleFacts.simple_scan_cycle_stats. Qed.

Lemma Simple_held_start l :
  forall s, Forall (fun i => Simple.cmd_start i = true) l ->
    Simple.starts (Simple.stats (run Simple.scan_cycle s l))
    <= Simple.starts (Simple.stats s) + 1.
Proof.
  apply (held_at_most_one _ _ Simple.scan_cycle
           (fun i => Simple.cmd_start i = true)
           (fun s => Simple.starts (Simple.stats s)) (fun _ => 0)
           (fun s => Simple.start_old (Simple.ff s) = true)).
  - intros; lia.
  - intros i s Hi. rewrite Simple_starts_step, SimpleFacts.simple_scan_cycle_ff.
    cbn. split; [|exact Hi].
    destruct (SimpleNext.started' i s); cbn; lia.
  - intros i s Hi Hold.
    rewrite Simple_starts_step, SimpleFacts.simple_scan_cycle_ff. cbn.
    split; [|exact Hi].
    unfold SimpleNext.started'. rewrite Hold, andb_false_r. cbn. lia.
Qed.

(** The emulator: the start delay is armed, and [SYS_Enabled] set, only on
    a rising edge. *)
Lemma Emu_armed_edge i s :
  EmuNext.armed' i s = true ->
  Emu.CMD_SystemStart i = true /\ Emu.FF_StartOld (Emu.FF s) = false
  /\ Emu.SYS_Running (Emu.SYS s) = false /\ EmuNext.any_alarm' i s = false.
Proof.
  unfold EmuNext.armed'. intros H.
  destruct (Emu.CMD_SystemStart i), (Emu.FF_StartOld (Emu.FF s)),
    (Emu.SYS_Running (Emu.SYS s)), (EmuNext.any_alarm' i s);
    try discriminate; repeat split.
Qed.

Lemma Emu_timer_armed i s :
  Emu.TON.IN (Emu.TMR_StartDelay (Emu.TMR s)) = false ->
  Emu.TON.IN (Emu.TMR_StartDelay (Emu.TMR (Emu.scan_cycle i s))) = true ->
  EmuNext.armed' i s = true.
Proof.
  rewrite EmuFacts.emu_scan_cycle_StartDelay. unfold EmuNext.start_delay'.
  intros Hin. rewrite Hin.
  destruct (EmuNext.fired s), (EmuNext.armed' i s);
    unfold Emu.timer_update, Emu.set_IN; cbn; congruence.
Qed.

Lemma Emu_enabled_set i s :
  Emu.SYS_Enabled (Emu.SYS s) = false ->
  Emu.SYS_Enabled (Emu.SYS (Emu.scan_cycle i s)) = true ->
  EmuNext.armed' i s = true.
Proof.
  rewrite EmuFacts.emu_scan_cycle_SYS. cbn. unfold EmuNext.enabled'.
  intros Hen. rewrite Hen.
  destruct (EmuNext.any_alarm' i s), (EmuNext.stop_edge i s),
    (EmuNext.armed' i s); congruence.
Qed.

Lemma Emu_pending_nonneg s : 0 <= EmuNext.start_pending s.
Proof.
  unfold EmuNext.start_pending.
  destruct (_ || _); cbn; lia.
Qed.

Lemma Emu_pending_step i s :
  EmuNext.start_pending (Emu.scan_cycle i s) =
  b2z (negb (EmuNext.fired s)
       && (EmuNext.armed' i s
           || Emu.TON.IN (Emu.TMR_StartDelay (Emu.TMR s)))).
Proof.
  unfold EmuNext.start_pending.
  rewrite EmuFacts.emu_scan_cycle_StartDelay. unfold EmuNext.start_delay'.
  unfold EmuNext.fired.
  destruct (Emu.TMR_StartDelay (Emu.TMR s)) as [tin tq tet tpt]. cbn.
  destruct tq, (EmuNext.armed' i s), tin;
    unfold Emu.timer_update, Emu.set_IN; cbn; try reflexivity;
    destruct (_ >=? _); reflexivity.
Qed.

Lemma Emu_held_start l :
  forall s, Forall (fun i => Emu.CMD_SystemStart i = true) l ->
    Emu.CNT_Starts (Emu.CNT (run Emu.scan_cycle s l))
    <= Emu.CNT_Starts (Emu.CNT s) + 1.
Proof.
  apply (held_at_most_one _ _ Emu.scan_cycle
           (fun i => Emu.CMD_SystemStart i = true)
           (fun s => Emu.CNT_Starts (Emu.CNT s)) EmuNext.start_pending
           (fun s => Emu.FF_StartOld (Emu.FF s) = true)).
  - apply Emu_pending_nonneg.
  - intros i s Hi.
    rewrite EmuFacts.emu_scan_cycle_Starts, Emu_pending_step,
      EmuFacts.emu_scan_cycle_FF. cbn. split; [|exact Hi].
    destruct (EmuNext.fired s), (EmuNext.armed' i s),
      (Emu.TON.IN (Emu.TMR_StartDelay (Emu.TMR s))); cbn; lia.
  - intros i s Hi Hold.
    rewrite EmuFacts.emu_scan_cycle_Starts, Emu_pending_step,
      EmuFacts.emu_scan_cycle_FF. cbn. split; [|exact Hi].
    assert (A : EmuNext.armed' i s = false).
    { unfold EmuNext.armed'. now rewrite Hold, andb_false_r. }
    rewrite A. unfold EmuNext.start_pending, EmuNext.fired.
    destruct (Emu.TON.Q (Emu.TMR_StartDelay (Emu.TMR s))),
      (Emu.TON.IN (Emu.TMR_StartDelay (Emu.TMR s))); cbn; lia.
Qed.

(** Controller.py: a start is counted exactly when the command is true,
    the system is off and the alarm of the cycle is clear. *)
Lemma Controller_started_level i s :
  ControllerNext.started' i s = true <->
  Controller.CMD_START i = true
  /\ Controller.M_SYSTEM_ON (Controller.M s) = false
  /\ ControllerNext.alarm' i s = false.
Proof.
  unfold ControllerNext.started'.
  destruct (Controller.CMD_START i),
    (Controller.M_SYSTEM_ON (Controller.M s)), (ControllerNext.alarm' i s);
    cbn; intuition congruence.
Qed.

(** simple_boiler_test.py keeps the property: over two consecutive
    cycles a start is counted in the second only if the start command is
    true in it and was false in the first, the system was not running and
    the general alarm of the second cycle is clear. *)
Lemma Simple_start_needs_rising_edge i0 i1 s :
  let s1 := Simple.scan_cycle i0 s in
  let s2 := Simple.scan_cycle i1 s1 in
  Simple.starts (Simple.stats s2) <> Simple.starts (Simple.stats s1) ->
  Simple.cmd_start i1 = true /\ Simple.cmd_start i0 = false
  /\ Simple.system_running s1 = false
  /\ Simple.alm_any_alarm (Simple.alm s2) = false.
Proof.
  intros s1 s2 H. subst s2.
  rewrite Simple_starts_step in H.
  rewrite SimpleFacts.simple_scan_cycle_alm. cbn.
  destruct (SimpleNext.started' i1 s1) eqn:E; [|cbn in H; lia].
  destruct (Simple_started_edge _ _ E) as (H1 & H2 & H3 & H4).
  subst s1. rewrite SimpleFacts.simple_scan_cycle_ff in H2. cbn in H2.
  repeat split; assumption.
Qed.

(** The emulator keeps it too: the start delay is armed, or the system
    enabled, in the second of two cycles only on a rising edge of the
    command, the system not running and the alarm of that cycle clear. *)
Lemma Emu_start_needs_rising_edge i0 i1 s :
  let s1 := Emu.scan_cycle i0 s in
  let s2 := Emu.scan_cycle i1 s1 in
  (Emu.TON.IN (Emu.TMR_StartDelay (Emu.TMR s1)) = false
   /\ Emu.TON.IN (Emu.TMR_StartDelay (Emu.TMR s2)) = true)
  \/ (Emu.SYS_Enabled (Emu.SYS s1) = false
      /\ Emu.SYS_Enabled (Emu.SYS s2) = true) ->
  Emu.CMD_SystemStart i1 = true /\ Emu.CMD_SystemStart i0 = false
  /\ Emu.SYS_Running (Emu.SYS s1) = false
  /\ Emu.ALM_AnyAlarm (Emu.ALM s2) = false.
Proof.
  intros s1 s2 H.
  assert (E : EmuNext.armed' i1 s1 = true).
  { destruct H as [[H1 H2] | [H1 H2]];
      [exact (Emu_timer_armed _ _ H1 H2) | exact (Emu_enabled_set _ _ H1 H2)]. }
  destruct (Emu_armed_edge _ _ E) as (H1 & H2 & H3 & H4).
  subst s2. rewrite EmuFacts.emu_scan_cycle_AnyAlarm.
  subst s1. rewrite EmuFacts.emu_scan_cycle_FF in H2. cbn in H2.
  repeat split; assumption.
Qed.

(** C4.  Controller.py violates the property: its start step tests the
    level of the start command, with no detector of the previous value.
    A cycle counts a start exactly when the command is true, the system
    is off and the general alarm of the cycle is clear, whatever the
    command was in the cycle before.  Scenario C of the specification
    with the command held: the system is started, the vacuum is lost for
    one cycle, which stops it, and the cycle in which the vacuum is back
    starts it again and counts a second start, the command never having
    gone from false to true.  The same with the oil pressure low for one
    cycle. *)
Theorem C4_controller_restarts_on_held_start :
  (forall i s,
     let s' := Controller.scan_cycle i s in
     (Controller.starts (Controller.st s')
      = Controller.starts (Controller.st s) + 1
      <-> Controller.CMD_START i = true
          /\ Controller.M_SYSTEM_ON (Controller.M s) = false
          /\ Controller.M_ZAGALNA_AVARIA (Controller.M s') = false)
     /\ (Controller.starts (Controller.st s')
         = Controller.starts (Controller.st s)
         \/ Controller.starts (Controller.st s')
            = Controller.starts (Controller.st s) + 1))
  /\ (let s1 := Controller.scan_cycle Scenario.ctl_start Controller.init in
      let s2 := Controller.scan_cycle ctl_start_vacuum_lost s1 in
      let s3 := Controller.scan_cycle Scenario.ctl_start s2 in
      Controller.CMD_START Scenario.ctl_start = true
      /\ Controller.CMD_START ctl_start_vacuum_lost = true
      /\ Controller.M_SYSTEM_ON (Controller.M s1) = true
      /\ Controller.starts (Controller.st s1) = 1
      /\ Controller.M_SYSTEM_ON (Controller.M s2) = false
      /\ Controller.starts (Controller.st s2) = 1
      /\ Controller.M_SYSTEM_ON (Controller.M s3) = true
      /\ Controller.starts (Controller.st s3) = 2)
  /\ (let s1 := Controller.scan_cycle Scenario.ctl_start Controller.init in
      let s2 := Controller.scan_cycle Scenario.ctl_start_oil_low s1 in
      let s3 := Controller.scan_cycle Scenario.ctl_start s2 in
      Controller.CMD_START Scenario.ctl_start_oil_low = true
      /\ Controller.starts (Controller.st s1) = 1
      /\ Controller.M_SYSTEM_ON (Controller.M s2) = false
      /\ Controller.starts (Controller.st s2) = 1
      /\ Controller.M_SYSTEM_ON (Controller.M s3) = true
      /\ Controller.starts (Controller.st s3) = 2).
Proof.
  split; [|split].
  - intros i s s'. subst s'.
    rewrite ControllerFacts.ctl_scan_cycle_st, ControllerFacts.ctl_scan_cycle_M. cbn.
    rewrite <- Controller_started_level.
    destruct (ControllerNext.started' i s); cbn; split;
      try (split; intros; (lia || congruence)); lia.
  - vm_compute. repeat split.
  - vm_compute. repeat split.
Qed.

(* ================================================================== *)
(** * Stopping the controller *)
(* ================================================================== *)

(** Controller.py: [stop] leaves every output as it is. *)
Lemma Controller_stop_keeps_outputs s :
  Controller.Y (Controller.stop s) = Controller.Y s.
Proof. reflexivity. Qed.

(** The control loop, once switched on, stays on over any run of
    cycles. *)
Lemma Simple_loop_stays_on l : forall s,
  Simple.running s = true ->
  Simple.running (run Simple.scan_cycle s l) = true.
Proof.
  induction l as [|i l IH]; intros s H; [exact H|].
  rewrite run_cons. apply IH.
  now rewrite SimpleFacts.simple_scan_cycle_running.
Qed.

Lemma Real_loop_stays_on l : forall s,
  Real.running s = true ->
  Real.running (run Real.scan_cycle s l) = true.
Proof.
  induction l as [|[i|] l IH]; intros s H; [exact H| |].
  - rewrite run_cons. apply IH. cbn [Real.scan_cycle].
    now rewrite RealFacts.real_scan_body_running.
  - rewrite run_cons. now apply IH.
Qed.

(** simple_boiler_test.py keeps the property: [stop] called while the
    loop flag is set, as it is after [start] and any run of cycles,
    clears the flag and every output. *)
Lemma Simple_stop_switches_off s :
  Simple.running s = true ->
  Simple.out (Simple.stop s)
  = Simple.mkOutputs false false false false false false
  /\ Simple.running (Simple.stop s) = false.
Proof. intros H. unfold Simple.stop. rewrite H. cbn. split; reflexivity. Qed.

Lemma Simple_stop_after_start s l :
  let s' := Simple.stop (run Simple.scan_cycle (Simple.start s) l) in
  Simple.out s' = Simple.mkOutputs false false false false false false
  /\ Simple.running s' = false.
Proof.
  cbv zeta. apply Simple_stop_switches_off, Simple_loop_stays_on.
  unfold Simple.start. destruct (Simple.running s) eqn:E; [exact E|].
  reflexivity.
Qed.

(** The Modbus controller keeps it: [stop] called while the flag is set,
    as it is after a [start] that has connected and any run of cycles,
    clears the flag and every output and hands one vector, all false, to
    the device. *)
Lemma Real_stop_switches_off s :
  Real.running s = true ->
  Real.outputs (Real.stop s) = Real.Outputs.all_off
  /\ Real.wire (Real.stop s) = Real.Outputs.all_off :: Real.wire s
  /\ Real.running (Real.stop s) = false.
Proof. intros H. unfold Real.stop. rewrite H. cbn. repeat split. Qed.

Lemma Real_stop_after_start s l :
  let s1 := run Real.scan_cycle (Real.start true s) l in
  Real.outputs (Real.stop s1) = Real.Outputs.all_off
  /\ Real.wire (Real.stop s1) = Real.Outputs.all_off :: Real.wire s1
  /\ Real.running (Real.stop s1) = false.
Proof.
  cbv zeta. apply Real_stop_switches_off, Real_loop_stays_on.
  unfold Real.start. destruct (Real.running s) eqn:E; [exact E|].
  reflexivity.
Qed.

(** C9.  Controller.py violates the property: its [stop] clears the flag
    of the scan loop and joins the thread, and writes no output, so every
    output is after [stop] what it was before.  The controller started
    with [start], one cycle with the start command and all sensors good:
    the gas valve is open, and still open after [stop]. *)
Theorem C9_controller_stop_leaves_outputs_on :
  (forall s, Controller.Y (Controller.stop s) = Controller.Y s)
  /\ (let s := Controller.scan_cycle Scenario.ctl_start
                 (Controller.start Controller.init) in
      Controller.running s = true
      /\ Controller.Y_KLAPAN_GAZ (Controller.Y s) = true
      /\ Controller.running (Controller.stop s) = false
      /\ Controller.Y_KLAPAN_GAZ (Controller.Y (Controller.stop s)) = true
      /\ Controller.Y_DOZV_ROBOTY (Controller.Y (Controller.stop s)) = true).
Proof.
  split; [exact Controller_stop_keeps_outputs | vm_compute; repeat split].
Qed.

(* ================================================================== *)
(** * Further properties: conversion of the analog inputs *)
(* ================================================================== *)

(** Converting a physical value to ADC counts and back, both by floor
    division, loses at most one unit, downwards. *)
Lemma adc_round_trip v m d :
  0 < d <= m -> v - 1 <= v * m / d * d / m <= v.
Proof.
  intros [Hd Hm]. assert (Hm' : 0 < m) by lia.
  pose proof (Z.mul_div_le (v * m) d Hd) as Hle.
  pose proof (Z.mod_pos_bound (v * m) d Hd) as Hmod.
  pose proof (Z.div_mod (v * m) d ltac:(lia)) as Hdm.
  split.
  - apply Z.div_le_lower_bound; [exact Hm'|]. nia.
  - apply Z.div_le_upper_bound; [exact Hm'|]. nia.
Qed.

Lemma adc_count_range v m d :
  0 < d -> 0 <= m -> 0 <= v <= d -> 0 <= v * m / d <= m.
Proof.
  intros Hd Hm [H0 H1]. split.
  - apply Z.div_pos; nia.
  - apply Z.div_le_upper_bound; [exact Hd|]. nia.
Qed.

Lemma clamp_adc_id v :
  0 <= v <= Controller.ADC_MAX -> Controller.clamp_adc v = v.
Proof. unfold Controller.clamp_adc. lia. Qed.

Lemma clamp_adc_range v :
  0 <= Controller.clamp_adc v <= Controller.ADC_MAX.
Proof. unfold Controller.clamp_adc, Controller.ADC_MAX. lia. Qed.

(** X1.  Controller.py: after [set_voltage(volts)] the next scan shows
    [volts] or [volts - 1] when [volts] is within 0..500, 500 when it is
    above and 0 when it is below; the same for [set_temperature] with the
    range 0..150. *)
Theorem X1_controller_setters_round_trip :
  forall x i s,
    let sv := Controller.scan_cycle (ControllerSet.set_voltage x i) s in
    let st := Controller.scan_cycle (ControllerSet.set_temperature x i) s in
    let volt := Controller.NAPRUGA_VOLT (Controller.PHY sv) in
    let temp := Controller.TEMP_BOILER_GRAD (Controller.PHY st) in
    (0 <= x <= 500 -> x - 1 <= volt <= x)
    /\ (500 <= x -> volt = 500)
    /\ (x <= 0 -> volt = 0)
    /\ (0 <= x <= 150 -> x - 1 <= temp <= x)
    /\ (150 <= x -> temp = 150)
    /\ (x <= 0 -> temp = 0).
Proof.
  intros x i s sv st volt temp. subst volt temp sv st.
  rewrite !ControllerFacts.ctl_scan_cycle_PHY. cbn.
  unfold ControllerNext.volt, ControllerNext.temp,
    Controller.adc_to_physical. cbn.
  unfold Controller.NAPRUGA_MAX, Controller.TEMP_MAX.
  assert (C0 : forall d, 0 < d -> x <= 0 ->
                 Controller.clamp_adc (x * Controller.ADC_MAX / d) = 0).
  { intros d Hd Hx. unfold Controller.clamp_adc, Controller.ADC_MAX.
    assert (x * 4095 / d <= 0).
    { apply Z.div_le_upper_bound; [exact Hd|]. nia. }
    lia. }
  assert (C1 : forall d, 0 < d -> d <= x ->
                 Controller.clamp_adc (x * Controller.ADC_MAX / d) = 4095).
  { intros d Hd Hx. unfold Controller.clamp_adc, Controller.ADC_MAX.
    assert (4095 <= x * 4095 / d).
    { apply Z.div_le_lower_bound; [exact Hd|]. nia. }
    lia. }
  assert (R : forall d, 0 < d <= 4095 -> 0 <= x <= d ->
                x - 1
                <= Controller.clamp_adc (x * Controller.ADC_MAX / d) * d
                   / Controller.ADC_MAX
                <= x).
  { intros d Hd Hx.
    rewrite clamp_adc_id
      by (apply adc_count_range; unfold Controller.ADC_MAX; lia).
    apply adc_round_trip. unfold Controller.ADC_MAX. lia. }
  split; [intros H; apply R; lia|].
  split; [intros H; rewrite C1 by lia; reflexivity|].
  split; [intros H; rewrite C0 by lia; reflexivity|].
  split; [intros H; apply R; lia|].
  split; [intros H; rewrite C1 by lia; reflexivity|].
  intros H; rewrite C0 by lia; reflexivity.
Qed.

(** [set_voltage(420)] reads back as 419 V, [set_voltage(400)] as 400 V. *)
Lemma X1_witness :
  420 - 1
  <= Controller.NAPRUGA_VOLT
       (Controller.PHY
          (Controller.scan_cycle
             (ControllerSet.set_voltage 420 Scenario.ctl_idle)
             Controller.init))
  <= 420.
Proof.
  apply (proj1 (X1_controller_setters_round_trip 420 Scenario.ctl_idle
                  Controller.init)).
  lia.
Defined.

(** X2.  Controller.py: [set_voltage(volts)] with [volts] at least 400
    raises the voltage alarm in the next scan, from every state; with
    [volts] at most 380, 380 itself included since it reads back as 379,
    the next scan clears it.  [set_temperature] raises the temperature
    alarm from 80 on and clears it up to 75, 75 included. *)
Theorem X2_controller_setters_trip_and_reset :
  forall x i s,
    let sv := Controller.scan_cycle (ControllerSet.set_voltage x i) s in
    let st := Controller.scan_cycle (ControllerSet.set_temperature x i) s in
    (400 <= x -> Controller.M_AVARIA_NAPRUGA (Controller.M sv) = true)
    /\ (x <= 380 -> Controller.M_AVARIA_NAPRUGA (Controller.M sv) = false)
    /\ (80 <= x -> Controller.M_AVARIA_TEMP (Controller.M st) = true)
    /\ (x <= 75 -> Controller.M_AVARIA_TEMP (Controller.M st) = false).
Proof.
  intros x i s sv st.
  pose proof (X1_controller_setters_round_trip x i s) as R.
  cbv zeta in R. destruct R as (V1 & V2 & V3 & T1 & T2 & T3).
  fold sv in V1, V2, V3. fold st in T1, T2, T3.
  assert (EV : Controller.M_AVARIA_NAPRUGA (Controller.M sv)
               = hystZ 400 380
                   (Controller.NAPRUGA_VOLT (Controller.PHY sv))
                   (Controller.M_AVARIA_NAPRUGA (Controller.M s))).
  { subst sv. now rewrite ControllerFacts.ctl_scan_cycle_M,
      ControllerFacts.ctl_scan_cycle_PHY. }
  assert (ET : Controller.M_AVARIA_TEMP (Controller.M st)
               = hystZ 80 75
                   (Controller.TEMP_BOILER_GRAD (Controller.PHY st))
                   (Controller.M_AVARIA_TEMP (Controller.M s))).
  { subst st. now rewrite ControllerFacts.ctl_scan_cycle_M,
      ControllerFacts.ctl_scan_cycle_PHY. }
  split; [|split; [|split]]; intros H.
  - rewrite EV. apply hystZ_trip.
    destruct (Z.eq_dec x 400) as [-> | N].
    + subst sv. rewrite ControllerFacts.ctl_scan_cycle_PHY.
      vm_compute. discriminate.
    + destruct (Z_le_gt_dec x 500); lia.
  - rewrite EV. apply hystZ_reset; [lia|].
    destruct (Z.eq_dec x 380) as [-> | N].
    + subst sv. rewrite ControllerFacts.ctl_scan_cycle_PHY.
      vm_compute. reflexivity.
    + destruct (Z_le_gt_dec 0 x); lia.
  - rewrite ET. apply hystZ_trip.
    destruct (Z.eq_dec x 80) as [-> | N].
    + subst st. rewrite ControllerFacts.ctl_scan_cycle_PHY.
      vm_compute. discriminate.
    + destruct (Z_le_gt_dec x 150); lia.
  - rewrite ET. apply hystZ_reset; [lia|].
    destruct (Z.eq_dec x 75) as [-> | N].
    + subst st. rewrite ControllerFacts.ctl_scan_cycle_PHY.
      vm_compute. reflexivity.
    + destruct (Z_le_gt_dec 0 x); lia.
Qed.

(** The running system: [set_voltage(380)] after an alarm clears it. *)
Lemma X2_witness :
  Controller.M_AVARIA_NAPRUGA
    (Controller.M
       (Controller.scan_cycle
          (ControllerSet.set_voltage 380 Scenario.ctl_idle)
          (Controller.scan_cycle
             (ControllerSet.set_voltage 420 Scenario.ctl_idle)
             Controller.init)))
  = false.
Proof.
  apply (proj1 (proj2 (X2_controller_setters_trip_and_reset 380
                         Scenario.ctl_idle _))).
  lia.
Defined.

(** X3.  emulate_fatek.py: the setters do not clamp; after
    [set_voltage(volts)] the next scan shows [volts] or [volts - 1] for
    every integer [volts], and so for [set_temperature]; from 400 V (80
    degrees) on the alarm is raised, up to 380 V (75 degrees) it is
    cleared. *)
Theorem X3_emulator_setters_round_trip :
  forall x i s,
    let sv := Emu.scan_cycle (EmuSet.set_voltage x i) s in
    let st := Emu.scan_cycle (EmuSet.set_temperature x i) s in
    x - 1 <= Emu.PHY_Voltage (Emu.PHY sv) <= x
    /\ x - 1 <= Emu.PHY_BoilerTemp (Emu.PHY st) <= x
    /\ (400 <= x -> Emu.ALM_VoltageHigh (Emu.ALM sv) = true)
    /\ (x <= 380 -> Emu.ALM_VoltageHigh (Emu.ALM sv) = false)
    /\ (80 <= x -> Emu.ALM_TempHigh (Emu.ALM st) = true)
    /\ (x <= 75 -> Emu.ALM_TempHigh (Emu.ALM st) = false).
Proof.
  intros x i s sv st.
  assert (PV : Emu.PHY_Voltage (Emu.PHY sv) = x * 4095 / 500 * 500 / 4095).
  { subst sv. EmuFacts.to_nf. EmuFacts.norm. reflexivity. }
  assert (PT : Emu.PHY_BoilerTemp (Emu.PHY st) = x * 4095 / 150 * 150 / 4095).
  { subst st. EmuFacts.to_nf. EmuFacts.norm. reflexivity. }
  assert (AV : Emu.ALM_VoltageHigh (Emu.ALM sv)
               = hystZ 400 380 (Emu.PHY_Voltage (Emu.PHY sv))
                   (Emu.ALM_VoltageHigh (Emu.ALM s))).
  { rewrite PV. subst sv. EmuFacts.to_nf. EmuFacts.norm. reflexivity. }
  assert (AT : Emu.ALM_TempHigh (Emu.ALM st)
               = hystZ 80 75 (Emu.PHY_BoilerTemp (Emu.PHY st))
                   (Emu.ALM_TempHigh (Emu.ALM s))).
  { rewrite PT. subst st. EmuFacts.to_nf. EmuFacts.norm. reflexivity. }
  assert (RV := adc_round_trip x 4095 500 ltac:(lia)).
  assert (RT := adc_round_trip x 4095 150 ltac:(lia)).
  rewrite <- PV in RV. rewrite <- PT in RT.
  split; [exact RV|]. split; [exact RT|].
  split; [|split; [|split]]; intros H.
  - rewrite AV. apply hystZ_trip.
    destruct (Z.eq_dec x 400) as [-> | N]; [rewrite PV; discriminate | lia].
  - rewrite AV. apply hystZ_reset; [lia|].
    destruct (Z.eq_dec x 380) as [-> | N]; [rewrite PV; reflexivity | lia].
  - rewrite AT. apply hystZ_trip.
    destruct (Z.eq_dec x 80) as [-> | N]; [rewrite PT; discriminate | lia].
  - rewrite AT. apply hystZ_reset; [lia|].
    destruct (Z.eq_dec x 75) as [-> | N]; [rewrite PT; reflexivity | lia].
Qed.

(** [set_voltage(420)], as the installer's emulator test does: alarm. *)
Lemma X3_witness :
  Emu.ALM_VoltageHigh
    (Emu.ALM (Emu.scan_cycle (EmuSet.set_voltage 420 Scenario.emu_idle)
                Scenario.emu_running)) = true.
Proof.
  apply (proj1 (proj2 (proj2 (X3_emulator_setters_round_trip 420
                                Scenario.emu_idle Scenario.emu_running)))).
  lia.
Defined.

(* ================================================================== *)
(** * Further properties: hysteresis *)
(* ================================================================== *)

Lemma emu_scan_cycle_PHY_ALM i s :
  Emu.PHY_Voltage (Emu.PHY (Emu.scan_cycle i s)) = EmuNext.volt i
  /\ Emu.PHY_BoilerTemp (Emu.PHY (Emu.scan_cycle i s)) = EmuNext.temp i
  /\ Emu.ALM_VoltageHigh (Emu.ALM (Emu.scan_cycle i s))
     = EmuNext.voltage_high' i s
  /\ Emu.ALM_TempHigh (Emu.ALM (Emu.scan_cycle i s))
     = EmuNext.temp_high' i s.
Proof. repeat split; EmuFacts.to_nf; EmuFacts.norm; reflexivity. Qed.

(** X4.  The temperature alarm of the four controllers, and the voltage
    alarm of the emulator, have the same hysteresis as the voltage alarm:
    from every state a cycle leaves the flag true when the cycle's value is
    at least the trip threshold (80 degrees, 400 V), false when it is below
    the reset threshold (75 degrees, 380 V), and unchanged in between.  In
    the Modbus controller the cycle's value is the one [check_alarms]
    compares, the mean of the window of [apply_filters] with the reading of
    the cycle appended, whatever the mean function is; it is not the
    reading. *)
Theorem X4_temperature_hysteresis :
  (forall i s,
     let s' := Controller.scan_cycle i s in
     let t := Controller.TEMP_BOILER_GRAD (Controller.PHY s') in
     (80 <= t -> Controller.M_AVARIA_TEMP (Controller.M s') = true)
     /\ (t < 75 -> Controller.M_AVARIA_TEMP (Controller.M s') = false)
     /\ (75 <= t < 80 ->
         Controller.M_AVARIA_TEMP (Controller.M s')
         = Controller.M_AVARIA_TEMP (Controller.M s)))
  /\ (forall i s,
        let s' := Emu.scan_cycle i s in
        let t := Emu.PHY_BoilerTemp (Emu.PHY s') in
        let v := Emu.PHY_Voltage (Emu.PHY s') in
        (80 <= t -> Emu.ALM_TempHigh (Emu.ALM s') = true)
        /\ (t < 75 -> Emu.ALM_TempHigh (Emu.ALM s') = false)
        /\ (75 <= t < 80 ->
            Emu.ALM_TempHigh (Emu.ALM s') = Emu.ALM_TempHigh (Emu.ALM s))
        /\ (400 <= v -> Emu.ALM_VoltageHigh (Emu.ALM s') = true)
        /\ (v < 380 -> Emu.ALM_VoltageHigh (Emu.ALM s') = false)
        /\ (380 <= v < 400 ->
            Emu.ALM_VoltageHigh (Emu.ALM s')
            = Emu.ALM_VoltageHigh (Emu.ALM s)))
  /\ (forall i s,
        let s' := Simple.scan_cycle i s in
        let t := Simple.boiler_temp i in
        ((80 <= t)%Q -> Simple.alm_temp_high (Simple.alm s') = true)
        /\ ((t < 75)%Q -> Simple.alm_temp_high (Simple.alm s') = false)
        /\ ((75 <= t)%Q -> (t < 80)%Q ->
            Simple.alm_temp_high (Simple.alm s')
            = Simple.alm_temp_high (Simple.alm s)))
  /\ (forall (mean : list Q -> Q) raw s,
        let s' := RealPipeline.scan_body mean raw s in
        let t := RealPipeline.temp_seen mean s' in
        t = mean (RealFilter.push Q
                    (RealFilter.temperature Q (RealPipeline.filters s))
                    (Real.Sensors.boiler_temp (Real.sensors raw)))
        /\ ((80 <= t)%Q -> RealPipeline.temp_high s' = true)
        /\ ((t < 75)%Q -> RealPipeline.temp_high s' = false)
        /\ ((75 <= t)%Q -> (t < 80)%Q ->
            RealPipeline.temp_high s' = RealPipeline.temp_high s)).
Proof.
  split; [|split; [|split]]; [intros i s | intros i s | intros i s |];
    cbv zeta.
  - rewrite ControllerFacts.ctl_scan_cycle_PHY,
      ControllerFacts.ctl_scan_cycle_M. cbn.
    unfold ControllerNext.temp_alarm'.
    split; [|split]; intros H.
    + now apply hystZ_trip.
    + apply hystZ_reset; [|exact H].
      unfold Controller.TEMP_HYST_GRAD, Controller.TEMP_AVAR_GRAD. lia.
    + now apply hystZ_hold.
  - destruct (emu_scan_cycle_PHY_ALM i s) as (-> & -> & -> & ->).
    unfold EmuNext.temp_high', EmuNext.voltage_high'.
    split; [|split; [|split; [|split; [|split]]]]; intros H.
    + now apply hystZ_trip.
    + apply hystZ_reset; [|exact H]. unfold Emu.TEMP_RESET, Emu.TEMP_TRIP.
      lia.
    + now apply hystZ_hold.
    + now apply hystZ_trip.
    + apply hystZ_reset; [|exact H].
      unfold Emu.VOLTAGE_RESET, Emu.VOLTAGE_TRIP. lia.
    + now apply hystZ_hold.
  - rewrite SimpleFacts.simple_scan_cycle_alm. cbn.
    unfold SimpleNext.temp_high'.
    split; [|split].
    + intros H. now apply hystQ_trip.
    + intros H. apply hystQ_reset; [|exact H].
      unfold Simple.TEMP_RESET, Simple.TEMP_TRIP. discriminate.
    + intros H1 H2. now apply hystQ_hold.
  - intros mean raw s. split; [reflexivity|].
    rewrite pipeline_temp_high.
    split; [|split].
    + intros H. now apply hystQ_trip.
    + intros H. apply hystQ_reset; [|exact H].
      unfold Real.TEMP_RESET, Real.TEMP_TRIP. discriminate.
    + intros H1 H2. now apply hystQ_hold.
Qed.

(** 85 degrees raise the temperature alarm of simple_boiler_test.py. *)
Lemma X4_witness :
  Simple.alm_temp_high
    (Simple.alm
       (Simple.scan_cycle
          (Simple.mkInputs 350 85 40 true true true true false
                           false false false false)
          Scenario.simple_running)) = true.
Proof.
  apply (proj1 (proj1 (proj2 (proj2 X4_temperature_hysteresis)) _ _)).
  discriminate.
Defined.

(** A flag driven by a hysteresis test is stable over runs. *)
Section LatchRuns.

Variables (S I : Type).
Variable cycle : I -> S -> S.
Variable flag : S -> bool.
Variables (quiet loud : I -> Prop).

Hypothesis stays_false :
  forall i s, quiet i -> flag s = false -> flag (cycle i s) = false.
Hypothesis stays_true :
  forall i s, loud i -> flag s = true -> flag (cycle i s) = true.

Lemma latch_stable_intro : latch_stable cycle flag quiet loud.
Proof.
  intros s l. revert s.
  induction l as [|i l IH]; intros s; split; intros F H; try exact F.
  - rewrite run_cons. inversion H; subst.
    apply (proj1 (IH _)); [now apply stays_false | assumption].
  - rewrite run_cons. inversion H; subst.
    apply (proj2 (IH _)); [now apply stays_true | assumption].
Qed.

End LatchRuns.

(** The same for a test on the value that the cycle has compared, read
    off the state the cycle ends in. *)
Section LatchSeen.

Variables (S I : Type).
Variable cycle : I -> S -> S.
Variable flag : S -> bool.
Variables (quiet loud : S -> Prop).

Hypothesis stays_false :
  forall i s, quiet (cycle i s) -> flag s = false -> flag (cycle i s) = false.
Hypothesis stays_true :
  forall i s, loud (cycle i s) -> flag s = true -> flag (cycle i s) = true.

Lemma latch_stable_seen_intro : latch_stable_seen cycle flag quiet loud.
Proof.
  intros s l. revert s.
  induction l as [|i l IH]; intros s; split; intros F H; try exact F.
  - rewrite run_cons. cbn [trace] in H. inversion H; subst.
    apply (proj1 (IH _)); [now apply stays_false | assumption].
  - rewrite run_cons. cbn [trace] in H. inversion H; subst.
    apply (proj2 (IH _)); [now apply stays_true | assumption].
Qed.

End LatchSeen.

(** X5.  Over any run of cycles, in Controller.py, the emulator and
    simple_boiler_test.py, the voltage alarm does not rise while every
    reading stays below 400 V and does not clear while every reading stays
    at or above 380 V; the temperature alarm likewise with 80 and 75
    degrees.  In the Modbus controller the same holds of the values that
    [check_alarms] compares, the means of the windows at the end of each
    cycle, whatever the mean function is, and not of the readings. *)
Theorem X5_alarm_latches_stable_over_runs :
  latch_stable Controller.scan_cycle
    (fun s => Controller.M_AVARIA_NAPRUGA (Controller.M s))
    (fun i => ControllerNext.volt i < 400)
    (fun i => 380 <= ControllerNext.volt i)
  /\ latch_stable Controller.scan_cycle
       (fun s => Controller.M_AVARIA_TEMP (Controller.M s))
       (fun i => ControllerNext.temp i < 80)
       (fun i => 75 <= ControllerNext.temp i)
  /\ latch_stable Emu.scan_cycle
       (fun s => Emu.ALM_VoltageHigh (Emu.ALM s))
       (fun i => EmuNext.volt i < 400) (fun i => 380 <= EmuNext.volt i)
  /\ latch_stable Emu.scan_cycle
       (fun s => Emu.ALM_TempHigh (Emu.ALM s))
       (fun i => EmuNext.temp i < 80) (fun i => 75 <= EmuNext.temp i)
  /\ latch_stable Simple.scan_cycle
       (fun s => Simple.alm_voltage_high (Simple.alm s))
       (fun i => (Simple.voltage i < 400)%Q)
       (fun i => (380 <= Simple.voltage i)%Q)
  /\ latch_stable Simple.scan_cycle
       (fun s => Simple.alm_temp_high (Simple.alm s))
       (fun i => (Simple.boiler_temp i < 80)%Q)
       (fun i => (75 <= Simple.boiler_temp i)%Q)
  /\ (forall mean : list Q -> Q,
        latch_stable_seen (RealPipeline.scan_body mean)
          RealPipeline.voltage_high
          (fun s => (RealPipeline.voltage_seen mean s < 400)%Q)
          (fun s => (380 <= RealPipeline.voltage_seen mean s)%Q)
        /\ latch_stable_seen (RealPipeline.scan_body mean)
             RealPipeline.temp_high
             (fun s => (RealPipeline.temp_seen mean s < 80)%Q)
             (fun s => (75 <= RealPipeline.temp_seen mean s)%Q)).
Proof.
  repeat match goal with |- _ /\ _ => split end;
    try (apply latch_stable_intro; intros i s H F).
  all: try (rewrite ControllerFacts.ctl_scan_cycle_M; cbn;
            unfold ControllerNext.voltage_alarm', ControllerNext.temp_alarm';
            rewrite F;
            first [now apply hystZ_quiet | now apply hystZ_loud]).
  all: try (destruct (emu_scan_cycle_PHY_ALM i s) as (_ & _ & EV & ET);
            rewrite ?EV, ?ET;
            unfold EmuNext.voltage_high', EmuNext.temp_high';
            rewrite F;
            first [now apply hystZ_quiet | now apply hystZ_loud]).
  all: try (rewrite SimpleFacts.simple_scan_cycle_alm; cbn;
            unfold SimpleNext.voltage_high', SimpleNext.temp_high';
            rewrite F;
            first [now apply hystQ_quiet | now apply hystQ_loud]).
  intros mean. split; apply latch_stable_seen_intro; intros i s H F.
  - rewrite pipeline_voltage_high, F. now apply hystQ_quiet.
  - rewrite pipeline_voltage_high, F. now apply hystQ_loud.
  - rewrite pipeline_temp_high, F. now apply hystQ_quiet.
  - rewrite pipeline_temp_high, F. now apply hystQ_loud.
Qed.

(** Scenario D: 390 V, 395 V, 390 V from the initial state of
    simple_boiler_test.py leave the voltage alarm off. *)
Lemma X5_witness :
  Simple.alm_voltage_high
    (Simple.alm
       (run Simple.scan_cycle Simple.init
          [simple_volts 390; simple_volts 395; simple_volts 390]))
  = false.
Proof.
  apply (proj1 (proj1 (proj2 (proj2 (proj2 (proj2
           X5_alarm_latches_stable_over_runs)))) Simple.init _)).
  - reflexivity.
  - repeat constructor.
Defined.

(* ================================================================== *)
(** * Further properties: the interlock of the actuators *)
(* ================================================================== *)

Lemma Controller_ready_safe i s :
  ControllerNext.ready' i s = true ->
  ControllerNext.alarm' i s = false /\ ControllerNext.on' i s = true
  /\ Controller.X_GAZ i = true /\ Controller.X_VAKUUM i = true
  /\ Controller.X_TISK_MASLA_DI i = true.
Proof.
  unfold ControllerNext.ready'. intros H.
  do 6 (apply andb_true_iff in H; destruct H as [H ?]).
  destruct (ControllerNext.alarm' i s) eqn:A.
  - rewrite (Controller_alarm_stops _ _ A) in *. discriminate.
  - repeat split; assumption.
Qed.

Lemma Simple_ready_safe i s :
  SimpleNext.ready' i s = true ->
  SimpleNext.any_alarm' i s = false /\ SimpleNext.running' i s = true
  /\ Simple.gas_present i = true /\ Simple.vacuum_present i = true
  /\ Simple.oil_pressure_ok i = true.
Proof.
  unfold SimpleNext.ready'. intros H.
  do 7 (apply andb_true_iff in H; destruct H as [H ?]).
  destruct (SimpleNext.any_alarm' i s) eqn:A.
  - rewrite (Simple_alarm_stops _ _ A) in *. discriminate.
  - repeat split; assumption.
Qed.

Lemma Real_ready_safe i s :
  RealNext.ready' i s = true ->
  RealNext.any_alarm' i s = false /\ RealNext.running' i s = true
  /\ Real.Sensors.gas_present (Real.sensors i) = true
  /\ Real.Sensors.vacuum_present (Real.sensors i) = true
  /\ Real.Sensors.oil_pressure_ok (Real.sensors i) = true.
Proof.
  unfold RealNext.ready'. intros H.
  do 7 (apply andb_true_iff in H; destruct H as [H ?]).
  destruct (RealNext.any_alarm' i s) eqn:A.
  - rewrite (proj1 (Real_alarm_stops _ _ A)) in *. discriminate.
  - repeat split; assumption.
Qed.

Lemma Emu_ready_safe i s :
  EmuNext.ready' i s = true ->
  EmuNext.any_alarm' i s = false /\ EmuNext.running' i s = true
  /\ Emu.DI_GasSensor i = true /\ Emu.DI_VacuumSensor i = true
  /\ Emu.DI_OilPressureOK i = true.
Proof.
  unfold EmuNext.ready', EmuNext.any_alarm'. intros H.
  do 7 (apply andb_true_iff in H; destruct H as [H ?]).
  repeat match goal with
         | X : negb _ = true |- _ => apply negb_true_iff in X
         end.
  repeat match goal with
         | X : _ = _ |- _ => rewrite X
         end.
  repeat split; reflexivity.
Qed.

(** X6.  The interlock of the actuators.  In each of the four controllers,
    when a cycle ends with the gas valve open, or (where there are pumps)
    with the water pump or the oil pump on, it also ends with the general
    alarm off, the system running and ready, and gas, vacuum and oil
    pressure present in that cycle.  In the Modbus controller the vector
    written to the coils in that cycle is the one so checked. *)
Theorem X6_actuators_on_only_when_safe :
  (forall i s,
     let s' := Controller.scan_cycle i s in
     Controller.Y_KLAPAN_GAZ (Controller.Y s') = true ->
     Controller.M_ZAGALNA_AVARIA (Controller.M s') = false
     /\ Controller.M_SYSTEM_ON (Controller.M s') = true
     /\ Controller.M_SYSTEM_READY (Controller.M s') = true
     /\ Controller.X_GAZ i = true /\ Controller.X_VAKUUM i = true
     /\ Controller.X_TISK_MASLA_DI i = true)
  /\ (forall i s,
        let s' := Simple.scan_cycle i s in
        Simple.gas_valve (Simple.out s') || Simple.water_pump (Simple.out s')
        || Simple.oil_pump (Simple.out s') = true ->
        Simple.alm_any_alarm (Simple.alm s') = false
        /\ Simple.system_running s' = true
        /\ Simple.system_ready s' = true
        /\ Simple.gas_present i = true /\ Simple.vacuum_present i = true
        /\ Simple.oil_pressure_ok i = true)
  /\ (forall i s,
        let s' := Real.scan_body i s in
        let o := Real.outputs s' in
        Real.Outputs.gas_valve o || Real.Outputs.water_pump o
        || Real.Outputs.oil_pump o = true ->
        hd_error (Real.wire s') = Some o
        /\ Real.Alarms.any_alarm (Real.alarms s') = false
        /\ Real.SystemState.running (Real.system_state s') = true
        /\ Real.SystemState.ready (Real.system_state s') = true
        /\ Real.Sensors.gas_present (Real.sensors i) = true
        /\ Real.Sensors.vacuum_present (Real.sensors i) = true
        /\ Real.Sensors.oil_pressure_ok (Real.sensors i) = true)
  /\ (forall i s,
        let s' := Emu.scan_cycle i s in
        Emu.DO_GasValve (Emu.DO s') || Emu.DO_WaterPump (Emu.DO s')
        || Emu.DO_OilPump (Emu.DO s') = true ->
        Emu.ALM_AnyAlarm (Emu.ALM s') = false
        /\ Emu.SYS_Running (Emu.SYS s') = true
        /\ Emu.SYS_Ready (Emu.SYS s') = true
        /\ Emu.DI_GasSensor i = true /\ Emu.DI_VacuumSensor i = true
        /\ Emu.DI_OilPressureOK i = true).
Proof.
  split; [|split; [|split]]; intros i s; cbv zeta.
  - rewrite ControllerFacts.ctl_scan_cycle_Y,
      ControllerFacts.ctl_scan_cycle_M. cbn.
    intros H.
    assert (R : ControllerNext.ready' i s = true)
      by (destruct (negb (Controller.X_VAKUUM i));
          [discriminate | exact H]).
    destruct (Controller_ready_safe _ _ R) as (A & O & G & V & P).
    repeat split; assumption.
  - rewrite SimpleFacts.simple_scan_cycle_out,
      SimpleFacts.simple_scan_cycle_alm,
      SimpleFacts.simple_scan_cycle_system_running,
      SimpleFacts.simple_scan_cycle_system_ready. cbn.
    intros H.
    assert (R : SimpleNext.ready' i s = true).
    { destruct (SimpleNext.ready' i s); [reflexivity|].
      now destruct (negb (Simple.vacuum_present i)). }
    destruct (Simple_ready_safe _ _ R) as (A & O & G & V & P).
    repeat split; assumption.
  - rewrite RealFacts.real_scan_body_wire, RealFacts.real_scan_body_outputs,
      RealFacts.real_scan_body_alarms,
      RealFacts.real_scan_body_system_state. cbn.
    unfold RealNext.gas_valve'. intros H.
    assert (R : RealNext.ready' i s = true).
    { destruct (RealNext.ready' i s); [reflexivity|].
      now destruct (negb (Real.Sensors.vacuum_present (Real.sensors i))). }
    destruct (Real_ready_safe _ _ R) as (A & O & G & V & P).
    repeat split; assumption.
  - rewrite EmuFacts.emu_scan_cycle_DO, EmuFacts.emu_scan_cycle_AnyAlarm,
      EmuFacts.emu_scan_cycle_SYS. cbn.
    intros H.
    assert (R : EmuNext.ready' i s = true).
    { destruct (EmuNext.ready' i s); [reflexivity|].
      now destruct (negb (Emu.DI_VacuumSensor i)). }
    destruct (Emu_ready_safe _ _ R) as (A & O & G & V & P).
    repeat split; assumption.
Qed.

(** The started Controller.py, one more cycle with all sensors good: the
    valve is open and the alarm is off. *)
Lemma X6_witness :
  Controller.M_ZAGALNA_AVARIA
    (Controller.M
       (Controller.scan_cycle Scenario.ctl_idle Scenario.ctl_running))
  = false.
Proof.
  apply (proj1 (proj1 X6_actuators_on_only_when_safe
                  Scenario.ctl_idle Scenario.ctl_running eq_refl)).
Defined.

(* ================================================================== *)
(** * Further properties: the counters over runs *)
(* ================================================================== *)

Lemma emu_scan_cycle_failures i s :
  Emu.CNT_GasFailures (Emu.CNT (Emu.scan_cycle i s))
  = Emu.CNT_GasFailures (Emu.CNT s)
    + b2z (Emu.FF_GasOld (Emu.FF s) && negb (Emu.DI_GasSensor i))
  /\ Emu.CNT_VacuumFailures (Emu.CNT (Emu.scan_cycle i s))
     = Emu.CNT_VacuumFailures (Emu.CNT s)
       + b2z (Emu.FF_VacuumOld (Emu.FF s) && negb (Emu.DI_VacuumSensor i))
  /\ Emu.CNT_Alarms (Emu.CNT (Emu.scan_cycle i s))
     = Emu.CNT_Alarms (Emu.CNT s)
       + b2z (EmuNext.any_alarm' i s && negb (Emu.FF_AlarmOld (Emu.FF s))).
Proof.
  repeat split; EmuFacts.to_nf; EmuFacts.norm; cbv [hystZ];
    rewrite 1?andb_comm; lia.
Qed.

Lemma run_somes s l :
  run Real.scan_cycle s l = run Real.scan_body s (somes l).
Proof.
  revert s. induction l as [|[i|] l IH]; intros s.
  - reflexivity.
  - cbn [somes]. rewrite !run_cons. apply IH.
  - cbn [somes]. rewrite run_cons. apply IH.
Qed.

(** A counter that a cycle increments on the falling edge of a signal
    whose last value the state keeps. *)
Section FallCounter.

Variables (S I : Type).
Variable cycle : I -> S -> S.
Variable counter : S -> Z.
Variable prev : S -> bool.
Variable sig : I -> bool.

Hypothesis counter_step :
  forall i s, counter (cycle i s) = counter s + b2z (prev s && negb (sig i)).
Hypothesis prev_step : forall i s, prev (cycle i s) = sig i.

Lemma fall_counter_run s l :
  counter (run cycle s l)
  = counter s + count_falls (prev s) (map sig l).
Proof.
  revert s. induction l as [|i l IH]; intros s.
  - cbn. lia.
  - rewrite run_cons, IH, counter_step, prev_step. cbn [map count_falls].
    lia.
Qed.

End FallCounter.

(** X7.  Over any run of cycles from any state, the gas-failure and the
    vacuum-failure counter of each controller grow by the number of
    falling edges of the sensor, the value before the run being the one
    the state remembers; in the Modbus controller the cycles skipped on a
    failed read do not count. *)
Theorem X7_failure_counters_count_falling_edges :
  (forall s l,
     let s' := run Controller.scan_cycle s l in
     Controller.gas_off_count (Controller.st s')
     = Controller.gas_off_count (Controller.st s)
       + count_falls (Controller.M_GAZ_IE (Controller.M s))
           (map Controller.X_GAZ l)
     /\ Controller.vakuum_off_count (Controller.st s')
        = Controller.vakuum_off_count (Controller.st s)
          + count_falls (Controller.M_VAKUUM_IE (Controller.M s))
              (map Controller.X_VAKUUM l))
  /\ (forall s l,
        let s' := run Simple.scan_cycle s l in
        Simple.gas_failures (Simple.stats s')
        = Simple.gas_failures (Simple.stats s)
          + count_falls (Simple.gas_old (Simple.ff s))
              (map Simple.gas_present l)
        /\ Simple.vacuum_failures (Simple.stats s')
           = Simple.vacuum_failures (Simple.stats s)
             + count_falls (Simple.vacuum_old (Simple.ff s))
                 (map Simple.vacuum_present l))
  /\ (forall s l,
        let s' := run Real.scan_cycle s l in
        let e := Real.edge_detectors s in
        Real.Stats.gas_failures (Real.stats s')
        = Real.Stats.gas_failures (Real.stats s)
          + count_falls (Real.EdgeDetectors.gas_old e)
              (map (fun i => Real.Sensors.gas_present (Real.sensors i))
                 (somes l))
        /\ Real.Stats.vacuum_failures (Real.stats s')
           = Real.Stats.vacuum_failures (Real.stats s)
             + count_falls (Real.EdgeDetectors.vacuum_old e)
                 (map (fun i => Real.Sensors.vacuum_present (Real.sensors i))
                    (somes l)))
  /\ (forall s l,
        let s' := run Emu.scan_cycle s l in
        Emu.CNT_GasFailures (Emu.CNT s')
        = Emu.CNT_GasFailures (Emu.CNT s)
          + count_falls (Emu.FF_GasOld (Emu.FF s)) (map Emu.DI_GasSensor l)
        /\ Emu.CNT_VacuumFailures (Emu.CNT s')
           = Emu.CNT_VacuumFailures (Emu.CNT s)
             + count_falls (Emu.FF_VacuumOld (Emu.FF s))
                 (map Emu.DI_VacuumSensor l)).
Proof.
  split; [|split; [|split]]; intros s l; cbv zeta.
  - split.
    + apply (fall_counter_run _ _ Controller.scan_cycle
               (fun s => Controller.gas_off_count (Controller.st s))
               (fun s => Controller.M_GAZ_IE (Controller.M s))
               Controller.X_GAZ); intros i s0.
      * now rewrite ControllerFacts.ctl_scan_cycle_st.
      * now rewrite ControllerFacts.ctl_scan_cycle_M.
    + apply (fall_counter_run _ _ Controller.scan_cycle
               (fun s => Controller.vakuum_off_count (Controller.st s))
               (fun s => Controller.M_VAKUUM_IE (Controller.M s))
               Controller.X_VAKUUM); intros i s0.
      * now rewrite ControllerFacts.ctl_scan_cycle_st.
      * now rewrite ControllerFacts.ctl_scan_cycle_M.
  - split.
    + apply (fall_counter_run _ _ Simple.scan_cycle
               (fun s => Simple.gas_failures (Simple.stats s))
               (fun s => Simple.gas_old (Simple.ff s))
               Simple.gas_present); intros i s0.
      * rewrite SimpleFacts.simple_scan_cycle_stats. cbn.
        now rewrite andb_comm.
      * now rewrite SimpleFacts.simple_scan_cycle_ff.
    + apply (fall_counter_run _ _ Simple.scan_cycle
               (fun s => Simple.vacuum_failures (Simple.stats s))
               (fun s => Simple.vacuum_old (Simple.ff s))
               Simple.vacuum_present); intros i s0.
      * rewrite SimpleFacts.simple_scan_cycle_stats. cbn.
        now rewrite andb_comm.
      * now rewrite SimpleFacts.simple_scan_cycle_ff.
  - rewrite run_somes. split.
    + apply (fall_counter_run _ _ Real.scan_body
               (fun s => Real.Stats.gas_failures (Real.stats s))
               (fun s => Real.EdgeDetectors.gas_old (Real.edge_detectors s))
               (fun i => Real.Sensors.gas_present (Real.sensors i)));
        intros i s0.
      * rewrite RealFacts.real_scan_body_stats. cbn.
        now rewrite andb_comm.
      * now rewrite RealFacts.real_scan_body_edge_detectors.
    + apply (fall_counter_run _ _ Real.scan_body
               (fun s => Real.Stats.vacuum_failures (Real.stats s))
               (fun s =>
                  Real.EdgeDetectors.vacuum_old (Real.edge_detectors s))
               (fun i => Real.Sensors.vacuum_present (Real.sensors i)));
        intros i s0.
      * rewrite RealFacts.real_scan_body_stats. cbn.
        now rewrite andb_comm.
      * now rewrite RealFacts.real_scan_body_edge_detectors.
  - split.
    + apply (fall_counter_run _ _ Emu.scan_cycle
               (fun s => Emu.CNT_GasFailures (Emu.CNT s))
               (fun s => Emu.FF_GasOld (Emu.FF s)) Emu.DI_GasSensor);
        intros i s0.
      * apply emu_scan_cycle_failures.
      * now rewrite EmuFacts.emu_scan_cycle_FF.
    + apply (fall_counter_run _ _ Emu.scan_cycle
               (fun s => Emu.CNT_VacuumFailures (Emu.CNT s))
               (fun s => Emu.FF_VacuumOld (Emu.FF s)) Emu.DI_VacuumSensor);
        intros i s0.
      * apply emu_scan_cycle_failures.
      * now rewrite EmuFacts.emu_scan_cycle_FF.
Qed.

(** A counter that a cycle increments on the rising edge of a flag of the
    state. *)
Section RiseCounter.

Variables (S I : Type).
Variable cycle : I -> S -> S.
Variable counter : S -> Z.
Variable flag : S -> bool.

Hypothesis counter_step :
  forall i s,
    counter (cycle i s) = counter s + b2z (flag (cycle i s) && negb (flag s)).

Lemma rise_counter_run s l :
  counter (run cycle s l)
  = counter s + count_rises (flag s) (map flag (trace cycle s l)).
Proof.
  revert s. induction l as [|i l IH]; intros s.
  - cbn. lia.
  - rewrite run_cons, IH, counter_step. cbn [trace map count_rises]. lia.
Qed.

End RiseCounter.

Lemma emu_scan_cycle_alarm_detector i s :
  emu_alarm_detector_set (Emu.scan_cycle i s).
Proof.
  unfold emu_alarm_detector_set.
  now rewrite EmuFacts.emu_scan_cycle_FF, EmuFacts.emu_scan_cycle_AnyAlarm.
Qed.

Lemma emu_alarm_rises_run s l :
  emu_alarm_detector_set s ->
  Emu.CNT_Alarms (Emu.CNT (run Emu.scan_cycle s l))
  = Emu.CNT_Alarms (Emu.CNT s)
    + count_rises (Emu.ALM_AnyAlarm (Emu.ALM s))
        (map (fun s => Emu.ALM_AnyAlarm (Emu.ALM s))
           (trace Emu.scan_cycle s l)).
Proof.
  revert s. induction l as [|i l IH]; intros s D.
  - cbn. lia.
  - rewrite run_cons, IH by apply emu_scan_cycle_alarm_detector.
    destruct (emu_scan_cycle_failures i s) as (_ & _ & ->).
    cbn [trace map count_rises].
    rewrite EmuFacts.emu_scan_cycle_AnyAlarm. rewrite D. lia.
Qed.

(** X8.  Over any run of cycles, the alarm counter of each controller
    grows by the number of rising edges of the general alarm flag, as it
    stands at the end of each cycle.  The emulator compares with its own
    detector, which equals the flag at the initial state and after every
    cycle. *)
Theorem X8_alarm_counter_counts_rising_edges :
  (forall s l,
     Controller.alarms (Controller.st (run Controller.scan_cycle s l))
     = Controller.alarms (Controller.st s)
       + count_rises (Controller.M_ZAGALNA_AVARIA (Controller.M s))
           (map (fun s => Controller.M_ZAGALNA_AVARIA (Controller.M s))
              (trace Controller.scan_cycle s l)))
  /\ (forall s l,
        Simple.alarms (Simple.stats (run Simple.scan_cycle s l))
        = Simple.alarms (Simple.stats s)
          + count_rises (Simple.alm_any_alarm (Simple.alm s))
              (map (fun s => Simple.alm_any_alarm (Simple.alm s))
                 (trace Simple.scan_cycle s l)))
  /\ (forall s l,
        Real.Stats.alarms (Real.stats (run Real.scan_cycle s l))
        = Real.Stats.alarms (Real.stats s)
          + count_rises (Real.Alarms.any_alarm (Real.alarms s))
              (map (fun s => Real.Alarms.any_alarm (Real.alarms s))
                 (trace Real.scan_cycle s l)))
  /\ emu_alarm_detector_set Emu.init
  /\ (forall i s, emu_alarm_detector_set (Emu.scan_cycle i s))
  /\ (forall s l,
        emu_alarm_detector_set s ->
        Emu.CNT_Alarms (Emu.CNT (run Emu.scan_cycle s l))
        = Emu.CNT_Alarms (Emu.CNT s)
          + count_rises (Emu.ALM_AnyAlarm (Emu.ALM s))
              (map (fun s => Emu.ALM_AnyAlarm (Emu.ALM s))
                 (trace Emu.scan_cycle s l))).
Proof.
  split; [|split; [|split; [|split; [|split]]]].
  - intros s l.
    apply (rise_counter_run _ _ Controller.scan_cycle
             (fun s => Controller.alarms (Controller.st s))
             (fun s => Controller.M_ZAGALNA_AVARIA (Controller.M s))).
    intros i s0.
    now rewrite ControllerFacts.ctl_scan_cycle_st,
      ControllerFacts.ctl_scan_cycle_M.
  - intros s l.
    apply (rise_counter_run _ _ Simple.scan_cycle
             (fun s => Simple.alarms (Simple.stats s))
             (fun s => Simple.alm_any_alarm (Simple.alm s))).
    intros i s0.
    now rewrite SimpleFacts.simple_scan_cycle_stats,
      SimpleFacts.simple_scan_cycle_alm.
  - intros s l.
    apply (rise_counter_run _ _ Real.scan_cycle
             (fun s => Real.Stats.alarms (Real.stats s))
             (fun s => Real.Alarms.any_alarm (Real.alarms s))).
    intros [i|] s0; cbn [Real.scan_cycle].
    + now rewrite RealFacts.real_scan_body_stats,
        RealFacts.real_scan_body_alarms.
    + rewrite andb_negb_r. cbn. lia.
  - reflexivity.
  - apply emu_scan_cycle_alarm_detector.
  - apply emu_alarm_rises_run.
Qed.

(** The emulator from its initial state: the vacuum lost in the second
    cycle and still lost in the third is one alarm. *)
Lemma X8_witness :
  Emu.CNT_Alarms
    (Emu.CNT
       (run Emu.scan_cycle Emu.init
          [Scenario.emu_idle; Scenario.emu_vacuum_lost;
           Scenario.emu_vacuum_lost])) = 1.
Proof.
  exact (proj2 (proj2 (proj2 (proj2 (proj2
           X8_alarm_counter_counts_rising_edges))))
           Emu.init
           [Scenario.emu_idle; Scenario.emu_vacuum_lost;
            Scenario.emu_vacuum_lost] eq_refl).
Defined.

(* ================================================================== *)
(** * Further properties: starts and stops, the vacuum alarm marker, the
      alarm code *)
(* ================================================================== *)

Lemma Controller_balance_step i s :
  let s' := Controller.scan_cycle i s in
  Controller.starts (Controller.st s') - Controller.stops (Controller.st s')
  - b2z (Controller.M_SYSTEM_ON (Controller.M s'))
  = Controller.starts (Controller.st s) - Controller.stops (Controller.st s)
    - b2z (Controller.M_SYSTEM_ON (Controller.M s)).
Proof.
  cbv zeta. rewrite ControllerFacts.ctl_scan_cycle_st,
    ControllerFacts.ctl_scan_cycle_M. cbn.
  unfold ControllerNext.on', ControllerNext.stopped',
    ControllerNext.started'.
  destruct (ControllerNext.alarm' i s), (Controller.CMD_START i),
    (Controller.CMD_STOP i), (Controller.M_SYSTEM_ON (Controller.M s));
    cbn; lia.
Qed.

Lemma Simple_balance_step i s :
  let s' := Simple.scan_cycle i s in
  Simple.starts (Simple.stats s') - Simple.stops (Simple.stats s')
  - b2z (Simple.system_running s')
  = Simple.starts (Simple.stats s) - Simple.stops (Simple.stats s)
    - b2z (Simple.system_running s).
Proof.
  cbv zeta. rewrite SimpleFacts.simple_scan_cycle_stats,
    SimpleFacts.simple_scan_cycle_system_running. cbn.
  unfold SimpleNext.running', SimpleNext.stopped', SimpleNext.started'.
  destruct (SimpleNext.any_alarm' i s), (Simple.cmd_start i),
    (Simple.cmd_stop i), (Simple.start_old (Simple.ff s)),
    (Simple.system_running s); cbn; lia.
Qed.

(** X9.  In Controller.py and in simple_boiler_test.py the start and the
    stop counter stay in step with the running flag: over any run of
    cycles the difference [starts - stops] changes exactly as the flag
    does, so that from the initial state the starts are the stops, plus
    one while the system is on. *)
Theorem X9_starts_and_stops_balance :
  (forall l,
     let s' := run Controller.scan_cycle Controller.init l in
     Controller.starts (Controller.st s')
     = Controller.stops (Controller.st s')
       + b2z (Controller.M_SYSTEM_ON (Controller.M s')))
  /\ (forall s l,
        let s' := run Controller.scan_cycle s l in
        Controller.starts (Controller.st s')
        - Controller.stops (Controller.st s')
        - b2z (Controller.M_SYSTEM_ON (Controller.M s'))
        = Controller.starts (Controller.st s)
          - Controller.stops (Controller.st s)
          - b2z (Controller.M_SYSTEM_ON (Controller.M s)))
  /\ (forall l,
        let s' := run Simple.scan_cycle Simple.init l in
        Simple.starts (Simple.stats s')
        = Simple.stops (Simple.stats s') + b2z (Simple.system_running s'))
  /\ (forall s l,
        let s' := run Simple.scan_cycle s l in
        Simple.starts (Simple.stats s') - Simple.stops (Simple.stats s')
        - b2z (Simple.system_running s')
        = Simple.starts (Simple.stats s) - Simple.stops (Simple.stats s)
          - b2z (Simple.system_running s)).
Proof.
  assert (C : forall s l,
             let s' := run Controller.scan_cycle s l in
             Controller.starts (Controller.st s')
             - Controller.stops (Controller.st s')
             - b2z (Controller.M_SYSTEM_ON (Controller.M s'))
             = Controller.starts (Controller.st s)
               - Controller.stops (Controller.st s)
               - b2z (Controller.M_SYSTEM_ON (Controller.M s))).
  { intros s l. revert s. induction l as [|i l IH]; intros s.
    - reflexivity.
    - cbv zeta in *. rewrite run_cons, IH.
      apply Controller_balance_step. }
  assert (P : forall s l,
             let s' := run Simple.scan_cycle s l in
             Simple.starts (Simple.stats s') - Simple.stops (Simple.stats s')
             - b2z (Simple.system_running s')
             = Simple.starts (Simple.stats s) - Simple.stops (Simple.stats s)
               - b2z (Simple.system_running s)).
  { intros s l. revert s. induction l as [|i l IH]; intros s.
    - reflexivity.
    - cbv zeta in *. rewrite run_cons, IH. apply Simple_balance_step. }
  split; [|split; [exact C|split; [|exact P]]].
  - intros l. cbv zeta. specialize (C Controller.init l). cbn in C. lia.
  - intros l. cbv zeta. specialize (P Simple.init l). cbn in P. lia.
Qed.

Lemma last_cons_default {A : Type} (x d : A) l :
  last (x :: l) d = last l x.
Proof.
  revert x d. induction l as [|y l IH]; intros x d; [reflexivity|].
  change (last (x :: y :: l) d) with (last (y :: l) d).
  now rewrite (IH y d), (IH y x).
Qed.

Lemma last_all_equal x l :
  forallb (Bool.eqb x) l = true -> last l x = x.
Proof.
  induction l as [|y l IH]; intros H; [reflexivity|].
  cbn [forallb] in H. apply andb_true_iff in H. destruct H as [E H].
  apply eqb_prop in E. subst y. rewrite last_cons_default. now apply IH.
Qed.

(** X10.  The vacuum alarm marker of Controller.py is written only in a
    cycle in which the vacuum sensor has changed.  Over any run, the
    sensor marker ends as the last reading, and the alarm marker keeps
    its value when every reading equals the sensor marker before the run
    and is the negation of the last reading otherwise.  From the initial
    state, where the sensor marker is false, the vacuum alarm is
    therefore never raised while the vacuum has been absent in every
    cycle since power-up. *)
Theorem X10_vacuum_alarm_follows_changes_only :
  (forall s l,
     let v := map Controller.X_VAKUUM l in
     let s' := run Controller.scan_cycle s l in
     Controller.M_VAKUUM_IE (Controller.M s')
     = last v (Controller.M_VAKUUM_IE (Controller.M s))
     /\ Controller.M_AVARIA_VAKUUM (Controller.M s')
        = if forallb (Bool.eqb (Controller.M_VAKUUM_IE (Controller.M s))) v
          then Controller.M_AVARIA_VAKUUM (Controller.M s)
          else negb (last v (Controller.M_VAKUUM_IE (Controller.M s))))
  /\ (forall l,
        Forall (fun i => Controller.X_VAKUUM i = false) l ->
        Controller.M_AVARIA_VAKUUM
          (Controller.M (run Controller.scan_cycle Controller.init l))
        = false).
Proof.
  assert (G : forall l s,
             let v := map Controller.X_VAKUUM l in
             let s' := run Controller.scan_cycle s l in
             Controller.M_VAKUUM_IE (Controller.M s')
             = last v (Controller.M_VAKUUM_IE (Controller.M s))
             /\ Controller.M_AVARIA_VAKUUM (Controller.M s')
                = if forallb
                       (Bool.eqb (Controller.M_VAKUUM_IE (Controller.M s))) v
                  then Controller.M_AVARIA_VAKUUM (Controller.M s)
                  else negb (last v
                               (Controller.M_VAKUUM_IE (Controller.M s)))).
  { induction l as [|i l IH]; intros s; cbv zeta in *.
    - split; reflexivity.
    - rewrite run_cons. destruct (IH (Controller.scan_cycle i s)) as [E1 E2].
      rewrite E1, E2, ControllerFacts.ctl_scan_cycle_M.
      cbn [Controller.M_VAKUUM_IE Controller.M_AVARIA_VAKUUM map forallb].
      rewrite last_cons_default. split; [reflexivity|].
      unfold ControllerNext.vakuum_alarm'.
      destruct (Bool.eqb (Controller.M_VAKUUM_IE (Controller.M s))
                  (Controller.X_VAKUUM i)) eqn:E.
      + apply eqb_prop in E. now rewrite E.
      + cbn [andb].
        destruct (forallb (Bool.eqb (Controller.X_VAKUUM i))
                    (map Controller.X_VAKUUM l)) eqn:F; [|reflexivity].
        now rewrite (last_all_equal _ _ F). }
  split.
  - intros s l. apply G.
  - intros l H. destruct (G l Controller.init) as [_ ->].
    cbn [Controller.init Controller.M Controller.M_VAKUUM_IE
         Controller.M_AVARIA_VAKUUM].
    replace (forallb (Bool.eqb false) (map Controller.X_VAKUUM l))
      with true; [reflexivity|].
    symmetry. induction H as [|i l' Hi _ IH]; [reflexivity|].
    cbn [map forallb]. now rewrite Hi, IH.
Qed.

(** Controller.py switched on without vacuum: three cycles, no vacuum
    alarm. *)
Lemma X10_witness :
  Controller.M_AVARIA_VAKUUM
    (Controller.M
       (run Controller.scan_cycle Controller.init
          [Scenario.ctl_vacuum_lost; Scenario.ctl_vacuum_lost;
           Scenario.ctl_vacuum_lost])) = false.
Proof.
  apply (proj2 X10_vacuum_alarm_follows_changes_only).
  repeat constructor.
Defined.

Lemma first_set_zero code l :
  0 < code -> (first_set code l = 0 <-> forallb negb l = true).
Proof.
  revert code. induction l as [|b l IH]; intros code H; cbn.
  - tauto.
  - destruct b; cbn.
    + split; [lia | discriminate].
    + apply IH. lia.
Qed.

Lemma first_set_range code l :
  0 < code -> 0 <= first_set code l <= code + Z.of_nat (length l) - 1
              /\ (first_set code l = 0 \/ code <= first_set code l).
Proof.
  revert code. induction l as [|b l IH]; intros code H; cbn [first_set length].
  - lia.
  - destruct b; [lia|]. specialize (IH (code + 1)). lia.
Qed.

Lemma or7_false (a b c d e f g : bool) :
  forallb negb [a; b; c; d; e; f; g] = true
  <-> a || b || c || d || e || f || g = false.
Proof. destruct a, b, c, d, e, f, g; cbn; intuition discriminate. Qed.

Lemma emu_scan_cycle_AlarmCode i s :
  Emu.ST_AlarmCode (Emu.ST (Emu.scan_cycle i s))
  = first_set 1
      [EmuNext.voltage_high' i s; EmuNext.temp_high' i s;
       negb (Emu.DI_GasSensor i); negb (Emu.DI_VacuumSensor i);
       negb (Emu.DI_OilPressureOK i); negb (Emu.DI_SteamPressureOK i);
       Emu.DI_EmergencyStop i].
Proof. EmuFacts.to_nf. EmuFacts.norm. reflexivity. Qed.

(** X11.  The alarm code.  After a cycle, the code that
    [get_alarm_code] returns (in the emulator, the word [ST_AlarmCode])
    is the number, from 1 to 7, of the first condition that holds among
    voltage high, temperature high, no gas, no vacuum, oil pressure low,
    steam pressure bad and emergency stop, as that cycle has them; it
    lies between 0 and 7 and is 0 exactly when the general alarm of that
    cycle is off. *)
Theorem X11_alarm_code_names_first_alarm :
  (forall i s,
     let s' := Simple.scan_cycle i s in
     let code := Simple.get_alarm_code i s' in
     code = first_set 1
              [SimpleNext.voltage_high' i s; SimpleNext.temp_high' i s;
               negb (Simple.gas_present i); negb (Simple.vacuum_present i);
               negb (Simple.oil_pressure_ok i);
               negb (Simple.steam_pressure_ok i); Simple.emergency_stop i]
     /\ 0 <= code <= 7
     /\ (code = 0 <-> Simple.alm_any_alarm (Simple.alm s') = false))
  /\ (forall i s,
        let s' := Real.scan_body i s in
        let code := Real.get_alarm_code s' in
        let sn := Real.sensors i in
        code = first_set 1
                 [RealNext.voltage_high' i s; RealNext.temp_high' i s;
                  negb (Real.Sensors.gas_present sn);
                  negb (Real.Sensors.vacuum_present sn);
                  negb (Real.Sensors.oil_pressure_ok sn);
                  negb (Real.Sensors.steam_pressure_ok sn);
                  Real.Sensors.emergency_stop sn]
        /\ 0 <= code <= 7
        /\ (code = 0 <-> Real.Alarms.any_alarm (Real.alarms s') = false))
  /\ (forall i s,
        let s' := Emu.scan_cycle i s in
        let code := Emu.ST_AlarmCode (Emu.ST s') in
        code = first_set 1
                 [EmuNext.voltage_high' i s; EmuNext.temp_high' i s;
                  negb (Emu.DI_GasSensor i); negb (Emu.DI_VacuumSensor i);
                  negb (Emu.DI_OilPressureOK i);
                  negb (Emu.DI_SteamPressureOK i); Emu.DI_EmergencyStop i]
        /\ 0 <= code <= 7
        /\ (code = 0 <-> Emu.ALM_AnyAlarm (Emu.ALM s') = false)).
Proof.
  split; [|split]; intros i s; cbv zeta.
  - unfold Simple.get_alarm_code.
    rewrite SimpleFacts.simple_scan_cycle_alm.
    cbn [Simple.alm_voltage_high Simple.alm_temp_high Simple.alm_no_gas
         Simple.alm_no_vacuum Simple.alm_oil_pressure_low
         Simple.alm_steam_pressure_bad Simple.alm_any_alarm].
    change (if SimpleNext.voltage_high' i s then 1 else _)
      with (first_set 1
              [SimpleNext.voltage_high' i s; SimpleNext.temp_high' i s;
               negb (Simple.gas_present i); negb (Simple.vacuum_present i);
               negb (Simple.oil_pressure_ok i);
               negb (Simple.steam_pressure_ok i); Simple.emergency_stop i]).
    split; [reflexivity|]. split.
    + match goal with
      | |- context [first_set 1 ?l] =>
          pose proof (first_set_range 1 l ltac:(lia)) as R
      end.
      cbn [length] in R. lia.
    + rewrite first_set_zero by lia. unfold SimpleNext.any_alarm'.
      apply or7_false.
  - unfold Real.get_alarm_code.
    rewrite RealFacts.real_scan_body_alarms.
    cbn [Real.Alarms.voltage_high Real.Alarms.temp_high Real.Alarms.no_gas
         Real.Alarms.no_vacuum Real.Alarms.oil_pressure_low
         Real.Alarms.steam_pressure_bad Real.Alarms.emergency
         Real.Alarms.any_alarm].
    change (if RealNext.voltage_high' i s then 1 else _)
      with (first_set 1
              [RealNext.voltage_high' i s; RealNext.temp_high' i s;
               negb (Real.Sensors.gas_present (Real.sensors i));
               negb (Real.Sensors.vacuum_present (Real.sensors i));
               negb (Real.Sensors.oil_pressure_ok (Real.sensors i));
               negb (Real.Sensors.steam_pressure_ok (Real.sensors i));
               Real.Sensors.emergency_stop (Real.sensors i)]).
    split; [reflexivity|]. split.
    + match goal with
      | |- context [first_set 1 ?l] =>
          pose proof (first_set_range 1 l ltac:(lia)) as R
      end.
      cbn [length] in R. lia.
    + rewrite first_set_zero by lia. unfold RealNext.any_alarm'.
      apply or7_false.
  - rewrite emu_scan_cycle_AlarmCode, EmuFacts.emu_scan_cycle_AnyAlarm.
    split; [reflexivity|]. split.
    + match goal with
      | |- context [first_set 1 ?l] =>
          pose proof (first_set_range 1 l ltac:(lia)) as R
      end.
      cbn [length] in R. lia.
    + rewrite first_set_zero by lia. unfold EmuNext.any_alarm'.
      apply or7_false.
Qed.

(* ================================================================== *)
(** * Further properties: the timers of the emulator *)
(* ================================================================== *)

Lemma emu_timer_run_S n dt t :
  emu_timer_run (S n) dt t = Emu.timer_update (emu_timer_run n dt t) dt.
Proof. reflexivity. Qed.

(** X12.  The on-delay timer of the emulator.  With its input set and a
    step [dt >= 0], [n] updates leave the input and the preset as they
    are, add [n * dt] to the elapsed time, and the output is set exactly
    when it was set before or, [n] being positive, the elapsed time has
    reached the preset; with its input clear, one update clears the
    output and the elapsed time. *)
Theorem X12_timer_update_iterated :
  (forall n dt t,
     Emu.TON.IN t = true -> 0 <= dt ->
     let t' := emu_timer_run n dt t in
     Emu.TON.IN t' = true /\ Emu.TON.PT t' = Emu.TON.PT t
     /\ Emu.TON.ET t' = Emu.TON.ET t + Z.of_nat n * dt
     /\ Emu.TON.Q t'
        = Emu.TON.Q t
          || (0 <? Z.of_nat n)
             && (Emu.TON.ET t + Z.of_nat n * dt >=? Emu.TON.PT t))
  /\ (forall dt t,
        Emu.TON.IN t = false ->
        Emu.timer_update t dt = Emu.TON.mk false false 0 (Emu.TON.PT t)).
Proof.
  split.
  - intros n dt t HI Hd. cbv zeta.
    induction n as [|n IH].
    + cbn. repeat split; try assumption; try lia.
      now rewrite orb_false_r.
    + destruct IH as (I & P & E & Q).
      rewrite emu_timer_run_S. unfold Emu.timer_update at 1 2 3 4.
      rewrite I. cbn [Emu.TON.IN Emu.TON.Q Emu.TON.ET Emu.TON.PT].
      rewrite E, P, Q.
      repeat split; try lia.
      destruct (Emu.TON.Q t); cbn [orb].
      * match goal with
        | |- (if ?c then _ else _) = _ => destruct c; reflexivity
        end.
      * destruct (Emu.TON.ET t + Z.of_nat n * dt + dt >=? Emu.TON.PT t)
          eqn:G1.
        -- symmetry. apply andb_true_iff. split.
           ++ apply Z.ltb_lt. lia.
           ++ rewrite Z.geb_leb in *. apply Z.leb_le in G1.
              apply Z.leb_le. lia.
        -- rewrite Z.geb_leb in G1. apply Z.leb_gt in G1.
           transitivity false.
           ++ apply andb_false_iff. right. rewrite Z.geb_leb.
              apply Z.leb_gt. nia.
           ++ symmetry. apply andb_false_iff. right. rewrite Z.geb_leb.
              apply Z.leb_gt. lia.
  - intros dt t HI. unfold Emu.timer_update. now rewrite HI.
Qed.

(** The start-delay timer of the emulator, three seconds at 100 ms a
    cycle: the output is set by the 30th update, not by the 29th. *)
Lemma X12_witness :
  Emu.TON.Q (emu_timer_run 30 100 (Emu.TON.mk true false 0 3000)) = true
  /\ Emu.TON.Q (emu_timer_run 29 100 (Emu.TON.mk true false 0 3000)) = false.
Proof.
  split.
  - exact (proj2 (proj2 (proj2
             (proj1 X12_timer_update_iterated 30%nat 100
                (Emu.TON.mk true false 0 3000) eq_refl
                ltac:(discriminate))))).
  - exact (proj2 (proj2 (proj2
             (proj1 X12_timer_update_iterated 29%nat 100
                (Emu.TON.mk true false 0 3000) eq_refl
                ltac:(discriminate))))).
Defined.

Lemma emu_scan_cycle_RunTimer i s :
  Emu.TMR_RunTimer (Emu.TMR (Emu.scan_cycle i s))
  = Emu.timer_update
      (Emu.set_IN
         (if Emu.TON.Q (Emu.TMR_RunTimer (Emu.TMR s)) then true
          else EmuNext.running' i s)
         (Emu.TMR_RunTimer (Emu.TMR s))) 100
  /\ Emu.CNT_RunTime (Emu.CNT (Emu.scan_cycle i s))
     = Emu.CNT_RunTime (Emu.CNT s)
       + b2z (Emu.TON.Q (Emu.TMR_RunTimer (Emu.TMR s))).
Proof.
  split; EmuFacts.to_nf; EmuFacts.norm; [reflexivity|].
  cbv [hystZ]. lia.
Qed.

Lemma Emu_run_timer_latched i s :
  Emu.TON.Q (Emu.TMR_RunTimer (Emu.TMR s)) = true ->
  Emu.TON.Q (Emu.TMR_RunTimer (Emu.TMR (Emu.scan_cycle i s))) = true
  /\ Emu.CNT_RunTime (Emu.CNT (Emu.scan_cycle i s))
     = Emu.CNT_RunTime (Emu.CNT s) + 1.
Proof.
  intros H. destruct (emu_scan_cycle_RunTimer i s) as [-> ->].
  rewrite H. split; [|reflexivity].
  unfold Emu.timer_update, Emu.set_IN.
  cbn [Emu.TON.IN Emu.TON.Q Emu.TON.ET Emu.TON.PT]. rewrite H.
  now destruct (_ >=? _).
Qed.

(** X13.  The run timer of the emulator is never reset once it has
    fired: the statistics block clears its input and sets it again before
    the timer is updated, so the output stays set, and every later cycle
    adds one to [CNT_RunTime], whether the system is running or not. *)
Theorem X13_run_timer_counts_every_cycle_once_fired :
  forall s l,
    Emu.TON.Q (Emu.TMR_RunTimer (Emu.TMR s)) = true ->
    let s' := run Emu.scan_cycle s l in
    Emu.TON.Q (Emu.TMR_RunTimer (Emu.TMR s')) = true
    /\ Emu.CNT_RunTime (Emu.CNT s')
       = Emu.CNT_RunTime (Emu.CNT s) + Z.of_nat (length l).
Proof.
  intros s l. revert s. induction l as [|i l IH]; intros s H; cbv zeta.
  - cbn. split; [assumption | lia].
  - rewrite run_cons.
    destruct (Emu_run_timer_latched i s H) as [Q1 C1].
    destruct (IH _ Q1) as [Q2 C2]. split; [exact Q2|].
    rewrite C2, C1. cbn [length]. lia.
Qed.

(** The emulator running for one second, then stopped: three more cycles
    add three to the run time. *)
Lemma X13_witness :
  let s := run Emu.scan_cycle Scenario.emu_running
             (repeat Scenario.emu_idle 9) in
  Emu.CNT_RunTime
    (Emu.CNT
       (run Emu.scan_cycle s
          [Scenario.emu_stop; Scenario.emu_idle; Scenario.emu_idle]))
  = Emu.CNT_RunTime (Emu.CNT s) + 3
  /\ Emu.SYS_Running
       (Emu.SYS
          (run Emu.scan_cycle s
             [Scenario.emu_stop; Scenario.emu_idle; Scenario.emu_idle]))
     = false.
Proof.
  cbv zeta. split.
  - apply (proj2 (X13_run_timer_counts_every_cycle_once_fired
                    (run Emu.scan_cycle Scenario.emu_running
                       (repeat Scenario.emu_idle 9))
                    [Scenario.emu_stop; Scenario.emu_idle;
                     Scenario.emu_idle]
                    ltac:(vm_compute; reflexivity))).
  - vm_compute. reflexivity.
Defined.

Lemma rev_ind_split {A : Type} (l : list A) :
  length l = 29%nat ->
  exists l' x, l = l' ++ [x] /\ length l' = 28%nat.
Proof.
  intros L. destruct (exists_last (l := l)) as (l' & x & E).
  - intros ->. discriminate.
  - exists l', x. split; [exact E|].
    subst l. rewrite length_app in L. cbn in L. lia.
Qed.

Lemma emu_counting_step k c i s :
  emu_start_counting k c s -> 0 <= k ->
  (k + 1 < 30 -> emu_start_counting (k + 1) c (Emu.scan_cycle i s))
  /\ (k + 1 = 30 ->
      Emu.TMR_StartDelay (Emu.TMR (Emu.scan_cycle i s))
      = Emu.TON.mk true true 3000 3000
      /\ Emu.SYS_Running (Emu.SYS (Emu.scan_cycle i s)) = false
      /\ Emu.CNT_Starts (Emu.CNT (Emu.scan_cycle i s)) = c).
Proof.
  intros (T & R & C) Hk.
  assert (F : EmuNext.fired s = false)
    by (unfold EmuNext.fired; now rewrite T).
  assert (R' : EmuNext.running' i s = false).
  { unfold EmuNext.running'. rewrite F, R.
    now destruct (EmuNext.any_alarm' i s), (EmuNext.stop_edge i s). }
  assert (D : EmuNext.start_delay' i s
              = Emu.TON.mk true (100 * k + 100 >=? 3000) (100 * k + 100)
                  3000).
  { unfold EmuNext.start_delay'. rewrite F, T.
    cbn [Emu.TON.IN]. replace (if EmuNext.armed' i s then true else true)
      with true by now destruct (EmuNext.armed' i s).
    unfold Emu.timer_update, Emu.set_IN.
    cbn [Emu.TON.IN Emu.TON.Q Emu.TON.ET Emu.TON.PT].
    now destruct (_ >=? _). }
  unfold emu_start_counting.
  rewrite EmuFacts.emu_scan_cycle_StartDelay, EmuFacts.emu_scan_cycle_SYS,
    EmuFacts.emu_scan_cycle_Starts, D, F, R'.
  cbn [Emu.SYS_Running b2z].
  split; intros H.
  - replace (100 * k + 100 >=? 3000) with false
      by (symmetry; rewrite Z.geb_leb; apply Z.leb_gt; lia).
    repeat split; try lia. f_equal. lia.
  - replace (100 * k + 100 >=? 3000) with true
      by (symmetry; rewrite Z.geb_leb; apply Z.leb_le; lia).
    repeat split; try lia. f_equal. lia.
Qed.

Lemma emu_counting_run l : forall k c s,
  emu_start_counting k c s -> 0 <= k ->
  k + Z.of_nat (length l) < 30 ->
  emu_start_counting (k + Z.of_nat (length l)) c (run Emu.scan_cycle s l).
Proof.
  induction l as [|i l IH]; intros k c s H Hk Hl.
  - cbn. now rewrite Z.add_0_r.
  - rewrite run_cons. cbn [length] in *.
    replace (k + Z.of_nat (S (length l)))
      with (k + 1 + Z.of_nat (length l)) by lia.
    apply IH; [|lia|lia].
    apply (proj1 (emu_counting_step k c i s H Hk)). lia.
Qed.

(** X14.  The start delay of the emulator cannot be cancelled.  When a
    cycle accepts a start edge with the start-delay timer idle, the
    system is still off after that cycle and the 29 cycles that follow,
    no start being counted, and the cycle after those ends with
    [SYS_Running] set and one start counted, whatever the inputs of
    these 30 cycles are: neither a stop command nor an alarm in between
    stops the timer. *)
Theorem X14_start_delay_cannot_be_cancelled :
  forall s i0 l i1,
    Emu.TMR_StartDelay (Emu.TMR s) = Emu.TON.mk false false 0 3000 ->
    EmuNext.armed' i0 s = true ->
    length l = 29%nat ->
    let s30 := run Emu.scan_cycle (Emu.scan_cycle i0 s) l in
    let s31 := Emu.scan_cycle i1 s30 in
    Emu.SYS_Running (Emu.SYS s30) = false
    /\ Emu.CNT_Starts (Emu.CNT s30) = Emu.CNT_Starts (Emu.CNT s)
    /\ Emu.SYS_Running (Emu.SYS s31) = true
    /\ Emu.CNT_Starts (Emu.CNT s31) = Emu.CNT_Starts (Emu.CNT s) + 1.
Proof.
  intros s i0 l i1 T A L. cbv zeta.
  assert (F : EmuNext.fired s = false)
    by (unfold EmuNext.fired; now rewrite T).
  assert (R : Emu.SYS_Running (Emu.SYS s) = false).
  { unfold EmuNext.armed' in A.
    apply andb_true_iff in A. destruct A as [_ A].
    apply andb_true_iff in A. destruct A as [A _].
    now apply negb_true_iff in A. }
  assert (N : EmuNext.any_alarm' i0 s = false).
  { unfold EmuNext.armed' in A.
    apply andb_true_iff in A. destruct A as [_ A].
    apply andb_true_iff in A. destruct A as [_ A].
    now apply negb_true_iff in A. }
  assert (C1 : emu_start_counting 1 (Emu.CNT_Starts (Emu.CNT s))
                 (Emu.scan_cycle i0 s)).
  { unfold emu_start_counting.
    rewrite EmuFacts.emu_scan_cycle_StartDelay, EmuFacts.emu_scan_cycle_SYS,
      EmuFacts.emu_scan_cycle_Starts.
    unfold EmuNext.start_delay', EmuNext.running'.
    rewrite F, A, N, T, R. cbn.
    repeat split; try lia.
    now destruct (EmuNext.stop_edge i0 s). }
  destruct (rev_ind_split l L) as (l' & i29 & -> & L').
  pose proof (emu_counting_run l' 1 _ _ C1 ltac:(lia) ltac:(lia)) as C29.
  rewrite L' in C29.
  unfold run. rewrite fold_left_app. cbn [fold_left]. fold (run Emu.scan_cycle (Emu.scan_cycle i0 s) l').
  destruct (proj2 (emu_counting_step _ _ i29 _ C29 ltac:(lia)) ltac:(lia))
    as (T30 & R30 & S30).
  split; [exact R30|]. split; [exact S30|].
  assert (F30 : EmuNext.fired
                  (Emu.scan_cycle i29
                     (run Emu.scan_cycle (Emu.scan_cycle i0 s) l')) = true)
    by (unfold EmuNext.fired; now rewrite T30).
  rewrite EmuFacts.emu_scan_cycle_SYS, EmuFacts.emu_scan_cycle_Starts.
  cbn [Emu.SYS_Running]. unfold EmuNext.running'. rewrite F30, S30.
  split; reflexivity.
Qed.

(** From the initial state: start pressed, then 29 cycles with the stop
    command held and the vacuum lost, then one more: the system runs. *)
Lemma X14_witness :
  Emu.SYS_Running
    (Emu.SYS
       (Emu.scan_cycle Scenario.emu_vacuum_lost
          (run Emu.scan_cycle
             (Emu.scan_cycle Scenario.emu_start Emu.init)
             (repeat Scenario.emu_stop 29)))) = true.
Proof.
  exact (proj1 (proj2 (proj2
           (X14_start_delay_cannot_be_cancelled Emu.init Scenario.emu_start
              (repeat Scenario.emu_stop 29) Scenario.emu_vacuum_lost
              eq_refl eq_refl eq_refl)))).
Defined.

(* ================================================================== *)
(** * Further properties: the reset command of the emulator *)
(* ================================================================== *)

Lemma emu_same_but_reset_clear i1 i2 :
  EmuSet.same_but_reset i1 i2 -> emu_clear_reset i1 = emu_clear_reset i2.
Proof.
  unfold EmuSet.same_but_reset, emu_clear_reset.
  intros H.
  repeat match goal with
         | X : _ /\ _ |- _ => destruct X as [-> X]
         end.
  now rewrite H.
Qed.

(** One cycle, up to what the reset block writes, is a function of the
    inputs without the reset command and of the state up to what the
    reset block writes. *)
Lemma emu_scan_cycle_reset_blind i s :
  EmuSet.reset_blind (Emu.scan_cycle i s)
  = EmuSet.reset_blind
      (Emu.scan_cycle (emu_clear_reset i) (EmuSet.reset_blind s)).
Proof.
  destruct s as [d t a y n p f c m k].
  destruct a as [vh th ng nv ol sb em any], f as [so po ro go vo ao],
    m as [ts ta [tin tq tet tpt] tr].
  destruct i.
  unfold EmuSet.reset_blind, emu_clear_reset.
  EmuFacts.to_nf. EmuFacts.norm.
  cbv beta iota zeta delta
    [Emu.AI_BoilerVoltage Emu.AI_BoilerTemp Emu.AI_WaterTemp
     Emu.AI_TempSensor1 Emu.AI_TempSensor2 Emu.AI_OilPressure
     Emu.AI_SteamPressure Emu.DI_GasSensor Emu.DI_VacuumSensor
     Emu.DI_OilPressureOK Emu.DI_SteamPressureOK Emu.DI_EmergencyStop
     Emu.DI_ManualMode Emu.CMD_SystemStart Emu.CMD_SystemStop
     Emu.CMD_Socket1_On Emu.CMD_Socket2_On Emu.CMD_ResetAlarms].
  reflexivity.
Qed.

(** X15.  The reset command of the emulator reaches nothing outside the
    reset block.  Two runs from the same state whose inputs differ only
    in [CMD_ResetAlarms] end in states that agree on every output, status
    word, system flag, counter and timer, and on the alarm flags, except
    for the reset detector, the reset timer and the four sensor alarm
    flags as the reset block leaves them at the end of a cycle; those
    four are written again from the sensors before anything reads
    them. *)
Theorem X15_reset_command_without_effect :
  forall s l1 l2,
    Forall2 EmuSet.same_but_reset l1 l2 ->
    EmuSet.reset_blind (run Emu.scan_cycle s l1)
    = EmuSet.reset_blind (run Emu.scan_cycle s l2).
Proof.
  intros s l1 l2 H.
  assert (G : forall s1 s2,
             EmuSet.reset_blind s1 = EmuSet.reset_blind s2 ->
             EmuSet.reset_blind (run Emu.scan_cycle s1 l1)
             = EmuSet.reset_blind (run Emu.scan_cycle s2 l2)).
  { induction H as [|i1 i2 l1 l2 Hi _ IH]; intros s1 s2 E.
    - exact E.
    - rewrite !run_cons. apply IH.
      rewrite (emu_scan_cycle_reset_blind i1 s1),
        (emu_scan_cycle_reset_blind i2 s2), E.
      now rewrite (emu_same_but_reset_clear _ _ Hi). }
  now apply G.
Qed.

(** Two runs of the emulator from its initial state, the reset command
    pressed in the first cycle of one of them only. *)
Lemma X15_witness :
  EmuSet.reset_blind
    (run Emu.scan_cycle Emu.init [emu_reset; Scenario.emu_idle])
  = EmuSet.reset_blind
      (run Emu.scan_cycle Emu.init [Scenario.emu_idle; Scenario.emu_idle]).
Proof.
  apply X15_reset_command_without_effect.
  repeat constructor.
Defined.

(* ================================================================== *)
(** * Further properties: no start without a rising edge *)
(* ================================================================== *)

(** A start counter and a running flag that only a rising edge of the
    command can move, the state keeping the last value of the command. *)
Section QuietCommand.

Variables (S I : Type).
Variable cycle : I -> S -> S.
Variable counter : S -> Z.
Variable on : S -> bool.
Variable idle : bool -> S -> Prop.
Variable sig : I -> bool.

Hypothesis quiet_step :
  forall prev i s,
    idle prev s -> (sig i = true -> prev = true) ->
    idle (sig i) (cycle i s)
    /\ counter (cycle i s) = counter s
    /\ (on s = false -> on (cycle i s) = false).

Lemma quiet_run l : forall prev s,
  idle prev s -> no_rise prev (map sig l) ->
  counter (run cycle s l) = counter s
  /\ (on s = false -> on (run cycle s l) = false).
Proof.
  induction l as [|i l IH]; intros prev s H N.
  - split; [reflexivity | auto].
  - cbn [map no_rise] in N. destruct N as [N1 N2].
    destruct (quiet_step prev i s H N1) as (H' & C & O).
    rewrite run_cons. destruct (IH _ _ H' N2) as [C' O'].
    split; [now rewrite C' | auto].
Qed.

End QuietCommand.

(** X16.  No start without a rising edge of the start command.  Over any
    run in which the start command never goes from false to true (the
    value before the run being the one the start detector holds), the
    start counter does not move and a system that is off stays off: in
    simple_boiler_test.py from every state, in the Modbus controller
    when no start is enabled, in the emulator when the start-delay timer
    is idle. *)
Theorem X16_no_start_without_rising_edge :
  (forall s l,
     no_rise (Simple.start_old (Simple.ff s)) (map Simple.cmd_start l) ->
     let s' := run Simple.scan_cycle s l in
     Simple.starts (Simple.stats s') = Simple.starts (Simple.stats s)
     /\ (Simple.system_running s = false -> Simple.system_running s' = false))
  /\ (forall s l,
        Real.SystemState.enabled (Real.system_state s) = false ->
        no_rise (Real.EdgeDetectors.start_old (Real.edge_detectors s))
          (map (fun i => Real.Commands.start (Real.commands i)) (somes l)) ->
        let s' := run Real.scan_cycle s l in
        Real.Stats.starts (Real.stats s') = Real.Stats.starts (Real.stats s)
        /\ (Real.SystemState.running (Real.system_state s) = false ->
            Real.SystemState.running (Real.system_state s') = false))
  /\ (forall s l,
        Emu.TON.IN (Emu.TMR_StartDelay (Emu.TMR s)) = false ->
        Emu.TON.Q (Emu.TMR_StartDelay (Emu.TMR s)) = false ->
        no_rise (Emu.FF_StartOld (Emu.FF s)) (map Emu.CMD_SystemStart l) ->
        let s' := run Emu.scan_cycle s l in
        Emu.CNT_Starts (Emu.CNT s') = Emu.CNT_Starts (Emu.CNT s)
        /\ (Emu.SYS_Running (Emu.SYS s) = false ->
            Emu.SYS_Running (Emu.SYS s') = false)).
Proof.
  split; [|split].
  - intros s l N. cbv zeta.
    apply (quiet_run _ _ Simple.scan_cycle
             (fun s => Simple.starts (Simple.stats s)) Simple.system_running
             (fun prev s => Simple.start_old (Simple.ff s) = prev)
             Simple.cmd_start) with (prev := Simple.start_old (Simple.ff s));
      [|reflexivity|exact N].
    intros prev i s0 H E.
    assert (A : SimpleNext.started' i s0 = false).
    { unfold SimpleNext.started'. rewrite H.
      destruct (Simple.cmd_start i); [|reflexivity].
      now rewrite (E eq_refl). }
    rewrite SimpleFacts.simple_scan_cycle_ff,
      SimpleFacts.simple_scan_cycle_stats,
      SimpleFacts.simple_scan_cycle_system_running.
    cbn [Simple.start_old Simple.starts].
    unfold SimpleNext.running'. rewrite A. cbn [b2z].
    repeat split; [lia|]. intros ->. reflexivity.
  - intros s l En N. cbv zeta. rewrite run_somes.
    apply (quiet_run _ _ Real.scan_body
             (fun s => Real.Stats.starts (Real.stats s))
             (fun s => Real.SystemState.running (Real.system_state s))
             (fun prev s =>
                Real.EdgeDetectors.start_old (Real.edge_detectors s) = prev
                /\ Real.SystemState.enabled (Real.system_state s) = false)
             (fun i => Real.Commands.start (Real.commands i)))
      with (prev := Real.EdgeDetectors.start_old (Real.edge_detectors s));
      [|split; [reflexivity|exact En]|exact N].
    intros prev i s0 [H En0] E.
    assert (A : RealNext.armed' i s0 = false).
    { unfold RealNext.armed'. rewrite H.
      destruct (Real.Commands.start (Real.commands i)); [|reflexivity].
      now rewrite (E eq_refl). }
    assert (B : RealNext.enabled' i s0 = false)
      by (unfold RealNext.enabled'; now rewrite En0, A).
    assert (L : RealNext.launched' i s0 = false)
      by (unfold RealNext.launched'; now rewrite B).
    rewrite RealFacts.real_scan_body_edge_detectors,
      RealFacts.real_scan_body_stats,
      RealFacts.real_scan_body_system_state.
    cbn [Real.EdgeDetectors.start_old Real.Stats.starts
         Real.SystemState.enabled Real.SystemState.running].
    unfold RealNext.running'. rewrite L, B. cbn [b2z].
    repeat split; [lia|]. intros ->. reflexivity.
  - intros s l Hin Hq N. cbv zeta.
    apply (quiet_run _ _ Emu.scan_cycle
             (fun s => Emu.CNT_Starts (Emu.CNT s))
             (fun s => Emu.SYS_Running (Emu.SYS s))
             (fun prev s =>
                Emu.FF_StartOld (Emu.FF s) = prev
                /\ EmuNext.start_pending s = 0)
             Emu.CMD_SystemStart)
      with (prev := Emu.FF_StartOld (Emu.FF s)); [| |exact N].
    + intros prev i s0 [H P] E.
      assert (A : EmuNext.armed' i s0 = false).
      { unfold EmuNext.armed'. rewrite H.
        destruct (Emu.CMD_SystemStart i); [|reflexivity].
        now rewrite (E eq_refl). }
      assert (IQ : Emu.TON.IN (Emu.TMR_StartDelay (Emu.TMR s0)) = false
                   /\ EmuNext.fired s0 = false).
      { unfold EmuNext.start_pending, EmuNext.fired in *. clear - P.
        destruct (Emu.TON.IN (Emu.TMR_StartDelay (Emu.TMR s0))),
          (Emu.TON.Q (Emu.TMR_StartDelay (Emu.TMR s0))); cbn in P;
          try discriminate; split; reflexivity. }
      destruct IQ as [I0 F0].
      rewrite EmuFacts.emu_scan_cycle_FF, Emu_pending_step,
        EmuFacts.emu_scan_cycle_Starts, EmuFacts.emu_scan_cycle_SYS.
      cbn [Emu.FF_StartOld Emu.SYS_Running].
      unfold EmuNext.running'. rewrite A, I0, F0. cbn.
      repeat split; [lia|]. intros ->.
      now destruct (EmuNext.any_alarm' i s0), (EmuNext.stop_edge i s0).
    + split; [reflexivity|].
      unfold EmuNext.start_pending. now rewrite Hin, Hq.
Qed.

(** simple_boiler_test.py stopped by the loss of the vacuum, then two
    cycles without a command: still one start, the system off. *)
Lemma X16_witness :
  let s := Simple.scan_cycle Scenario.simple_vacuum_lost
             Scenario.simple_running in
  Simple.starts
    (Simple.stats
       (run Simple.scan_cycle s
          [Scenario.simple_idle; Scenario.simple_idle])) = 1.
Proof.
  cbv zeta.
  exact (proj1 (proj1 X16_no_start_without_rising_edge
                  (Simple.scan_cycle Scenario.simple_vacuum_lost
                     Scenario.simple_running)
                  [Scenario.simple_idle; Scenario.simple_idle]
                  (conj (fun H : false = true => H)
                     (conj (fun H : false = true => H) I)))).
Defined.

(* ================================================================== *)
(** * Further properties: the start delay of the Modbus controller *)
(* ================================================================== *)

(** With the exact sum for the float sum, the two steps with a deadline
    are the steps of the cycle. *)
Lemma RealClock_exact_sum i s :
  RealClock.handle_start_stop_logic Qplus i s
  = Real.handle_start_stop_logic i s
  /\ RealClock.control_gas_valve Qplus i s = Real.control_gas_valve i s.
Proof. split; reflexivity. Qed.

(** X17.  The start delay of boiler_controller_real.py, step
    [handle_start_stop_logic], whatever the float sum [fadd] computes.  A
    call at clock [t] that accepts a start edge (start pressed and not
    pressed before, system not running, no general alarm), without a stop
    edge, enables the start and stores the deadline [fadd t 3]; the system
    runs and the start is counted in that same call exactly when [t] is
    already at or past the deadline.  A call without a start edge, on a
    state enabled and not running, keeps the deadline and ends running,
    with one start counted, exactly when it has no stop edge, the general
    alarm is off and [t] is at or past the stored deadline. *)
Theorem X17_start_delay_of_three_seconds :
  forall (fadd : Q -> Q -> Q) i s,
    let t := Real.time_start_stop i in
    let s' := RealClock.handle_start_stop_logic fadd i s in
    let start_edge :=
      Real.Commands.start (Real.commands i)
      && negb (Real.EdgeDetectors.start_old (Real.edge_detectors s)) in
    let stop_edge :=
      Real.Commands.stop (Real.commands i)
      && negb (Real.EdgeDetectors.stop_old (Real.edge_detectors s)) in
    (start_edge = true ->
     Real.SystemState.running (Real.system_state s) = false ->
     Real.Alarms.any_alarm (Real.alarms s) = false ->
     stop_edge = false ->
     Real.SystemState.enabled (Real.system_state s') = true
     /\ Real.Timers.startup_delay (Real.timers s') = fadd t 3%Q
     /\ Real.SystemState.running (Real.system_state s')
        = Qgeb t (fadd t 3%Q)
     /\ Real.Stats.starts (Real.stats s')
        = Real.Stats.starts (Real.stats s) + b2z (Qgeb t (fadd t 3%Q)))
    /\ (start_edge = false ->
        Real.SystemState.enabled (Real.system_state s) = true ->
        Real.SystemState.running (Real.system_state s) = false ->
        let go :=
          negb stop_edge
          && negb (Real.Alarms.any_alarm (Real.alarms s))
          && Qgeb t (Real.Timers.startup_delay (Real.timers s)) in
        Real.Timers.startup_delay (Real.timers s')
        = Real.Timers.startup_delay (Real.timers s)
        /\ Real.SystemState.running (Real.system_state s') = go
        /\ Real.Stats.starts (Real.stats s')
           = Real.Stats.starts (Real.stats s) + b2z go).
Proof.
  intros fadd i s. cbv zeta.
  destruct s as [run n o a y c t e w].
  destruct y as [en rn rd stb], e as [so po go vo ao], t as [sd gd ed wd].
  destruct a as [? ? ? ? ? ? ? any].
  destruct i as [sn [cs cp c1 c2 cr] t1 t2].
  unfold RealClock.handle_start_stop_logic.
  cbn [Real.commands Real.time_start_stop Real.edge_detectors
       Real.system_state Real.alarms Real.timers Real.stats
       Real.Commands.start Real.Commands.stop
       Real.EdgeDetectors.start_old Real.EdgeDetectors.stop_old
       Real.SystemState.running Real.SystemState.enabled
       Real.Alarms.any_alarm Real.Timers.startup_delay].
  split.
  - intros SE R A PE. subst rn any.
    destruct cs, so, cp, po; try discriminate; RealFacts.normb;
      destruct (Qgeb t1 (fadd t1 3%Q)); cbn; repeat split; lia.
  - intros SE E R. subst en rn.
    destruct cs, so, cp, po, any; try discriminate; RealFacts.normb;
      try destruct (Qgeb t1 sd); cbn; repeat split; lia.
Qed.

(** Start pressed at clock 10 on the fresh controller: the deadline is
    clock 13 and the system does not run yet; the call at clock 14
    starts it. *)
Lemma X17_witness :
  let s1 := RealClock.handle_start_stop_logic Qplus Scenario.real_start
              (Real.start true Real.init) in
  let s2 := RealClock.handle_start_stop_logic Qplus Scenario.real_later s1 in
  Real.SystemState.running (Real.system_state s1) = false
  /\ Real.SystemState.running (Real.system_state s2) = true.
Proof.
  cbv zeta. split.
  - exact (eq_trans
             (proj1 (proj2 (proj2
                (proj1 (X17_start_delay_of_three_seconds Qplus
                          Scenario.real_start (Real.start true Real.init))
                   eq_refl eq_refl eq_refl eq_refl))))
             eq_refl).
  - exact (eq_trans
             (proj1 (proj2
                (proj2 (X17_start_delay_of_three_seconds Qplus
                          Scenario.real_later
                          (RealClock.handle_start_stop_logic Qplus
                             Scenario.real_start
                             (Real.start true Real.init)))
                   eq_refl eq_refl eq_refl)))
             eq_refl).
Defined.

(* ================================================================== *)
(** * Further properties: the signal filter of the Modbus controller *)
(* ================================================================== *)

Section WindowFacts.

Variable A : Type.
Variable mean : list A -> A.

Lemma push_short (w : list A) x :
  (length w < 5)%nat -> RealFilter.push A w x = w ++ [x].
Proof.
  intros H. unfold RealFilter.push. cbv zeta.
  rewrite length_app. cbn [length].
  destruct (Nat.ltb_spec 5 (length w + 1)); [lia | reflexivity].
Qed.

Lemma push_full (w : list A) x :
  (length w = 5)%nat -> RealFilter.push A w x = tl w ++ [x].
Proof.
  intros H. unfold RealFilter.push. cbv zeta.
  rewrite length_app. cbn [length].
  destruct (Nat.ltb_spec 5 (length w + 1)); [|lia].
  destruct w; [discriminate | reflexivity].
Qed.

Lemma push_lastn (w : list A) x :
  (length w <= 5)%nat -> RealFilter.push A w x = lastn 5 (w ++ [x]).
Proof.
  intros H. unfold lastn. rewrite length_app. cbn [length].
  destruct (Nat.eq_dec (length w) 5) as [E|E].
  - rewrite push_full by exact E. rewrite E. cbn.
    destruct w; [discriminate | reflexivity].
  - rewrite push_short by lia.
    replace (length w + 1 - 5)%nat with 0%nat by lia. reflexivity.
Qed.

Lemma push_length (w : list A) x :
  (length w <= 5)%nat ->
  (1 <= length (RealFilter.push A w x) <= 5)%nat.
Proof.
  intros H. destruct (Nat.eq_dec (length w) 5) as [E|E].
  - rewrite push_full by exact E. rewrite length_app. cbn [length].
    destruct w; [discriminate|]. cbn in *. lia.
  - rewrite push_short by lia. rewrite length_app. cbn [length]. lia.
Qed.

Lemma lastn_lastn_app (l l' : list A) :
  lastn 5 (lastn 5 l ++ l') = lastn 5 (l ++ l').
Proof.
  unfold lastn.
  destruct (Nat.le_gt_cases (length l) 5) as [H|H].
  - replace (length l - 5)%nat with 0%nat by lia. reflexivity.
  - rewrite !length_app, length_skipn, !skipn_app, skipn_skipn,
      length_skipn.
    f_equal; f_equal; lia.
Qed.

Lemma feed_lastn l : forall w : list A,
  (length w <= 5)%nat -> RealFilter.feed A w l = lastn 5 (w ++ l).
Proof.
  induction l as [|x l IH]; intros w H.
  - cbn. rewrite app_nil_r. unfold lastn.
    replace (length w - 5)%nat with 0%nat by lia. reflexivity.
  - change (RealFilter.feed A w (x :: l))
      with (RealFilter.feed A (RealFilter.push A w x) l).
    rewrite IH by apply push_length, H.
    rewrite push_lastn by exact H.
    rewrite lastn_lastn_app. now rewrite <- app_assoc.
Qed.

End WindowFacts.

(** X18.  The moving-average filter of boiler_controller_real.py, for
    any type of readings and any mean.  With windows of at most five
    readings (they are empty at the start), [apply_filters] leaves each
    window as the last five readings of the old window followed by the
    new reading, never empty and never longer than five, and writes back
    the mean of the new window: the test [len(w) > 0] never fails.  Fed
    from the empty window, the window is the last five readings of the
    run. *)
Theorem X18_filter_window_is_last_five :
  forall (A : Type) (mean : list A -> A),
    (forall f v t,
       (length (RealFilter.voltage A f) <= 5)%nat ->
       (length (RealFilter.temperature A f) <= 5)%nat ->
       let r := RealFilter.apply_filters A mean f v t in
       let wv := RealFilter.voltage A (fst r) in
       let wt := RealFilter.temperature A (fst r) in
       wv = lastn 5 (RealFilter.voltage A f ++ [v])
       /\ wt = lastn 5 (RealFilter.temperature A f ++ [t])
       /\ (1 <= length wv <= 5)%nat /\ (1 <= length wt <= 5)%nat
       /\ snd r = (mean wv, mean wt))
    /\ (forall l, RealFilter.feed A [] l = lastn 5 l).
Proof.
  intros A mean. split.
  - intros f v t Hv Ht. cbv zeta.
    unfold RealFilter.apply_filters. cbv zeta.
    cbn [fst snd RealFilter.voltage RealFilter.temperature].
    pose proof (push_length A (RealFilter.voltage A f) v Hv) as Lv.
    pose proof (push_length A (RealFilter.temperature A f) t Ht) as Lt.
    split; [now apply push_lastn|]. split; [now apply push_lastn|].
    split; [exact Lv|]. split; [exact Lt|].
    unfold RealFilter.smoothed.
    destruct (Nat.ltb_spec 0 (length (RealFilter.push A
                                        (RealFilter.voltage A f) v)));
      [|lia].
    destruct (Nat.ltb_spec 0 (length (RealFilter.push A
                                        (RealFilter.temperature A f) t)));
      [|lia].
    reflexivity.
  - intros l. apply (feed_lastn A l []). cbn. lia.
Qed.

(** The first cycle: 350 V and 60 degrees into the empty windows. *)
Lemma X18_witness :
  snd (RealFilter.apply_filters Q Qmean (RealFilter.mkFilters Q [] [])
         350%Q 60%Q)
  = (Qmean [350%Q], Qmean [60%Q]).
Proof.
  apply (proj1 (X18_filter_window_is_last_five Q Qmean)); cbn; lia.
Defined.

(* ================================================================== *)
(** * Further properties: the emulator of test_boiler.py *)
(* ================================================================== *)

Lemma eqb_true_r b : Bool.eqb b true = b.
Proof. now destruct b. Qed.

Lemma eqb_false_r b : Bool.eqb b false = negb b.
Proof. now destruct b. Qed.

(** One cycle unfolded, the two threshold tests folded and taken as
    booleans. *)
Ltac plc_unfold i s :=
  unfold PLC.scan_cycle, PLC.any_alarm';
  cbn [PLC.Y PLC.M PLC.D PLC.ST PLC.FF
       PLC.Y_GAS_VALVE PLC.Y_SOCKET1 PLC.Y_SOCKET2 PLC.Y_ALARM_LIGHT
       PLC.Y_PERMIT_RUN PLC.Y_WATER_PUMP
       PLC.M_VOLTAGE_ALARM PLC.M_TEMP_ALARM PLC.M_VACUUM_ALARM
       PLC.M_OIL_ALARM PLC.M_ANY_ALARM PLC.M_SYSTEM_RUN PLC.M_SYSTEM_READY
       PLC.M_GAS_AVAILABLE PLC.M_VACUUM_OK
       PLC.STAT_START_COUNT PLC.STAT_ALARM_COUNT PLC.STAT_GAS_OFF
       PLC.STAT_VAC_OFF];
  rewrite ?eqb_false_r, ?eqb_true_r;
  change (if PLC.AI_VOLTAGE i * PLC.VOLTAGE_MAX / PLC.ADC_MAX
             >=? PLC.VOLTAGE_ALARM
          then true
          else if PLC.AI_VOLTAGE i * PLC.VOLTAGE_MAX / PLC.ADC_MAX
                  <? PLC.VOLTAGE_RESET
               then false else PLC.M_VOLTAGE_ALARM (PLC.M s))
    with (PLC.voltage_alarm' i s);
  change (if PLC.AI_TEMP_BOILER i * PLC.TEMP_MAX / PLC.ADC_MAX
             >=? PLC.TEMP_ALARM
          then true
          else if PLC.AI_TEMP_BOILER i * PLC.TEMP_MAX / PLC.ADC_MAX
                  <? PLC.TEMP_RESET
               then false else PLC.M_TEMP_ALARM (PLC.M s))
    with (PLC.temp_alarm' i s);
  generalize (PLC.voltage_alarm' i s) (PLC.temp_alarm' i s);
  intros va ta.

Ltac plc_alarm_cases i :=
  match goal with
  | va : bool, ta : bool |- _ =>
      destruct va, ta, (PLC.X_VACUUM_OK i), (PLC.X_OIL_PRESS_OK i),
        (PLC.X_EMERGENCY_STOP i)
  end.

(** The markers, outputs, counters and detectors after one cycle. *)
Lemma plc_scan_cycle_alarm i s :
  PLC.M_VOLTAGE_ALARM (PLC.M (PLC.scan_cycle i s)) = PLC.voltage_alarm' i s
  /\ PLC.M_TEMP_ALARM (PLC.M (PLC.scan_cycle i s)) = PLC.temp_alarm' i s
  /\ PLC.M_VACUUM_ALARM (PLC.M (PLC.scan_cycle i s))
     = negb (PLC.X_VACUUM_OK i)
  /\ PLC.M_ANY_ALARM (PLC.M (PLC.scan_cycle i s)) = PLC.any_alarm' i s.
Proof.
  unfold PLC.scan_cycle, PLC.any_alarm', PLC.voltage_alarm',
    PLC.temp_alarm', hystZ.
  cbn [PLC.M PLC.M_VOLTAGE_ALARM PLC.M_TEMP_ALARM PLC.M_VACUUM_ALARM
       PLC.M_ANY_ALARM].
  rewrite !eqb_false_r.
  repeat split; now destruct (PLC.X_VACUUM_OK i).
Qed.

Lemma plc_scan_cycle_run i s :
  PLC.M_SYSTEM_RUN (PLC.M (PLC.scan_cycle i s))
  = negb (PLC.any_alarm' i s)
    && negb (PLC.CMD_STOP i && negb (PLC.M_CMD_STOP_OLD (PLC.FF s)))
    && (PLC.M_SYSTEM_RUN (PLC.M s)
        || PLC.CMD_START i && negb (PLC.M_CMD_START_OLD (PLC.FF s))).
Proof.
  plc_unfold i s.
  plc_alarm_cases i; cbn [negb andb orb]; try reflexivity;
    destruct (PLC.CMD_STOP i), (PLC.M_CMD_STOP_OLD (PLC.FF s)),
      (PLC.M_SYSTEM_RUN (PLC.M s)), (PLC.CMD_START i),
      (PLC.M_CMD_START_OLD (PLC.FF s)); reflexivity.
Qed.

Lemma plc_scan_cycle_ready i s :
  PLC.M_SYSTEM_READY (PLC.M (PLC.scan_cycle i s))
  = PLC.X_GAS_PRESENT i
    && PLC.M_SYSTEM_RUN (PLC.M (PLC.scan_cycle i s)).
Proof.
  plc_unfold i s.
  plc_alarm_cases i; cbn [negb andb orb];
    rewrite ?andb_false_r; try reflexivity;
    destruct (PLC.X_GAS_PRESENT i); reflexivity.
Qed.

Lemma plc_scan_cycle_Y i s :
  PLC.Y (PLC.scan_cycle i s)
  = let m := PLC.M (PLC.scan_cycle i s) in
    PLC.mkOutputs
      (PLC.M_SYSTEM_READY m)
      (PLC.CMD_SOCKET1 i && negb (PLC.M_ANY_ALARM m))
      (PLC.CMD_SOCKET2 i && negb (PLC.M_ANY_ALARM m))
      (PLC.M_ANY_ALARM m)
      (PLC.M_SYSTEM_READY m)
      (PLC.M_SYSTEM_READY m
       && (PLC.AI_TEMP_WATER i * PLC.TEMP_MAX / PLC.ADC_MAX >? 20)).
Proof.
  cbv zeta. plc_unfold i s. f_equal.
  plc_alarm_cases i; cbn [negb andb orb];
    rewrite ?andb_false_r; try reflexivity;
    match goal with
    | |- (if ?c then true else false) = _ => destruct c; reflexivity
    end.
Qed.

Lemma plc_scan_cycle_ST i s :
  PLC.ST (PLC.scan_cycle i s)
  = PLC.mkStats
      (PLC.STAT_START_COUNT (PLC.ST s)
       + b2z (PLC.CMD_START i && negb (PLC.M_CMD_START_OLD (PLC.FF s))
              && (negb (PLC.M_SYSTEM_RUN (PLC.M s))
                  && negb (PLC.any_alarm' i s))))
      (PLC.STAT_ALARM_COUNT (PLC.ST s)
       + b2z (PLC.any_alarm' i s && negb (PLC.M_ALARM_OLD (PLC.FF s))))
      (PLC.STAT_GAS_OFF (PLC.ST s)
       + b2z (PLC.M_GAS_OLD (PLC.FF s) && negb (PLC.X_GAS_PRESENT i)))
      (PLC.STAT_VAC_OFF (PLC.ST s)
       + b2z (PLC.M_VAC_OLD (PLC.FF s) && negb (PLC.X_VACUUM_OK i))).
Proof.
  plc_unfold i s. f_equal.
  - plc_alarm_cases i; cbn [negb andb orb]; rewrite ?andb_false_r;
      cbn [b2z]; try lia;
      destruct (PLC.CMD_START i), (PLC.M_CMD_START_OLD (PLC.FF s)),
        (PLC.M_SYSTEM_RUN (PLC.M s)); cbn; lia.
  - plc_alarm_cases i; cbn [negb andb orb];
      destruct (PLC.M_ALARM_OLD (PLC.FF s)); cbn; lia.
  - destruct (PLC.X_GAS_PRESENT i), (PLC.M_GAS_OLD (PLC.FF s));
      cbn; lia.
  - destruct (PLC.X_VACUUM_OK i), (PLC.M_VAC_OLD (PLC.FF s)); cbn; lia.
Qed.

Lemma plc_scan_cycle_FF i s :
  PLC.FF (PLC.scan_cycle i s)
  = PLC.mkDetectors (PLC.CMD_START i) (PLC.CMD_STOP i)
      (PLC.X_GAS_PRESENT i) (PLC.X_VACUUM_OK i) (PLC.any_alarm' i s).
Proof.
  destruct (plc_scan_cycle_alarm i s) as (_ & _ & _ & <-). reflexivity.
Qed.

Lemma plc_scan_cycle_D i s :
  PLC.VOLTAGE_DISPLAY (PLC.D (PLC.scan_cycle i s))
  = PLC.AI_VOLTAGE i * PLC.VOLTAGE_MAX / PLC.ADC_MAX
  /\ PLC.TEMP_B_DISPLAY (PLC.D (PLC.scan_cycle i s))
     = PLC.AI_TEMP_BOILER i * PLC.TEMP_MAX / PLC.ADC_MAX.
Proof. split; reflexivity. Qed.

(** X19.  The interlock of test_boiler.py.  A cycle that ends with the
    gas valve open, the water pump on or the permit output set ends with
    the general alarm off and the system running, and gas, vacuum and oil
    pressure are present in it; a cycle that ends with the general alarm
    set ends with the system stopped, the valve closed, the pump, the
    permit and both sockets off and the alarm light on. *)
Theorem X19_test_emulator_interlock :
  forall i s,
    let s' := PLC.scan_cycle i s in
    (PLC.Y_GAS_VALVE (PLC.Y s') || PLC.Y_WATER_PUMP (PLC.Y s')
     || PLC.Y_PERMIT_RUN (PLC.Y s') = true ->
     PLC.M_ANY_ALARM (PLC.M s') = false
     /\ PLC.M_SYSTEM_RUN (PLC.M s') = true
     /\ PLC.X_GAS_PRESENT i = true /\ PLC.X_VACUUM_OK i = true
     /\ PLC.X_OIL_PRESS_OK i = true)
    /\ (PLC.M_ANY_ALARM (PLC.M s') = true ->
        PLC.M_SYSTEM_RUN (PLC.M s') = false
        /\ PLC.Y s' = PLC.mkOutputs false false false true false false).
Proof.
  intros i s. cbv zeta.
  rewrite plc_scan_cycle_Y. cbv zeta.
  cbn [PLC.Y_GAS_VALVE PLC.Y_WATER_PUMP PLC.Y_PERMIT_RUN].
  rewrite plc_scan_cycle_ready.
  destruct (plc_scan_cycle_alarm i s) as (_ & _ & _ & ->).
  rewrite plc_scan_cycle_run.
  destruct (PLC.any_alarm' i s) eqn:A.
  - cbn [negb andb]. rewrite !andb_false_r. cbn.
    split; [discriminate|]. intros _. split; reflexivity.
  - split; [|discriminate]. intros H.
    match type of H with
    | context [PLC.X_GAS_PRESENT i && ?r] =>
        assert (G : PLC.X_GAS_PRESENT i && r = true)
          by (destruct (PLC.X_GAS_PRESENT i && r);
              [reflexivity | exact H])
    end.
    apply andb_true_iff in G. destruct G as [G1 G2].
    unfold PLC.any_alarm' in A.
    do 4 (apply orb_false_iff in A; destruct A as [A ?]).
    repeat match goal with
           | X : negb _ = false |- _ => apply negb_false_iff in X
           end.
    repeat split; assumption.
Qed.

(** The inputs of [reset_io] with the start command, from the initial
    state: the valve opens, and the alarm is off. *)
Lemma X19_witness :
  PLC.M_ANY_ALARM
    (PLC.M
       (PLC.scan_cycle
          (PLC.mkInputs 2500 1500 1000 1200 1100 3000 true true true false
                        true false false false) PLC.init)) = false.
Proof.
  apply (proj1 (proj1 (X19_test_emulator_interlock
                         (PLC.mkInputs 2500 1500 1000 1200 1100 3000
                            true true true false true false false false)
                         PLC.init) eq_refl)).
Defined.

(** X20.  The gas sensor of test_boiler.py.  It is no part of the
    general alarm: two cycles from the same state whose inputs differ
    only in the gas sensor end with the same general alarm, the same
    running flag, the same sockets and alarm light and the same start
    and alarm counters.  Yet without gas the cycle ends with the valve
    closed and the pump and the permit off; the valve is open exactly
    when gas is present and the system is running at the end of the
    cycle, so it opens again, without a new start, in the cycle in which
    the gas is back. *)
Theorem X20_test_emulator_gas_sensor :
  (forall i1 i2 s,
     PLC.same_but_gas i1 i2 ->
     let s1 := PLC.scan_cycle i1 s in
     let s2 := PLC.scan_cycle i2 s in
     PLC.M_ANY_ALARM (PLC.M s1) = PLC.M_ANY_ALARM (PLC.M s2)
     /\ PLC.M_SYSTEM_RUN (PLC.M s1) = PLC.M_SYSTEM_RUN (PLC.M s2)
     /\ PLC.Y_SOCKET1 (PLC.Y s1) = PLC.Y_SOCKET1 (PLC.Y s2)
     /\ PLC.Y_SOCKET2 (PLC.Y s1) = PLC.Y_SOCKET2 (PLC.Y s2)
     /\ PLC.Y_ALARM_LIGHT (PLC.Y s1) = PLC.Y_ALARM_LIGHT (PLC.Y s2)
     /\ PLC.STAT_START_COUNT (PLC.ST s1) = PLC.STAT_START_COUNT (PLC.ST s2)
     /\ PLC.STAT_ALARM_COUNT (PLC.ST s1)
        = PLC.STAT_ALARM_COUNT (PLC.ST s2))
  /\ (forall i s,
        let s' := PLC.scan_cycle i s in
        PLC.Y_GAS_VALVE (PLC.Y s')
        = PLC.X_GAS_PRESENT i && PLC.M_SYSTEM_RUN (PLC.M s')
        /\ (PLC.X_GAS_PRESENT i = false ->
            PLC.Y_GAS_VALVE (PLC.Y s') = false
            /\ PLC.Y_WATER_PUMP (PLC.Y s') = false
            /\ PLC.Y_PERMIT_RUN (PLC.Y s') = false)).
Proof.
  split.
  - intros i1 i2 s H. cbv zeta.
    destruct H as (V & T & _ & _ & _ & _ & Vc & Oil & Em & St & Sp & S1 & S2).
    assert (A : PLC.any_alarm' i1 s = PLC.any_alarm' i2 s).
    { unfold PLC.any_alarm', PLC.voltage_alarm', PLC.temp_alarm'.
      now rewrite V, T, Vc, Oil, Em. }
    rewrite !plc_scan_cycle_Y, !plc_scan_cycle_ST, !plc_scan_cycle_run.
    cbv zeta.
    destruct (plc_scan_cycle_alarm i1 s) as (_ & _ & _ & ->).
    destruct (plc_scan_cycle_alarm i2 s) as (_ & _ & _ & ->).
    cbn [PLC.Y_SOCKET1 PLC.Y_SOCKET2 PLC.Y_ALARM_LIGHT PLC.STAT_START_COUNT
         PLC.STAT_ALARM_COUNT].
    rewrite A, St, Sp, S1, S2. repeat split; reflexivity.
  - intros i s. cbv zeta. rewrite plc_scan_cycle_Y. cbv zeta.
    cbn [PLC.Y_GAS_VALVE PLC.Y_WATER_PUMP PLC.Y_PERMIT_RUN].
    rewrite plc_scan_cycle_ready. split; [reflexivity|].
    intros ->. repeat split; reflexivity.
Qed.

(** The running emulator of test_boiler.py, the gas lost: the valve
    closes. *)
Lemma X20_witness :
  PLC.Y_GAS_VALVE
    (PLC.Y
       (PLC.scan_cycle
          (PLC.mkInputs 2500 1500 1000 1200 1100 3000 false true true false
                        false false false false)
          (PLC.scan_cycle
             (PLC.mkInputs 2500 1500 1000 1200 1100 3000 true true true
                           false true false false false) PLC.init)))
  = false.
Proof.
  apply (proj2 (proj2 X20_test_emulator_gas_sensor _ _)). reflexivity.
Defined.

(** X21.  The counters and the start command of test_boiler.py over any
    run of cycles.  The gas and the vacuum counter grow by the number of
    falling edges of the sensor; and while the start command has no
    rising edge, the start counter does not move and a stopped system
    stays stopped. *)
Theorem X21_test_emulator_counters_and_start :
  (forall s l,
     let s' := run PLC.scan_cycle s l in
     PLC.STAT_GAS_OFF (PLC.ST s')
     = PLC.STAT_GAS_OFF (PLC.ST s)
       + count_falls (PLC.M_GAS_OLD (PLC.FF s)) (map PLC.X_GAS_PRESENT l)
     /\ PLC.STAT_VAC_OFF (PLC.ST s')
        = PLC.STAT_VAC_OFF (PLC.ST s)
          + count_falls (PLC.M_VAC_OLD (PLC.FF s)) (map PLC.X_VACUUM_OK l))
  /\ (forall s l,
        no_rise (PLC.M_CMD_START_OLD (PLC.FF s)) (map PLC.CMD_START l) ->
        let s' := run PLC.scan_cycle s l in
        PLC.STAT_START_COUNT (PLC.ST s') = PLC.STAT_START_COUNT (PLC.ST s)
        /\ (PLC.M_SYSTEM_RUN (PLC.M s) = false ->
            PLC.M_SYSTEM_RUN (PLC.M s') = false)).
Proof.
  split.
  - intros s l. cbv zeta. split.
    + apply (fall_counter_run _ _ PLC.scan_cycle
               (fun s => PLC.STAT_GAS_OFF (PLC.ST s))
               (fun s => PLC.M_GAS_OLD (PLC.FF s)) PLC.X_GAS_PRESENT);
        intros i s0.
      * now rewrite plc_scan_cycle_ST.
      * now rewrite plc_scan_cycle_FF.
    + apply (fall_counter_run _ _ PLC.scan_cycle
               (fun s => PLC.STAT_VAC_OFF (PLC.ST s))
               (fun s => PLC.M_VAC_OLD (PLC.FF s)) PLC.X_VACUUM_OK);
        intros i s0.
      * now rewrite plc_scan_cycle_ST.
      * now rewrite plc_scan_cycle_FF.
  - intros s l N. cbv zeta.
    apply (quiet_run _ _ PLC.scan_cycle
             (fun s => PLC.STAT_START_COUNT (PLC.ST s))
             (fun s => PLC.M_SYSTEM_RUN (PLC.M s))
             (fun prev s => PLC.M_CMD_START_OLD (PLC.FF s) = prev)
             PLC.CMD_START)
      with (prev := PLC.M_CMD_START_OLD (PLC.FF s)); [|reflexivity|exact N].
    intros prev i s0 H E.
    assert (A : PLC.CMD_START i && negb (PLC.M_CMD_START_OLD (PLC.FF s0))
                = false).
    { rewrite H. destruct (PLC.CMD_START i); [|reflexivity].
      now rewrite (E eq_refl). }
    rewrite plc_scan_cycle_FF, plc_scan_cycle_ST, plc_scan_cycle_run.
    cbn [PLC.M_CMD_START_OLD PLC.STAT_START_COUNT].
    rewrite A. cbn [andb b2z].
    repeat split; [lia|]. intros ->. now rewrite andb_false_r.
Qed.

(** The emulator of test_boiler.py stopped by an emergency stop while
    the start command is held, then the command still held: no second
    start. *)
Lemma X21_witness :
  let held := PLC.mkInputs 2500 1500 1000 1200 1100 3000 true true true
                           false true false false false in
  let s := PLC.scan_cycle held PLC.init in
  PLC.STAT_START_COUNT (PLC.ST (run PLC.scan_cycle s [held; held])) = 1.
Proof.
  cbv zeta.
  exact (proj1 (proj2 X21_test_emulator_counters_and_start
                  (PLC.scan_cycle
                     (PLC.mkInputs 2500 1500 1000 1200 1100 3000 true true
                        true false true false false false) PLC.init)
                  [PLC.mkInputs 2500 1500 1000 1200 1100 3000 true true
                     true false true false false false;
                   PLC.mkInputs 2500 1500 1000 1200 1100 3000 true true
                     true false true false false false]
                  (conj (fun _ => eq_refl) (conj (fun _ => eq_refl) I)))).
Defined.

(** X22.  The two threshold alarms of test_boiler.py.  After
    [set_voltage(x)] the next scan displays [x] or [x - 1] volts, for
    every integer [x], and likewise for [set_temperature]; the voltage
    alarm is set when [x >= 400] and clear when [x <= 380], the
    temperature alarm is set when [x >= 80] and clear when [x <= 75];
    and over any run a flag does not rise while every reading stays
    below the trip threshold and does not clear while every reading
    stays at or above the reset threshold. *)
Theorem X22_test_emulator_thresholds :
  (forall x i s,
     let sv := PLC.scan_cycle (PLC.set_voltage x i) s in
     let st := PLC.scan_cycle (PLC.set_temperature x i) s in
     x - 1 <= PLC.VOLTAGE_DISPLAY (PLC.D sv) <= x
     /\ x - 1 <= PLC.TEMP_B_DISPLAY (PLC.D st) <= x
     /\ (400 <= x -> PLC.M_VOLTAGE_ALARM (PLC.M sv) = true)
     /\ (x <= 380 -> PLC.M_VOLTAGE_ALARM (PLC.M sv) = false)
     /\ (80 <= x -> PLC.M_TEMP_ALARM (PLC.M st) = true)
     /\ (x <= 75 -> PLC.M_TEMP_ALARM (PLC.M st) = false))
  /\ latch_stable PLC.scan_cycle (fun s => PLC.M_VOLTAGE_ALARM (PLC.M s))
       (fun i => PLC.AI_VOLTAGE i * PLC.VOLTAGE_MAX / PLC.ADC_MAX < 400)
       (fun i => 380 <= PLC.AI_VOLTAGE i * PLC.VOLTAGE_MAX / PLC.ADC_MAX)
  /\ latch_stable PLC.scan_cycle (fun s => PLC.M_TEMP_ALARM (PLC.M s))
       (fun i => PLC.AI_TEMP_BOILER i * PLC.TEMP_MAX / PLC.ADC_MAX < 80)
       (fun i => 75 <= PLC.AI_TEMP_BOILER i * PLC.TEMP_MAX / PLC.ADC_MAX).
Proof.
  split; [|split].
  - intros x i s. cbv zeta.
    destruct (plc_scan_cycle_D (PLC.set_voltage x i) s) as [-> _].
    destruct (plc_scan_cycle_D (PLC.set_temperature x i) s) as [_ ->].
    destruct (plc_scan_cycle_alarm (PLC.set_voltage x i) s)
      as (-> & _ & _ & _).
    destruct (plc_scan_cycle_alarm (PLC.set_temperature x i) s)
      as (_ & -> & _ & _).
    unfold PLC.voltage_alarm', PLC.temp_alarm'.
    cbn [PLC.set_voltage PLC.set_temperature PLC.AI_VOLTAGE
         PLC.AI_TEMP_BOILER].
    unfold PLC.ADC_MAX, PLC.VOLTAGE_MAX, PLC.TEMP_MAX, PLC.VOLTAGE_ALARM,
      PLC.VOLTAGE_RESET, PLC.TEMP_ALARM, PLC.TEMP_RESET.
    assert (RV := adc_round_trip x 4095 500 ltac:(lia)).
    assert (RT := adc_round_trip x 4095 150 ltac:(lia)).
    split; [exact RV|]. split; [exact RT|].
    split; [|split; [|split]]; intros H.
    + apply hystZ_trip.
      destruct (Z.eq_dec x 400) as [-> | N]; [discriminate | lia].
    + apply hystZ_reset; [lia|].
      destruct (Z.eq_dec x 380) as [-> | N]; [reflexivity | lia].
    + apply hystZ_trip.
      destruct (Z.eq_dec x 80) as [-> | N]; [discriminate | lia].
    + apply hystZ_reset; [lia|].
      destruct (Z.eq_dec x 75) as [-> | N]; [reflexivity | lia].
  - apply latch_stable_intro; intros i s H F;
      destruct (plc_scan_cycle_alarm i s) as (-> & _ & _ & _);
      unfold PLC.voltage_alarm'; rewrite F.
    + now apply hystZ_quiet.
    + now apply hystZ_loud.
  - apply latch_stable_intro; intros i s H F;
      destruct (plc_scan_cycle_alarm i s) as (_ & -> & _ & _);
      unfold PLC.temp_alarm'; rewrite F.
    + now apply hystZ_quiet.
    + now apply hystZ_loud.
Qed.

(** [set_voltage(420)], as the test of test_boiler.py does: alarm. *)
Lemma X22_witness :
  PLC.M_VOLTAGE_ALARM
    (PLC.M (PLC.scan_cycle (PLC.set_voltage 420 PLC.reset_inputs) PLC.init))
  = true.
Proof.
  apply (proj1 (proj2 (proj2 (proj1 X22_test_emulator_thresholds 420
                                PLC.reset_inputs PLC.init)))).
  lia.
Defined.

(* ================================================================== *)
(** * Further properties: the tester of test_st_code.py *)
(* ================================================================== *)

(** X23.  The combinational logic of test_st_code.py.  For every input
    dictionary, [execute_st_logic] returns the gas valve equal to the
    ready flag and to the negation of the general alarm (the vacuum
    override never changes the value), the alarm light equal to the
    general alarm and each socket equal to its command and the ready
    flag; all seven scenarios of [create_test_scenarios] pass
    [check_outputs], so that [simulate_st_execution] returns true on
    them; and on the physical values and sensors of a cycle of the
    emulator, the logic opens the valve whenever the emulator does, and
    the emulator raises the general alarm whenever the logic does. *)
Theorem X23_st_logic_of_the_tester :
  (forall inputs,
     let o := STTest.execute_st_logic inputs in
     STTest.DO_GAS_VALVE o = STTest.SYSTEM_READY o
     /\ STTest.SYSTEM_READY o = negb (STTest.ALM_ANY_ALARM o)
     /\ STTest.DO_ALARM_LIGHT o = STTest.ALM_ANY_ALARM o
     /\ STTest.DO_SOCKET1 o
        = STTest.get (STTest.CMD_SOCKET1 inputs) false
          && STTest.SYSTEM_READY o
     /\ STTest.DO_SOCKET2 o
        = STTest.get (STTest.CMD_SOCKET2 inputs) false
          && STTest.SYSTEM_READY o)
  /\ STTest.simulate_st_execution [] STTest.create_test_scenarios
     = (repeat true 7, true)
  /\ (forall i s,
        let o := STTest.execute_st_logic (STTest.of_emulator i) in
        let s' := Emu.scan_cycle i s in
        (Emu.DO_GasValve (Emu.DO s') = true -> STTest.DO_GAS_VALVE o = true)
        /\ (STTest.ALM_ANY_ALARM o = true ->
            Emu.ALM_AnyAlarm (Emu.ALM s') = true)).
Proof.
  split; [|split].
  - intros inputs. cbv zeta. unfold STTest.execute_st_logic. cbv zeta.
    cbn [STTest.DO_GAS_VALVE STTest.SYSTEM_READY STTest.ALM_ANY_ALARM
         STTest.DO_ALARM_LIGHT STTest.DO_SOCKET1 STTest.DO_SOCKET2].
    destruct (STTest.get (STTest.AI_VOLTAGE inputs) 0 >=? 400),
      (STTest.get (STTest.AI_BOILER_TEMP inputs) 0 >=? 80),
      (STTest.get (STTest.DI_GAS_SENSOR inputs) false),
      (STTest.get (STTest.DI_VACUUM_SENSOR inputs) false);
      cbn; rewrite ?andb_true_r, ?andb_false_r; repeat split; reflexivity.
  - reflexivity.
  - intros i s. cbv zeta.
    rewrite EmuFacts.emu_scan_cycle_DO, EmuFacts.emu_scan_cycle_AnyAlarm.
    cbn [Emu.DO_GasValve].
    unfold STTest.execute_st_logic, STTest.of_emulator. cbv zeta.
    cbn [STTest.DO_GAS_VALVE STTest.ALM_ANY_ALARM STTest.get
         STTest.AI_VOLTAGE STTest.AI_BOILER_TEMP STTest.DI_GAS_SENSOR
         STTest.DI_VACUUM_SENSOR].
    assert (V : (EmuNext.volt i >=? 400) = true ->
                EmuNext.voltage_high' i s = true).
    { intros G. unfold EmuNext.voltage_high', hystZ, Emu.VOLTAGE_TRIP.
      now rewrite G. }
    assert (T : (EmuNext.temp i >=? 80) = true ->
                EmuNext.temp_high' i s = true).
    { intros G. unfold EmuNext.temp_high', hystZ, Emu.TEMP_TRIP.
      now rewrite G. }
    split.
    + intros H.
      assert (R : EmuNext.ready' i s = true).
      { destruct (EmuNext.ready' i s); [reflexivity|].
        now destruct (negb (Emu.DI_VacuumSensor i)). }
      destruct (Emu_ready_safe _ _ R) as (A & _ & G & W & _).
      unfold EmuNext.any_alarm' in A.
      do 6 (apply orb_false_iff in A; destruct A as [A ?]).
      rewrite G, W.
      destruct (EmuNext.volt i >=? 400);
        [rewrite V in A by reflexivity; discriminate|].
      destruct (EmuNext.temp i >=? 80); [|reflexivity].
      match goal with
      | X : EmuNext.temp_high' i s = false |- _ =>
          rewrite T in X by reflexivity; discriminate
      end.
    + intros H. unfold EmuNext.any_alarm'.
      destruct (EmuNext.volt i >=? 400);
        [now rewrite V by reflexivity|].
      destruct (EmuNext.temp i >=? 80).
      * rewrite T by reflexivity. now rewrite orb_true_r.
      * cbn [orb] in H.
        destruct (Emu.DI_GasSensor i), (Emu.DI_VacuumSensor i);
          cbn in H; try discriminate; cbn;
          rewrite ?orb_true_r; reflexivity.
Qed.

(** The started emulator with all sensors good: its valve is open, and
    so is the valve of the tester's logic. *)
Lemma X23_witness :
  STTest.DO_GAS_VALVE
    (STTest.execute_st_logic (STTest.of_emulator Scenario.emu_idle)) = true.
Proof.
  apply (proj1 (proj2 (proj2 X23_st_logic_of_the_tester)
                  Scenario.emu_idle Scenario.emu_running)).
  vm_compute. reflexivity.
Defined.

(* ================================================================== *)
(** * Further properties: the valve delay and the run time of the Modbus
      controller *)
(* ================================================================== *)

(** X24.  The valve delay of boiler_controller_real.py, step
    [control_gas_valve], whatever the float sum [fadd] computes.  A call
    at clock [t] on a state that is not ready closes the gas valve and
    stores the deadline [fadd t 2].  A call on a ready state keeps the
    deadline; it leaves the valve open exactly when the vacuum is present
    and either [t] is at or past the stored deadline or the valve was open
    already.  So a closed valve opens only at or past the deadline that the
    last call on a state not ready has stored. *)
Theorem X24_gas_valve_delay_of_two_seconds :
  forall (fadd : Q -> Q -> Q) i s,
    let t := Real.time_gas_valve i in
    let s' := RealClock.control_gas_valve fadd i s in
    (Real.SystemState.ready (Real.system_state s) = false ->
     Real.Outputs.gas_valve (Real.outputs s') = false
     /\ Real.Timers.gas_valve_delay (Real.timers s') = fadd t 2%Q)
    /\ (Real.SystemState.ready (Real.system_state s) = true ->
        Real.Timers.gas_valve_delay (Real.timers s')
        = Real.Timers.gas_valve_delay (Real.timers s)
        /\ Real.Outputs.gas_valve (Real.outputs s')
           = Real.Sensors.vacuum_present (Real.sensors i)
             && (Qgeb t (Real.Timers.gas_valve_delay (Real.timers s))
                 || Real.Outputs.gas_valve (Real.outputs s))).
Proof.
  intros fadd i s. cbv zeta.
  destruct s as [run n o a y c t e w].
  destruct y as [en rn rd stb], o as [gv ? ? ? ? ? ? ?], t as [sd gd ed wd].
  destruct i as [[? ? ? ? ? ? ? ? vac ? ? ? ?] cm t1 t2].
  unfold RealClock.control_gas_valve.
  cbn [Real.system_state Real.SystemState.ready Real.sensors
       Real.Sensors.vacuum_present Real.time_gas_valve Real.timers
       Real.Timers.gas_valve_delay Real.outputs Real.Outputs.gas_valve].
  split; intros R; subst rd.
  - destruct vac; RealFacts.normb; cbn; split; reflexivity.
  - destruct vac, (Qgeb t2 gd); RealFacts.normb; cbn; split;
      try reflexivity; now destruct gv.
Qed.

(** The fresh controller is not ready: the call at clock 10 closes the
    valve and sets the deadline to clock 12; once ready, with the vacuum
    present, the call at clock 14 opens the valve. *)
Lemma X24_witness :
  let s1 := RealClock.control_gas_valve Qplus Scenario.real_start
              (Real.start true Real.init) in
  let s2 := RealClock.control_gas_valve Qplus Scenario.real_later
              (Real.set_ready true s1) in
  Real.Outputs.gas_valve (Real.outputs s1) = false
  /\ Real.Outputs.gas_valve (Real.outputs s2) = true.
Proof.
  cbv zeta. split.
  - exact (proj1
             (proj1 (X24_gas_valve_delay_of_two_seconds Qplus
                       Scenario.real_start (Real.start true Real.init))
                eq_refl)).
  - exact (eq_trans
             (proj2
                (proj2 (X24_gas_valve_delay_of_two_seconds Qplus
                          Scenario.real_later
                          (Real.set_ready true
                             (RealClock.control_gas_valve Qplus
                                Scenario.real_start
                                (Real.start true Real.init))))
                   eq_refl))
             eq_refl).
Defined.

Lemma real_scan_cycle_runtime r s :
  Real.Stats.runtime_seconds (Real.stats (Real.scan_cycle r s))
  = Real.Stats.runtime_seconds (Real.stats s)
    + match r with
      | Some _ =>
          b2z (Real.SystemState.running
                 (Real.system_state (Real.scan_cycle r s)))
      | None => 0
      end.
Proof.
  destruct r as [i|]; cbn [Real.scan_cycle]; [|lia].
  now rewrite RealFacts.real_scan_body_system_state,
    RealFacts.real_scan_body_stats.
Qed.

(** X25.  The run time of boiler_controller_real.py counts cycles, not
    seconds: over any run, [runtime_seconds] grows by the number of
    cycles that read their inputs and ended with the system running,
    whatever the clock readings were; a cycle skipped on a failed read
    adds nothing. *)
Theorem X25_runtime_counts_running_cycles :
  forall s l,
    Real.Stats.runtime_seconds (Real.stats (run Real.scan_cycle s l))
    = Real.Stats.runtime_seconds (Real.stats s)
      + count_true
          (map (fun s => Real.SystemState.running (Real.system_state s))
             (trace Real.scan_body s (somes l))).
Proof.
  intros s l. rewrite run_somes. revert s.
  induction (somes l) as [|i l' IH]; intros s.
  - cbn. lia.
  - rewrite run_cons, IH. cbn [trace map count_true].
    pose proof (real_scan_cycle_runtime (Some i) s) as R.
    cbn [Real.scan_cycle] in R. rewrite R. lia.
Qed.
